(* ===== verification/_CoqProject ===== *)
-Q . S2P
Prelude.v
PyRuntime.v
PyStr.v
Base64.v
Md5.v
PyFloat.v
Image.v
FloatBound.v
Stream.v
Client.v
World.v
LlmCaption.v
Session.v
MemoSpec.v
Concurrency.v
