(* ===== verification/Prelude.v ===== *)
(** * A verification library for markitdown's image captioning helper

    The program is [packages/markitdown/src/markitdown/converters/_llm_caption.py]
    (95 lines of Python).  It has three functions and one piece of global state:

    - [encode_image_as_base64_data_uri(image_data, max_short_side_length)]
      (lines 11-26) opens the bytes with PIL, passes a small enough JPEG
      through unchanged, otherwise resizes it, converts it to RGB, re-encodes
      it as JPEG, and returns ["data:image/jpeg;base64," + b64encode(..)].
    - [resize_image(img, short_side_length)] (lines 29-44) computes the new
      size with Python float arithmetic [int((s / width) * height)] and calls
      PIL's [resize].
    - [llm_caption(file_stream, stream_info, client, model, prompt)]
      (lines 47-95) picks a default prompt, computes a content type that is
      never used, reads the stream from its current position inside
      [try/except Exception/finally] (the [finally] seeks back), memoises by
      [hashlib.md5(data).hexdigest()] in the module-level dict [MEMCACHE]
      (line 8), and otherwise sends one chat request to the client and caches
      [response.choices[0].message.content].

    The pieces interact through shared state: the caller's stream (read
    and then sought back), the process-wide [MEMCACHE], standard output
    (one line when an image is resized) and the caller's client object.
    Three libraries are only called: PIL, [hashlib], [base64] (and
    [mimetypes] for a value that is never used).

    ** Layout (files in dependency order, one library)

    - [Prelude] (this file): the [py_scope] scope, the [llmcap] and
      [llmcap_rw] hint databases, bytes as unsigned 8-bit integers,
      [lor]/[shiftl] packing, finite checks by computation
      ([forall_below], [forall_range]) and the tactics [zlia] (lia with
      the equations of [Z.div]/[Z.modulo]) and [split_and].
    - [PyRuntime]: Python control flow as the monad [PyM S A = S ->
      outcome A * S] (effects before a [raise] persist), the exception
      classes met ([exn], [is_Exception] for [except Exception]), [focus]
      to run an object's operation inside the world, and
      [try_except_finally] with Python's rules; its laws.
    - [PyStr]: [str] as code points; [str.isspace] (the 29 code points of
      CPython 3.11), [strip], strict UTF-8 decoding, [repr] of [int]s and
      size tuples.
    - [Base64]: [base64.b64encode] as [binascii] packs and masks each group,
      the reference decoder, the round trip, length and ASCII output.
    - [Md5]: [hashlib.md5(..).hexdigest()] after RFC 1321 on 32-bit words in
      [Z]; the RFC vectors and the Wang et al. collision evaluate by
      [vm_compute].
    - [PyFloat]: [int / int], [float * int] and [int(float)] on Rocq's
      primitive binary64 floats, which are Python's floats.
    - [Image]: the PIL interface [PilImage] and the stdout interface
      [HasStdout] (classes); [resize_dims] and [resize_image] (lines 29-44),
      [encode_image_as_base64_data_uri] (lines 11-26) in [PyM]; Pillow's
      [Image.open] format loop ([open_core], [image_open]) with the
      formats of line 14 ([code_formats]); the test instance [ToyPil],
      whose [Image.open] is that loop over a two-plugin registry.
    - [FloatBound]: the rounding of [SpecFloat] (what primitive floats
      compute) in the normal range, as lemmas: integers below [2^53]
      convert exactly, a quotient or a product of 53-digit floats is within
      one unit in the last place; hence the general error bound of the
      resize.
    - [Stream]: the caller's [BinaryIO]: [tell], [read], [seek].
    - [Client]: the request of lines 75-91, [choices[0].message.content],
      and the client interface [ChatClient] (answers may depend on the
      history of calls).
    - [World]: the [world] a call runs in (stream, [MEMCACHE] as a stdpp
      [gmap] from hexdigests, stdout, call log), its setters, the
      [StreamInfo] record and the [mimetypes] interface [MimeTypes].
    - [LlmCaption]: [llm_caption] (lines 47-95) with its try block
      [read_and_lookup] and the code after the [try], [after_try]; the
      theorems on one call.
    - [Session]: sessions of many calls sharing [MEMCACHE] as a step
      relation ([step]: a call, or the caller changing its stream),
      [reachable] from a fresh process, and the invariants of [MEMCACHE]
      proved by induction on the session.
    - [MemoSpec]: what [MEMCACHE] promises, as a memo table keyed by the
      bytes themselves over the uncached function ([memo_spec]), the
      relation [cache_rel] between that table and the hashed cache, and
      the refinement theorems for one call and for whole sessions.
    - [Concurrency]: several threads calling [llm_caption] at once, each
      call split into [before_client] (lines 51-69) and [after_try]
      (lines 71-95); a configuration is the shared world and the threads,
      [cstep] runs one block of one thread, [run_schedule] a list of them.

    ** What the theorems show

    - Caching ([LlmCaption]): a hit returns the cached value and changes
      nothing (C1); after a call that returned, a repeat on the same stream
      returns the same value with no client call, whatever model or prompt
      it passes (C2); one call makes at most one client call (C6); the cache
      only grows (C7); distinct inputs with equal MD5 share an entry (C4),
      with [hashlib.md5] modelled after RFC 1321 (and validated on its
      test suite by [Md5.md5_rfc1321_vectors]);
      a [None] content is cached for good (C8).
    - Streams and errors: the stream ends as it started on every path (C3);
      [Exception]s from [read] and PIL become [None], a [KeyboardInterrupt]
      propagates (C10, C11, C16); client errors propagate with nothing
      cached (C9); the exceptions that can escape a call are exactly an
      [OSError] from [tell()], a non-[Exception], a client exception, or
      [IndexError] (C17); with Pillow's [Image.open] and the formats of
      line 14 (modelled in [Image] after Pillow's [_open_core]) the
      unregistered name ["JPG"] raises [KeyError] before ["PNG"] is tried,
      so every input that is not a JPEG, PNGs included, is answered [None]
      (C30).
    - Requests: the prompt choice equals a reference definition (C14); each
      request has the shape of lines 75-91 (C13); the stream metadata only
      feeds a content type that is never used; end to end, a passed-through image reaches
      the client as a payload that decodes to the stream's bytes (C26).
    - Images: small JPEGs pass through and the payload decodes to the input
      bytes (C5); results are always JPEG data URIs (C15); a large image is
      resized, one line reporting both sizes is printed and the re-encoded
      JPEG is returned (C23); the float resize is characterised over all
      square sides up to 8192, where 2140 and 4280 lose a pixel (C12); in general
      ([FloatBound]) the scaled side is the exact integer quotient [s*h/w]
      or one less, and exactly the quotient unless [w] divides [s*h], for
      all sizes with [s * max(w, h) <= 2^49] (C24).
    - Sessions ([Session]): in every world reachable from a fresh process
      each cached value is the first content of an answer the client gave
      (C20), the cache has exactly one entry per cached answer (C21),
      and every key is the digest of bytes PIL opened (C27);
      once a value is cached, every later call on bytes with its digest is
      answered from the cache, whatever happened in between (C22);
      and progress: a readable stream whose image encodes, with a client
      that answers, gets its digest cached within one call (C25).
    - Specification ([MemoSpec]): with the cache related to a content-keyed
      table and no MD5 collision with the table's contents, one call of
      [llm_caption] is one step of the memo specification (C18), and whole
      sessions over collision-free contents refine sessions of the
      specification (C19).  C4 shows the collision hypothesis is needed.
    - Threads ([Concurrency]): a thread whose blocks run back to back is
      exactly [llm_caption] (the lemma [thread_runs_llm_caption], which
      justifies the split); under every interleaving the cache still
      holds only client answers under digests of decodable bytes (C28);
      but the check and the store are not atomic, so two threads on the
      same image can both call the client, and C21 fails (C29).

    Most theorems quantify over every PIL, client and [mimetypes]
    implementation (Section [Context]s); the witnesses run them on the test
    instances.  Every function is structurally recursive; nothing uses
    fuel.
    The exhaustive resize check covers sides 1081..8192, the range of
    images that are resized at the threshold 1080 up to 8K.  The general
    bound C24 needs [s * max(w, h) <= 2^49] so that the two roundings
    (each at most [2^-52] relative) stay below [1/w]; with the threshold
    1080 that allows sides up to [5 * 10^11] pixels.

    ** Not modelled

    PIL's codecs and resampling (an interface instead), the network client
    (an interface), [mimetypes] (an interface), [_stream_info.py] (not in
    the sources; a two-field record), CPython's slow path of [int / int]
    for operands above [2^53] (PIL sizes are C ints); a raw non-blocking
    stream whose [read()] returns [None] (the model's [read] returns bytes
    or raises); a stream whose [tell()] works but whose [seek()] raises
    (CPython's [io] classes make both depend on [seekable()], so one flag
    [st_seekable] governs both, and C3 relies on it); and thread switches
    inside a block of [Concurrency] (each block has one access to
    [MEMCACHE], except [after_try]'s call-then-store, whose split would only
    reorder stores of answers for the same key).

    ** Plan for later sittings

    The resize bound
    for threshold values and sizes outside the normal-range hypotheses. *)

From Stdlib Require Export ZArith List Lia Bool.
From Stdlib Require Export Strings.Byte Strings.String Strings.Ascii.
Export ListNotations.

Declare Scope py_scope.
Delimit Scope py_scope with py.

Create HintDb llmcap.
Create Rewrite HintDb llmcap_rw.

Local Open Scope Z_scope.

(** ** Bytes as unsigned 8-bit integers *)

(** The unsigned value of a Python [bytes] element. *)
Definition bval (b : byte) : Z := Z.of_N (Byte.to_N b).

(** The byte with value [z mod 256]. *)
Definition byte_of_Z (z : Z) : byte :=
  match Byte.of_N (Z.to_N (z mod 256)) with
  | Some b => b
  | None => Byte.x00
  end.

(** A boolean check over [0 .. n-1] that proves a statement on that range;
    used to settle finite facts (the 64 base64 digits, the 16 hex digits)
    by computation. *)
Fixpoint forall_below (n : nat) (p : Z -> bool) : bool :=
  match n with
  | O => true
  | S k => p (Z.of_nat k) && forall_below k p
  end.

(** The same over [lo .. lo + n - 1], stepping in [Z] so that long ranges
    evaluate in linear time. *)
Fixpoint forall_range (lo : Z) (n : nat) (p : Z -> bool) : bool :=
  match n with
  | O => true
  | S k => p lo && forall_range (Z.succ lo) k p
  end.

Lemma bval_range (b : byte) : 0 <= bval b < 256.
Proof.
  unfold bval. pose proof (Byte.to_N_bounded b). lia.
Qed.

Lemma byte_of_Z_bval (b : byte) : byte_of_Z (bval b) = b.
Proof.
  unfold byte_of_Z, bval.
  rewrite Z.mod_small by (pose proof (Byte.to_N_bounded b); lia).
  rewrite N2Z.id, Byte.of_to_N. reflexivity.
Qed.

Lemma bval_byte_of_Z (z : Z) : bval (byte_of_Z z) = z mod 256.
Proof.
  unfold byte_of_Z, bval.
  destruct (Byte.of_N (Z.to_N (z mod 256))) eqn:E.
  - apply Byte.to_of_N in E. rewrite E, Z2N.id; [reflexivity|].
    apply Z.mod_pos_bound. lia.
  - apply Byte.of_N_None_iff in E.
    pose proof (Z.mod_pos_bound z 256 ltac:(lia)). lia.
Qed.

Lemma bval_inj (a b : byte) : bval a = bval b -> a = b.
Proof.
  intros H. rewrite <- (byte_of_Z_bval a), <- (byte_of_Z_bval b), H. reflexivity.
Qed.

Lemma byte_of_Z_eq (z : Z) (x : byte) : z = bval x -> byte_of_Z z = x.
Proof. intros ->. apply byte_of_Z_bval. Qed.

#[export] Hint Rewrite byte_of_Z_bval bval_byte_of_Z : llmcap_rw.
#[export] Hint Resolve bval_range : llmcap.

(** ** Bit operations on nonnegative integers *)

(** Or-ing a value into the low [k] bits left free by a shift is addition:
    the form [(acc << k) | x] the encoders use to pack bytes into words. *)
Lemma lor_shiftl_small (a b k : Z) :
  0 <= k -> 0 <= b < 2 ^ k -> Z.lor (Z.shiftl a k) b = a * 2 ^ k + b.
Proof.
  intros Hk Hb.
  assert (Hand : Z.land (Z.shiftl a k) b = 0).
  { apply Z.bits_inj'; intros i Hi. rewrite Z.land_spec, Z.bits_0.
    destruct (Z.lt_ge_cases i k).
    - rewrite Z.shiftl_spec_low by lia. reflexivity.
    - rewrite <- (Z.mod_small b (2 ^ k)) by lia.
      rewrite Z.mod_pow2_bits_high by lia. apply andb_false_r. }
  rewrite <- Z.lxor_lor, <- Z.add_nocarry_lxor by exact Hand.
  rewrite Z.shiftl_mul_pow2 by lia. reflexivity.
Qed.

#[export] Hint Rewrite Z.shiftr_div_pow2 Z.shiftl_mul_pow2 using lia : llmcap_rw.

(** ** Lists *)

Lemma forall_below_spec (n : nat) (p : Z -> bool) :
  forall_below n p = true -> forall z, 0 <= z < Z.of_nat n -> p z = true.
Proof.
  induction n as [|k IH]; simpl; intros H z Hz; [lia|].
  apply andb_true_iff in H as [H1 H2].
  destruct (Z.eq_dec z (Z.of_nat k)) as [->|Hne]; [exact H1|].
  apply IH; [exact H2|lia].
Qed.

Lemma forall_range_spec (n : nat) : forall (lo : Z) (p : Z -> bool),
  forall_range lo n p = true -> forall z, lo <= z < lo + Z.of_nat n -> p z = true.
Proof.
  induction n as [|k IH]; simpl; intros lo p H z Hz; [lia|].
  apply andb_true_iff in H as [H1 H2].
  destruct (Z.eq_dec z lo) as [->|Hne]; [exact H1|].
  apply (IH (Z.succ lo)); [exact H2|lia].
Qed.

(** ** Tactics *)

(** [lia] extended with the characteristic equations of [Z.div] and
    [Z.modulo]; the plain [lia] of this Stdlib does not see through them. *)
Ltac zlia := Z.div_mod_to_equations; lia.

(** Split every conjunction in the goal and the hypotheses. *)
Ltac split_and :=
  repeat match goal with
         | H : _ /\ _ |- _ => destruct H
         | |- _ /\ _ => split
         end.
