(* ===== verification/PyRuntime.v ===== *)
(** * Python control flow: state, exceptions, [try/except/finally]

    The functions of [_llm_caption.py] mutate shared objects (the stream,
    the module-level [MEMCACHE], standard output, the client) and raise
    exceptions; effects done before a [raise] stay done.  [PyM S A] is a
    state monad over a world [S] whose result is an [outcome]: a value or a
    raised exception, together with the world as it is at that point.  The
    file also gives [try: .. except Exception: .. finally: ..] as a
    combinator with Python's rules (only [Exception] subclasses are caught;
    the [finally] block always runs; an exception it raises replaces the
    pending result). *)

From S2P Require Import Prelude.

(** The exception classes the modelled code meets.  [UnidentifiedImageError]
    is what [PIL.Image.open] raises on bytes it cannot identify;
    [ImageDecodeError] stands for the [OSError]s PIL raises when the lazily
    decoded pixel data turns out to be broken; [ClientError] is whatever the
    caller's client raises; [KeyError], [SyntaxError], [TypeError] and
    [StructError] ([struct.error]) are those Pillow's [Image.open] raises or
    skips while trying the formats it is given; [KeyboardInterrupt] is the
    [BaseException] that [except Exception] does not catch. *)
Inductive exn : Type :=
| OSError
| UnidentifiedImageError
| ImageDecodeError
| ZeroDivisionError
| OverflowError
| ValueError
| IndexError
| UnicodeDecodeError
| ClientError
| KeyError
| SyntaxError
| TypeError
| StructError
| KeyboardInterrupt.

(** [isinstance(e, Exception)]. *)
Definition is_Exception (e : exn) : bool :=
  match e with
  | KeyboardInterrupt => false
  | _ => true
  end.

Inductive outcome (A : Type) : Type :=
| Ret (a : A)
| Exc (e : exn).
Arguments Ret {A} a.
Arguments Exc {A} e.

Definition PyM (S A : Type) : Type := S -> outcome A * S.

Section Monad.
Context {S : Type}.

Definition ret {A} (a : A) : PyM S A := fun s => (Ret a, s).

Definition bind {A B} (m : PyM S A) (k : A -> PyM S B) : PyM S B :=
  fun s =>
    match m s with
    | (Ret a, s1) => k a s1
    | (Exc e, s1) => (Exc e, s1)
    end.

Definition raise {A} (e : exn) : PyM S A := fun s => (Exc e, s).

Definition get : PyM S S := fun s => (Ret s, s).
Definition put (s : S) : PyM S unit := fun _ => (Ret tt, s).
Definition modify (f : S -> S) : PyM S unit := fun s => (Ret tt, f s).

(** A pure fallible computation lifted into the monad. *)
Definition lift {A} (o : outcome A) : PyM S A := fun s => (o, s).

(** Run an operation of one object of the world (the stream, the
    client) on that object, given how to read it from and write it back
    into the world. *)
Definition focus {T A} (getT : S -> T) (setT : T -> S -> S) (m : PyM T A) : PyM S A :=
  fun s => let '(o, t) := m (getT s) in (o, setT t s).

(** [try: body except Exception as e: handler(e) finally: fin]. *)
Definition try_except_finally {A} (body : PyM S A) (handler : exn -> PyM S A)
    (fin : PyM S unit) : PyM S A :=
  fun s =>
    let '(o1, s1) := body s in
    let '(o2, s2) :=
      match o1 with
      | Exc e => if is_Exception e then handler e s1 else (Exc e, s1)
      | Ret a => (Ret a, s1)
      end in
    let '(ofin, s3) := fin s2 in
    match ofin with
    | Exc e => (Exc e, s3)
    | Ret _ => (o2, s3)
    end.
End Monad.

Notation "'let*' x ':=' c1 'in' c2" := (bind c1 (fun x => c2))
  (at level 200, x pattern, c1 at level 100, c2 at level 200, right associativity) : py_scope.
Local Open Scope py_scope.

(** ** Laws *)

Section Laws.
Context {S : Type}.

Lemma bind_ret_l {A B} (a : A) (k : A -> PyM S B) (s : S) :
  bind (ret a) k s = k a s.
Proof. reflexivity. Qed.

Lemma bind_ret_r {A} (m : PyM S A) (s : S) : bind m ret s = m s.
Proof. unfold bind, ret. destruct (m s) as [[a|e] s1]; reflexivity. Qed.

Lemma bind_assoc {A B C} (m : PyM S A) (k : A -> PyM S B) (h : B -> PyM S C) (s : S) :
  bind (bind m k) h s = bind m (fun a => bind (k a) h) s.
Proof. unfold bind. destruct (m s) as [[a|e] s1]; reflexivity. Qed.

Lemma bind_raise {A B} (e : exn) (k : A -> PyM S B) (s : S) :
  bind (raise e) k s = (Exc e, s).
Proof. reflexivity. Qed.

(** Running [m] then [k]: the outcome is [k]'s when [m] returns. *)
Lemma bind_Ret {A B} (m : PyM S A) (k : A -> PyM S B) (s s1 : S) (a : A) :
  m s = (Ret a, s1) -> bind m k s = k a s1.
Proof. intros H. unfold bind. rewrite H. reflexivity. Qed.

Lemma bind_Exc {A B} (m : PyM S A) (k : A -> PyM S B) (s s1 : S) (e : exn) :
  m s = (Exc e, s1) -> bind m k s = (Exc e, s1).
Proof. intros H. unfold bind. rewrite H. reflexivity. Qed.

(** The [finally] block always runs last: whatever the body and the
    handler did, the final world is one that [fin] produced. *)
Lemma try_except_finally_final_world {A} (body : PyM S A) handler fin (s : S) :
  exists s2, snd (try_except_finally body handler fin s) = snd (fin s2).
Proof.
  unfold try_except_finally.
  destruct (body s) as [o1 s1].
  destruct (match o1 with
            | Exc e => if is_Exception e then handler e s1 else (Exc e, s1)
            | Ret a => (Ret a, s1)
            end) as [o2 s2].
  exists s2. destruct (fin s2) as [[u|e] s3]; reflexivity.
Qed.

(** When [fin] returns, the outcome is the one the body (or, for an
    [Exception], the handler) produced. *)
Lemma try_except_finally_Ret_body {A} (body : PyM S A) handler fin (s s1 s3 : S) (a : A) :
  body s = (Ret a, s1) -> fin s1 = (Ret tt, s3) ->
  try_except_finally body handler fin s = (Ret a, s3).
Proof. intros Hb Hf. unfold try_except_finally. rewrite Hb, Hf. reflexivity. Qed.

Lemma try_except_finally_caught {A} (body : PyM S A) handler fin (s s1 : S) (e : exn) :
  body s = (Exc e, s1) -> is_Exception e = true ->
  try_except_finally body handler fin s =
    (let '(o2, s2) := handler e s1 in
     let '(ofin, s3) := fin s2 in
     match ofin with Exc e' => (Exc e', s3) | Ret _ => (o2, s3) end).
Proof. intros Hb He. unfold try_except_finally. rewrite Hb, He. reflexivity. Qed.

Lemma try_except_finally_uncaught {A} (body : PyM S A) handler fin (s s1 s3 : S) (e : exn) :
  body s = (Exc e, s1) -> is_Exception e = false -> fin s1 = (Ret tt, s3) ->
  try_except_finally body handler fin s = (Exc e, s3).
Proof. intros Hb He Hf. unfold try_except_finally. rewrite Hb, He, Hf. reflexivity. Qed.

(** A raise in [finally] replaces whatever the body returned. *)
Lemma try_except_finally_fin_raises {A} (body : PyM S A) handler fin (s : S) (e : exn) :
  (forall s', fst (fin s') = Exc e) ->
  fst (try_except_finally body handler fin s) = Exc e.
Proof.
  intros Hf. unfold try_except_finally.
  destruct (body s) as [o1 s1].
  destruct (match o1 with
            | Exc e0 => if is_Exception e0 then handler e0 s1 else (Exc e0, s1)
            | Ret a => (Ret a, s1)
            end) as [o2 s2].
  specialize (Hf s2). destruct (fin s2) as [ofin s3]. simpl in Hf. subst. reflexivity.
Qed.
End Laws.
