(* ===== verification/PyStr.v ===== *)
(** * Python [str]: code points, [strip], strict UTF-8 decoding

    A Python [str] is a sequence of Unicode code points; [pystr] is a list
    of them as integers.  The file models what [_llm_caption.py] does with
    strings: [prompt.strip() == ""] (line 48), string concatenation, and
    [bytes.decode("utf-8")] on the output of [base64.b64encode] (lines 16
    and 26).  [str.isspace] is the exact set of code points CPython 3.11
    reports as whitespace. *)

From S2P Require Import Prelude PyRuntime.

Local Open Scope Z_scope.

Definition pystr : Type := list Z.

(** The code points of an ASCII literal. *)
Definition lit (s : string) : pystr :=
  map (fun a => Z.of_nat (nat_of_ascii a)) (list_ascii_of_string s).

(** [str.isspace] on one code point: bidirectional class WS, B or S, or
    general category Zs. *)
Definition py_isspace (c : Z) : bool :=
  ((9 <=? c) && (c <=? 13)) || ((28 <=? c) && (c <=? 32)) || (c =? 133)
  || (c =? 160) || (c =? 5760) || ((8192 <=? c) && (c <=? 8202))
  || (c =? 8232) || (c =? 8233) || (c =? 8239) || (c =? 8287) || (c =? 12288).

Fixpoint lstrip (s : pystr) : pystr :=
  match s with
  | c :: t => if py_isspace c then lstrip t else s
  | [] => []
  end.

(** [str.strip()] with no argument. *)
Definition strip (s : pystr) : pystr := rev (lstrip (rev (lstrip s))).

(** ** Strict UTF-8 decoding, as [bytes.decode("utf-8")] *)

Definition cont (b : Z) : bool := (128 <=? b) && (b <=? 191).

(** The allowed range of the second byte after lead byte [b0] (this is how
    overlong forms, surrogates and code points above U+10FFFF are
    refused). *)
Definition second_range (b0 : Z) : Z * Z :=
  if b0 =? 224 then (160, 191)
  else if b0 =? 237 then (128, 159)
  else if b0 =? 240 then (144, 191)
  else if b0 =? 244 then (128, 143)
  else (128, 191).

Definition in_range (r : Z * Z) (b : Z) : bool := (fst r <=? b) && (b <=? snd r).

Fixpoint utf8_decode (bs : list byte) : outcome pystr :=
  match bs with
  | [] => Ret []
  | b0 :: r0 =>
    let v0 := bval b0 in
    if v0 <? 128 then
      match utf8_decode r0 with Ret s => Ret (v0 :: s) | Exc e => Exc e end
    else if (194 <=? v0) && (v0 <=? 223) then
      match r0 with
      | b1 :: r1 =>
        if cont (bval b1) then
          match utf8_decode r1 with
          | Ret s => Ret ((v0 - 192) * 64 + (bval b1 - 128) :: s)
          | Exc e => Exc e
          end
        else Exc UnicodeDecodeError
      | [] => Exc UnicodeDecodeError
      end
    else if (224 <=? v0) && (v0 <=? 239) then
      match r0 with
      | b1 :: b2 :: r2 =>
        if in_range (second_range v0) (bval b1) && cont (bval b2) then
          match utf8_decode r2 with
          | Ret s => Ret ((v0 - 224) * 4096 + (bval b1 - 128) * 64 + (bval b2 - 128) :: s)
          | Exc e => Exc e
          end
        else Exc UnicodeDecodeError
      | _ => Exc UnicodeDecodeError
      end
    else if (240 <=? v0) && (v0 <=? 244) then
      match r0 with
      | b1 :: b2 :: b3 :: r3 =>
        if in_range (second_range v0) (bval b1) && cont (bval b2) && cont (bval b3) then
          match utf8_decode r3 with
          | Ret s => Ret ((v0 - 240) * 262144 + (bval b1 - 128) * 4096
                          + (bval b2 - 128) * 64 + (bval b3 - 128) :: s)
          | Exc e => Exc e
          end
        else Exc UnicodeDecodeError
      | _ => Exc UnicodeDecodeError
      end
    else Exc UnicodeDecodeError
  end.

(** ** [repr] of integers and of a pair of integers *)

Fixpoint uint_digits (u : Decimal.uint) : pystr :=
  match u with
  | Decimal.Nil => []
  | Decimal.D0 t => 48 :: uint_digits t | Decimal.D1 t => 49 :: uint_digits t
  | Decimal.D2 t => 50 :: uint_digits t | Decimal.D3 t => 51 :: uint_digits t
  | Decimal.D4 t => 52 :: uint_digits t | Decimal.D5 t => 53 :: uint_digits t
  | Decimal.D6 t => 54 :: uint_digits t | Decimal.D7 t => 55 :: uint_digits t
  | Decimal.D8 t => 56 :: uint_digits t | Decimal.D9 t => 57 :: uint_digits t
  end.

(** [repr(n)] for an [int]. *)
Definition repr_int (z : Z) : pystr :=
  match Z.to_int z with
  | Decimal.Pos u => uint_digits u
  | Decimal.Neg u => 45 :: uint_digits u
  end.

(** [repr((w, h))], the form an f-string gives a PIL size tuple. *)
Definition repr_pair (p : Z * Z) : pystr :=
  lit "(" ++ repr_int (fst p) ++ lit ", " ++ repr_int (snd p) ++ lit ")".

(** ** Lemmas *)

Lemma lstrip_nil_iff (s : pystr) : lstrip s = [] <-> Forall (fun c => py_isspace c = true) s.
Proof.
  induction s as [|c t IH]; simpl; [split; auto|].
  destruct (py_isspace c) eqn:E.
  - rewrite IH. split; [intros; constructor; auto|intros H; inversion H; auto].
  - split; [discriminate|intros H; inversion H; congruence].
Qed.

Lemma lstrip_head (s t : pystr) (c : Z) : lstrip s = c :: t -> py_isspace c = false.
Proof.
  induction s as [|d u IH]; simpl; [discriminate|].
  destruct (py_isspace d) eqn:E; [exact IH|]. intros H. injection H as -> _. exact E.
Qed.

Lemma Forall_lstrip (s : pystr) :
  Forall (fun c => py_isspace c = true) (lstrip s) -> lstrip s = [].
Proof.
  destruct (lstrip s) as [|c t] eqn:E; [reflexivity|].
  intros H. inversion H as [|? ? Hc]. apply lstrip_head in E. congruence.
Qed.

(** [s.strip() == ""] holds exactly when every code point of [s] is
    whitespace. *)
Lemma strip_nil_iff (s : pystr) : strip s = [] <-> Forall (fun c => py_isspace c = true) s.
Proof.
  unfold strip. rewrite <- lstrip_nil_iff.
  split; intros H.
  - apply (f_equal (@rev Z)) in H. rewrite rev_involutive in H.
    apply lstrip_nil_iff, Forall_rev in H. rewrite rev_involutive in H.
    now apply Forall_lstrip.
  - rewrite H. reflexivity.
Qed.

(** Decoding ASCII bytes gives their values as code points. *)
Lemma utf8_decode_ascii (bs : list byte) :
  Forall (fun b => bval b < 128) bs -> utf8_decode bs = Ret (map bval bs).
Proof.
  induction 1 as [|b t Hb _ IH]; [reflexivity|].
  simpl. destruct (bval b <? 128) eqn:E; [rewrite IH; reflexivity|].
  apply Z.ltb_ge in E. lia.
Qed.

Lemma forallb_isspace_iff (s : pystr) :
  forallb py_isspace s = true <-> Forall (fun c => py_isspace c = true) s.
Proof. rewrite forallb_forall, Forall_forall. reflexivity. Qed.
