(* ===== verification/Base64.v ===== *)
(** * [base64.b64encode] and its inverse

    [encode_image_as_base64_data_uri] returns
    ["data:image/jpeg;base64," + base64.b64encode(data).decode("utf-8")]
    (lines 16 and 26 of [_llm_caption.py]).  [b64encode] is
    [binascii.b2a_base64(data, newline=False)]: each group of three bytes is
    packed into a 24-bit word with [(acc << 8) | byte] and cut into four
    6-bit digits with shifts and the mask [0x3f]; a final group of one or
    two bytes is padded with ['='].  [b64decode] is the reference inverse on
    canonical input, used to state the round trip; its [utf8_decode] output
    is shown to never fail. *)

From S2P Require Import Prelude PyRuntime PyStr.

Local Open Scope Z_scope.

(** [table_b2a_base64]: the RFC 4648 alphabet as code points. *)
Definition b64_table : list Z :=
  lit "ABCDEFGHIJKLMNOPQRSTUVWXYZabcdefghijklmnopqrstuvwxyz0123456789+/".

Definition b64_digit (v : Z) : byte := byte_of_Z (nth (Z.to_nat v) b64_table 0).

Definition b64_pad : byte := byte_of_Z 61.

Fixpoint b64encode (bs : list byte) : list byte :=
  match bs with
  | a :: b :: c :: rest =>
    let n := Z.lor (Z.shiftl (Z.lor (Z.shiftl (bval a) 8) (bval b)) 8) (bval c) in
    b64_digit (Z.land (Z.shiftr n 18) 63) :: b64_digit (Z.land (Z.shiftr n 12) 63)
    :: b64_digit (Z.land (Z.shiftr n 6) 63) :: b64_digit (Z.land n 63) :: b64encode rest
  | [a; b] =>
    let n := Z.lor (Z.shiftl (bval a) 8) (bval b) in
    [b64_digit (Z.land (Z.shiftr n 10) 63); b64_digit (Z.land (Z.shiftr n 4) 63);
     b64_digit (Z.shiftl (Z.land n 15) 2); b64_pad]
  | [a] =>
    [b64_digit (Z.shiftr (bval a) 2); b64_digit (Z.shiftl (Z.land (bval a) 3) 4);
     b64_pad; b64_pad]
  | [] => []
  end.

(** ** The reference decoder *)

Fixpoint index_of (x : Z) (l : list Z) : option Z :=
  match l with
  | [] => None
  | y :: t => if y =? x then Some 0 else option_map Z.succ (index_of x t)
  end.

Definition b64_value (c : byte) : option Z := index_of (bval c) b64_table.

Definition is_pad (c : byte) : bool := bval c =? 61.

Fixpoint b64decode (s : list byte) : option (list byte) :=
  match s with
  | [] => Some []
  | c1 :: c2 :: c3 :: c4 :: rest =>
    match b64_value c1, b64_value c2 with
    | Some v1, Some v2 =>
      let b1 := byte_of_Z (v1 * 4 + v2 / 16) in
      if is_pad c3 then
        match rest with
        | [] => if is_pad c4 then Some [b1] else None
        | _ => None
        end
      else
        match b64_value c3 with
        | None => None
        | Some v3 =>
          let b2 := byte_of_Z ((v2 mod 16) * 16 + v3 / 4) in
          if is_pad c4 then
            match rest with [] => Some [b1; b2] | _ => None end
          else
            match b64_value c4, b64decode rest with
            | Some v4, Some t => Some (b1 :: b2 :: byte_of_Z ((v3 mod 4) * 64 + v4) :: t)
            | _, _ => None
            end
        end
    | _, _ => None
    end
  | _ => None
  end.

(** ** Facts about the 64 digits, settled by computation *)

Lemma b64_digit_facts :
  forall v, 0 <= v < 64 ->
    b64_value (b64_digit v) = Some v /\ is_pad (b64_digit v) = false /\ bval (b64_digit v) < 128.
Proof.
  intros v Hv.
  assert (H := forall_below_spec 64
    (fun v => match b64_value (b64_digit v) with Some w => w =? v | None => false end
              && negb (is_pad (b64_digit v)) && (bval (b64_digit v) <? 128))
    ltac:(vm_compute; reflexivity) v Hv).
  cbv beta in H. destruct (b64_value (b64_digit v)) as [w|]; [|discriminate].
  apply andb_true_iff in H as [H H3]; apply andb_true_iff in H as [H1 H2].
  apply Z.eqb_eq in H1; apply negb_true_iff in H2; apply Z.ltb_lt in H3.
  subst. auto.
Qed.

Lemma b64_value_digit v : 0 <= v < 64 -> b64_value (b64_digit v) = Some v.
Proof. apply b64_digit_facts. Qed.

Lemma is_pad_digit v : 0 <= v < 64 -> is_pad (b64_digit v) = false.
Proof. apply b64_digit_facts. Qed.

Lemma is_pad_pad : is_pad b64_pad = true.
Proof. reflexivity. Qed.

#[export] Hint Rewrite b64_value_digit is_pad_digit using lia : llmcap_rw.

(** Masks and shifts as remainders and products, then [zlia]. *)
Ltac b64_arith :=
  change 63 with (Z.ones 6) in *; change 15 with (Z.ones 4) in *; change 3 with (Z.ones 2) in *;
  rewrite ?Z.land_ones, ?Z.shiftr_div_pow2, ?Z.shiftl_mul_pow2 by lia;
  zlia.

Lemma mask63_range (x : Z) : 0 <= Z.land x 63 < 64.
Proof. b64_arith. Qed.

Lemma mask15_shift_range (x : Z) : 0 <= Z.shiftl (Z.land x 15) 2 < 64.
Proof. b64_arith. Qed.

Lemma mask3_shift_range (x : Z) : 0 <= Z.shiftl (Z.land x 3) 4 < 64.
Proof. b64_arith. Qed.

Lemma byte_shiftr2_range (b : byte) : 0 <= Z.shiftr (bval b) 2 < 64.
Proof. pose proof (bval_range b). b64_arith. Qed.

#[export] Hint Resolve mask63_range mask15_shift_range mask3_shift_range
  byte_shiftr2_range : llmcap.

Ltac digit_range := solve [auto with llmcap].

(** The digits of a full group decode back to its three bytes. *)
Lemma group3_bytes (a b c : byte) :
  let n := Z.lor (Z.shiftl (Z.lor (Z.shiftl (bval a) 8) (bval b)) 8) (bval c) in
  byte_of_Z (Z.land (Z.shiftr n 18) 63 * 4 + Z.land (Z.shiftr n 12) 63 / 16) = a /\
  byte_of_Z ((Z.land (Z.shiftr n 12) 63 mod 16) * 16 + Z.land (Z.shiftr n 6) 63 / 4) = b /\
  byte_of_Z ((Z.land (Z.shiftr n 6) 63 mod 4) * 64 + Z.land n 63) = c.
Proof.
  intros n. pose proof (bval_range a); pose proof (bval_range b); pose proof (bval_range c).
  assert (Hn : n = bval a * 65536 + bval b * 256 + bval c).
  { unfold n. rewrite (lor_shiftl_small (bval a)), lor_shiftl_small by lia. lia. }
  rewrite Hn. split_and; apply byte_of_Z_eq; b64_arith.
Qed.

Lemma group2_bytes (a b : byte) :
  let n := Z.lor (Z.shiftl (bval a) 8) (bval b) in
  byte_of_Z (Z.land (Z.shiftr n 10) 63 * 4 + Z.land (Z.shiftr n 4) 63 / 16) = a /\
  byte_of_Z ((Z.land (Z.shiftr n 4) 63 mod 16) * 16 + Z.shiftl (Z.land n 15) 2 / 4) = b.
Proof.
  intros n. pose proof (bval_range a); pose proof (bval_range b).
  assert (Hn : n = bval a * 256 + bval b) by (unfold n; rewrite lor_shiftl_small by lia; lia).
  rewrite Hn. split_and; apply byte_of_Z_eq; b64_arith.
Qed.

Lemma group1_byte (a : byte) :
  byte_of_Z (Z.shiftr (bval a) 2 * 4 + Z.shiftl (Z.land (bval a) 3) 4 / 16) = a.
Proof. pose proof (bval_range a). apply byte_of_Z_eq. b64_arith. Qed.

(** ** Round trip, length, alphabet *)

(** Decoding the encoding gives the input back. *)
Lemma b64decode_encode : forall bs, b64decode (b64encode bs) = Some bs.
Proof.
  fix IH 1. intros [|a [|b [|c rest]]].
  - reflexivity.
  - cbn [b64encode b64decode].
    rewrite !b64_value_digit by digit_range. rewrite is_pad_pad.
    f_equal. f_equal. apply group1_byte.
  - cbn [b64encode b64decode].
    rewrite !b64_value_digit, is_pad_digit by digit_range. rewrite is_pad_pad.
    destruct (group2_bytes a b) as [-> ->]. reflexivity.
  - cbn [b64encode b64decode].
    rewrite !b64_value_digit, !is_pad_digit by digit_range. rewrite IH.
    destruct (group3_bytes a b c) as [-> [-> ->]]. reflexivity.
Qed.

Lemma b64_digit_ascii v : 0 <= v < 64 -> bval (b64_digit v) < 128.
Proof. apply b64_digit_facts. Qed.

#[export] Hint Resolve b64_digit_ascii : llmcap.

(** Every byte of the output is ASCII (the alphabet and ['=']). *)
Lemma b64encode_ascii : forall bs, Forall (fun b => bval b < 128) (b64encode bs).
Proof.
  assert (Hpad : bval b64_pad < 128) by reflexivity.
  fix IH 1. intros [|a [|b [|c rest]]]; cbn [b64encode];
    repeat constructor; auto with llmcap.
Qed.

(** Four output characters per started group of three input bytes. *)
Lemma b64encode_length : forall bs,
  List.length (b64encode bs) = (4 * ((List.length bs + 2) / 3))%nat.
Proof.
  fix IH 1. intros [|a [|b [|c rest]]]; [reflexivity..|].
  cbn [b64encode List.length]. rewrite IH.
  replace (S (S (S (List.length rest))) + 2)%nat with (List.length rest + 2 + 1 * 3)%nat by lia.
  rewrite Nat.div_add by lia. lia.
Qed.

(** [base64.b64encode(data).decode("utf-8")] never raises: it is the
    output's bytes read as code points. *)
Lemma b64encode_decode_utf8 (bs : list byte) :
  utf8_decode (b64encode bs) = Ret (map bval (b64encode bs)).
Proof. apply utf8_decode_ascii, b64encode_ascii. Qed.
