(* ===== verification/Md5.v ===== *)
(** * [hashlib.md5(data).hexdigest()] (RFC 1321)

    [llm_caption] keys [MEMCACHE] by [hashlib.md5(file_data).hexdigest()]
    (line 62 of [_llm_caption.py]).  This file is an executable MD5 on
    32-bit words kept as [Z] with their wrap-around written out: padding
    with [0x80], zeros and the 64-bit little-endian bit length; sixteen
    little-endian words per 64-byte block; 64 steps of the four round
    functions; the digest as the little-endian bytes of [A B C D]; and
    [hexdigest] as 32 lowercase hexadecimal code points.  The RFC's test
    suite is checked by computation, and so is a published collision,
    which is what the cache theorems of [LlmCaption] use. *)

From S2P Require Import Prelude PyRuntime PyStr.

Local Open Scope Z_scope.

(** ** 32-bit words *)

Definition mask32 : Z := Z.ones 32.

Definition add32 (x y : Z) : Z := (x + y) mod 2 ^ 32.

Definition not32 (x : Z) : Z := Z.land (Z.lnot x) mask32.

Definition rotl32 (x : Z) (s : Z) : Z :=
  Z.land (Z.lor (Z.shiftl x s) (Z.shiftr x (32 - s))) mask32.

(** The auxiliary functions F, G, H, I of RFC 1321 section 3.4. *)
Definition md5_F (x y z : Z) : Z := Z.lor (Z.land x y) (Z.land (not32 x) z).
Definition md5_G (x y z : Z) : Z := Z.lor (Z.land x z) (Z.land y (not32 z)).
Definition md5_H (x y z : Z) : Z := Z.lxor x (Z.lxor y z).
Definition md5_I (x y z : Z) : Z := Z.lxor y (Z.lor x (not32 z)).

(** The table [T[i] = floor(2^32 * |sin(i + 1)|)]. *)
Definition md5_K : list Z :=
  [ 0xd76aa478; 0xe8c7b756; 0x242070db; 0xc1bdceee;
    0xf57c0faf; 0x4787c62a; 0xa8304613; 0xfd469501;
    0x698098d8; 0x8b44f7af; 0xffff5bb1; 0x895cd7be;
    0x6b901122; 0xfd987193; 0xa679438e; 0x49b40821;
    0xf61e2562; 0xc040b340; 0x265e5a51; 0xe9b6c7aa;
    0xd62f105d; 0x02441453; 0xd8a1e681; 0xe7d3fbc8;
    0x21e1cde6; 0xc33707d6; 0xf4d50d87; 0x455a14ed;
    0xa9e3e905; 0xfcefa3f8; 0x676f02d9; 0x8d2a4c8a;
    0xfffa3942; 0x8771f681; 0x6d9d6122; 0xfde5380c;
    0xa4beea44; 0x4bdecfa9; 0xf6bb4b60; 0xbebfbc70;
    0x289b7ec6; 0xeaa127fa; 0xd4ef3085; 0x04881d05;
    0xd9d4d039; 0xe6db99e5; 0x1fa27cf8; 0xc4ac5665;
    0xf4292244; 0x432aff97; 0xab9423a7; 0xfc93a039;
    0x655b59c3; 0x8f0ccc92; 0xffeff47d; 0x85845dd1;
    0x6fa87e4f; 0xfe2ce6e0; 0xa3014314; 0x4e0811a1;
    0xf7537e82; 0xbd3af235; 0x2ad7d2bb; 0xeb86d391 ].

(** The per-step left rotations. *)
Definition md5_S : list Z :=
  [ 7; 12; 17; 22; 7; 12; 17; 22; 7; 12; 17; 22; 7; 12; 17; 22;
    5;  9; 14; 20; 5;  9; 14; 20; 5;  9; 14; 20; 5;  9; 14; 20;
    4; 11; 16; 23; 4; 11; 16; 23; 4; 11; 16; 23; 4; 11; 16; 23;
    6; 10; 15; 21; 6; 10; 15; 21; 6; 10; 15; 21; 6; 10; 15; 21 ].

(** ** Bytes and words *)

(** The little-endian value of a list of bytes. *)
Fixpoint le_combine (l : list byte) : Z :=
  match l with
  | [] => 0
  | b :: t => Z.lor (bval b) (Z.shiftl (le_combine t) 8)
  end.

(** The [n] little-endian bytes of [z]. *)
Fixpoint le_split (n : nat) (z : Z) : list byte :=
  match n with
  | O => []
  | S k => byte_of_Z z :: le_split k (Z.shiftr z 8)
  end.

(** A 64-byte block as sixteen little-endian words. *)
Fixpoint block_words (n : nat) (blk : list byte) : list Z :=
  match n with
  | O => []
  | S k => le_combine (firstn 4 blk) :: block_words k (skipn 4 blk)
  end.

(** ** Padding and compression *)

(** The message, [0x80], zeros up to 56 mod 64, and the bit length as a
    64-bit little-endian integer. *)
Definition md5_pad (msg : list byte) : list byte :=
  let len := List.length msg in
  let zeros := ((55 + 64 - len mod 64) mod 64)%nat in
  msg ++ [Byte.x80] ++ repeat Byte.x00 zeros ++ le_split 8 (Z.of_nat len * 8).

Record md5_state := MD5 { sA : Z; sB : Z; sC : Z; sD : Z }.

Definition md5_init : md5_state := MD5 0x67452301 0xefcdab89 0x98badcfe 0x10325476.

(** Step [i] of the compression of block [M]. *)
Definition md5_step (M : list Z) (st : md5_state) (i : nat) : md5_state :=
  let '(MD5 a b c d) := st in
  let '(f, g) :=
    if (i <? 16)%nat then (md5_F b c d, i)
    else if (i <? 32)%nat then (md5_G b c d, (5 * i + 1) mod 16)%nat
    else if (i <? 48)%nat then (md5_H b c d, (3 * i + 5) mod 16)%nat
    else (md5_I b c d, (7 * i) mod 16)%nat in
  let f := add32 (add32 (add32 f a) (nth i md5_K 0)) (nth g M 0) in
  MD5 d (add32 b (rotl32 f (nth i md5_S 0))) b c.

Definition md5_block (st : md5_state) (blk : list byte) : md5_state :=
  let M := block_words 16 blk in
  let '(MD5 a b c d) := fold_left (md5_step M) (seq 0 64) st in
  MD5 (add32 (sA st) a) (add32 (sB st) b) (add32 (sC st) c) (add32 (sD st) d).

Fixpoint md5_blocks (n : nat) (st : md5_state) (msg : list byte) : md5_state :=
  match n with
  | O => st
  | S k => md5_blocks k (md5_block st (firstn 64 msg)) (skipn 64 msg)
  end.

(** [hashlib.md5(msg).digest()]. *)
Definition md5_digest (msg : list byte) : list byte :=
  let p := md5_pad msg in
  let '(MD5 a b c d) := md5_blocks (List.length p / 64) md5_init p in
  le_split 4 a ++ le_split 4 b ++ le_split 4 c ++ le_split 4 d.

(** ** [hexdigest] *)

Definition hex_digit (v : Z) : Z := if v <? 10 then 48 + v else 87 + v.

Definition hexdigest (digest : list byte) : pystr :=
  flat_map (fun b => [hex_digit (bval b / 16); hex_digit (bval b mod 16)]) digest.

(** [hashlib.md5(msg).hexdigest()]. *)
Definition md5_hexdigest (msg : list byte) : pystr := hexdigest (md5_digest msg).

(** Bytes of an ASCII literal, for the test vectors. *)
Definition bytes_of (s : string) : list byte := map byte_of_Z (lit s).

(** Bytes written in hexadecimal, for test data. *)
Definition hexval (c : Z) : Z := if c <? 58 then c - 48 else c - 87.

Fixpoint bytes_of_hex_digits (l : list Z) : list byte :=
  match l with
  | h :: l' :: t => byte_of_Z (hexval h * 16 + hexval l') :: bytes_of_hex_digits t
  | _ => []
  end.

Definition bytes_of_hex (s : string) : list byte := bytes_of_hex_digits (lit s).

(** Two different 128-byte messages with the same MD5 (Wang, Feng, Lai and
    Yu, 2004); they differ in bytes 19, 45, 59, 83, 109 and 123. *)
Definition collision_a : list byte := bytes_of_hex (
  "d131dd02c5e6eec4693d9a0698aff95c2fcab58712467eab4004583eb8fb7f89" ++
  "55ad340609f4b30283e488832571415a085125e8f7cdc99fd91dbdf280373c5b" ++
  "d8823e3156348f5bae6dacd436c919c6dd53e2b487da03fd02396306d248cda0" ++
  "e99f33420f577ee8ce54b67080a80d1ec69821bcb6a8839396f9652b6ff72a70")%string.

Definition collision_b : list byte := bytes_of_hex (
  "d131dd02c5e6eec4693d9a0698aff95c2fcab50712467eab4004583eb8fb7f89" ++
  "55ad340609f4b30283e4888325f1415a085125e8f7cdc99fd91dbd7280373c5b" ++
  "d8823e3156348f5bae6dacd436c919c6dd53e23487da03fd02396306d248cda0" ++
  "e99f33420f577ee8ce54b67080280d1ec69821bcb6a8839396f965ab6ff72a70")%string.

(** The characters [hexdigest] emits: [0-9a-f]. *)
Definition is_lower_hex (c : Z) : bool := ((48 <=? c) && (c <=? 57)) || ((97 <=? c) && (c <=? 102)).

(** ** Lemmas *)

Lemma length_le_split (n : nat) (z : Z) : List.length (le_split n z) = n.
Proof. revert z; induction n; simpl; auto. Qed.

Lemma md5_digest_length (msg : list byte) : List.length (md5_digest msg) = 16%nat.
Proof.
  unfold md5_digest. destruct (md5_blocks _ _ _) as [a b c d].
  rewrite !length_app, !length_le_split. reflexivity.
Qed.

Lemma hex_digit_lower (v : Z) : 0 <= v < 16 -> is_lower_hex (hex_digit v) = true.
Proof.
  intros Hv. unfold hex_digit, is_lower_hex.
  destruct (Z.ltb_spec v 10); repeat (apply orb_true_iff; (left + right)); apply andb_true_iff; split;
    apply Z.leb_le; lia.
Qed.

Lemma hexdigest_shape (d : list byte) :
  List.length (hexdigest d) = (2 * List.length d)%nat /\
  Forall (fun c => is_lower_hex c = true) (hexdigest d).
Proof.
  induction d as [|b t [IHl IHf]]; [split; [reflexivity|constructor]|].
  pose proof (bval_range b). simpl. split; [rewrite IHl; lia|].
  constructor; [|constructor; [|exact IHf]]; apply hex_digit_lower; zlia.
Qed.

(** The two messages differ and have the same [hexdigest]. *)
Lemma md5_collision :
  collision_a <> collision_b /\ md5_hexdigest collision_a = md5_hexdigest collision_b.
Proof.
  split.
  - intros Heq. apply (f_equal (fun l => nth 19 l Byte.x00)) in Heq. vm_compute in Heq. discriminate.
  - vm_compute. reflexivity.
Qed.

(** Validation of the model: it agrees with the test suite of RFC 1321
    (appendix A.5), [hashlib.md5(m).hexdigest()] for its seven messages. *)
Lemma md5_rfc1321_vectors :
  md5_hexdigest (bytes_of "") = lit "d41d8cd98f00b204e9800998ecf8427e" /\
  md5_hexdigest (bytes_of "a") = lit "0cc175b9c0f1b6a831c399e269772661" /\
  md5_hexdigest (bytes_of "abc") = lit "900150983cd24fb0d6963f7d28e17f72" /\
  md5_hexdigest (bytes_of "message digest") = lit "f96b697d7cb7938d525a2f31aaf161d0" /\
  md5_hexdigest (bytes_of "abcdefghijklmnopqrstuvwxyz") = lit "c3fcd3d76192e4007dfb496cca67e13b" /\
  md5_hexdigest (bytes_of "ABCDEFGHIJKLMNOPQRSTUVWXYZabcdefghijklmnopqrstuvwxyz0123456789")
    = lit "d174ab98d277d9f5a5611c2c9f419d9f" /\
  md5_hexdigest (bytes_of ("1234567890123456789012345678901234567890" ++
                           "1234567890123456789012345678901234567890"))
    = lit "57edf4a22be3c955ac49da2e2107b67a".
Proof. repeat split; vm_compute; reflexivity. Qed.
