(* ===== verification/PyFloat.v ===== *)
(** * Python [float] arithmetic for [resize_image]

    [resize_image] computes [int((short_side_length / width) * height)]
    (lines 38 and 41 of [_llm_caption.py]): a true division of two [int]s,
    a product of that [float] with an [int], and [int()] of the result.
    Python floats are IEEE 754 binary64 with rounding to nearest even, which
    is what Rocq's primitive [float]s are, so the model computes with them
    and concrete sizes are evaluated by [vm_compute].

    - [float_of_int] is CPython's [int -> float] conversion (correctly
      rounded, [binary_normalize] of [SpecFloat]).
    - [py_truediv] is [int / int].  CPython's [long_true_divide] converts
      both operands and divides when both are at most [2^53] in magnitude;
      PIL sizes are C [int]s, far below that bound, so that path is the
      one modelled.  A zero divisor raises [ZeroDivisionError].
    - [py_mul_int] is [float * int] (the [int] is converted first).
    - [py_int] is [int(x)]: truncation toward zero, [OverflowError] on an
      infinity and [ValueError] on a NaN. *)

From Stdlib Require Import Floats.
From S2P Require Import Prelude PyRuntime.

Local Open Scope Z_scope.

Definition float_of_int (z : Z) : float := SF2Prim (binary_normalize prec emax z 0 false).

Definition py_truediv (a b : Z) : outcome float :=
  if b =? 0 then Exc ZeroDivisionError
  else Ret (PrimFloat.div (float_of_int a) (float_of_int b)).

Definition py_mul_int (x : float) (n : Z) : float := PrimFloat.mul x (float_of_int n).

(** The integer part of a finite [spec_float]: [m * 2^e] truncated. *)
Definition trunc_finite (sign : bool) (m : positive) (e : Z) : Z :=
  let v := if 0 <=? e then Z.shiftl (Zpos m) e else Z.shiftr (Zpos m) (- e) in
  if sign then - v else v.

Definition py_int (x : float) : outcome Z :=
  match Prim2SF x with
  | S754_zero _ => Ret 0
  | S754_infinity _ => Exc OverflowError
  | S754_nan => Exc ValueError
  | S754_finite s m e => Ret (trunc_finite s m e)
  end.

(** Truncation toward zero: a nonnegative finite float with value [m * 2^e]
    truncates to the floor of that value. *)
Lemma trunc_finite_pos (m : positive) (e : Z) :
  trunc_finite false m e = if 0 <=? e then Zpos m * 2 ^ e else Zpos m / 2 ^ (- e).
Proof.
  unfold trunc_finite. destruct (0 <=? e) eqn:E.
  - apply Z.shiftl_mul_pow2. apply Z.leb_le. exact E.
  - apply Z.shiftr_div_pow2. apply Z.leb_gt in E. lia.
Qed.
