(* ===== verification/Image.v ===== *)
(** * Image normalisation: [resize_image] and [encode_image_as_base64_data_uri]

    PIL is a library the module only calls, so it is an interface: the
    class [PilImage] lists the operations the code uses ([Image.open] with
    its [formats] filter, [.format], [.size], [.resize], [.convert("RGB")],
    [.save(.., format="JPEG")]), each fallible.  Standard output, where
    [encode_image_as_base64_data_uri] prints a line when it resizes, is the
    interface [HasStdout] of the world the caller runs in.  Against these:

    - [resize_dims] is lines 34-41 (the new size, with Python floats), and
      [resize_image] is lines 29-44;
    - [encode_image_as_base64_data_uri] is lines 11-26, in [PyM].

    How [Image.open] uses the [formats] list of line 14 decides which
    files the code can caption, so that part of Pillow is modelled after
    its [_open_core]: [image_open] over a registry of plugins.

    [ToyPil] is a small instance of the interface (a five-byte header gives
    the format and the size, and [Image.open] is [image_open] with the
    formats of line 14) on which the theorems are evaluated. *)

From Stdlib Require Import Floats.
From S2P Require Import Prelude PyRuntime PyStr Base64 PyFloat.

Local Open Scope Z_scope.
Local Open Scope py_scope.

(** The part of PIL the module uses. *)
Class PilImage := {
  image : Type;
  (** [Image.open(io.BytesIO(data), mode="r", formats=["JPEG", "JPG", "PNG"])] *)
  pil_open : list byte -> outcome image;
  (** [image.format]: ["JPEG"] or ["PNG"] for an opened file, [None] for an
      image made by [resize] or [convert] *)
  img_format : image -> option pystr;
  (** [image.size] *)
  img_size : image -> Z * Z;
  (** [image.resize(size, resample=Image.Resampling.BILINEAR)] *)
  img_resize : image -> Z * Z -> outcome image;
  (** [image.convert(mode="RGB")] *)
  img_convert_rgb : image -> outcome image;
  (** [image.save(buffered, format="JPEG")] then [buffered.getvalue()] *)
  img_save_jpeg : image -> outcome (list byte)
}.

(** A world with a standard output, as a list of printed lines. *)
Class HasStdout (S : Type) := {
  stdout : S -> list pystr;
  with_stdout : list pystr -> S -> S;
  stdout_with : forall l s, stdout (with_stdout l s) = l;
  with_stdout_self : forall s, with_stdout (stdout s) s = s;
  with_stdout_twice : forall l l' s, with_stdout l (with_stdout l' s) = with_stdout l s
}.

(** [print(line)]. *)
Definition print {S} `{HasStdout S} (line : pystr) : PyM S unit :=
  modify (fun s => with_stdout (stdout s ++ [line]) s).

Definition pystr_eqb (a b : pystr) : bool := if list_eq_dec Z.eq_dec a b then true else false.

Definition data_uri_prefix : pystr := lit "data:image/jpeg;base64,".

(** [base64.b64encode(data).decode("utf-8")]. *)
Definition b64_str (data : list byte) : outcome pystr := utf8_decode (b64encode data).

(** [min(image.size)]. *)
Definition min_size (sz : Z * Z) : Z := Z.min (fst sz) (snd sz).

(** [image.format in ["JPEG", "JPG"]]. *)
Definition format_is_jpeg (f : option pystr) : bool :=
  match f with
  | Some s => pystr_eqb s (lit "JPEG") || pystr_eqb s (lit "JPG")
  | None => false
  end.

(** Lines 34-41: the size [resize_image] asks PIL for. *)
Definition resize_dims (short_side_length width height : Z) : outcome (Z * Z) :=
  if width <=? height then
    match py_truediv short_side_length width with
    | Exc e => Exc e
    | Ret q =>
      match py_int (py_mul_int q height) with
      | Exc e => Exc e
      | Ret new_height => Ret (short_side_length, new_height)
      end
    end
  else
    match py_truediv short_side_length height with
    | Exc e => Exc e
    | Ret q =>
      match py_int (py_mul_int q width) with
      | Exc e => Exc e
      | Ret new_width => Ret (new_width, short_side_length)
      end
    end.

Section WithPil.
Context `{PilImage}.

(** Lines 29-44.  The [assert isinstance(img, Image.Image)] of line 32
    holds for every value of type [image], so it is not written out. *)
Definition resize_image (img : image) (short_side_length : Z) : outcome image :=
  let '(width, height) := img_size img in
  match resize_dims short_side_length width height with
  | Exc e => Exc e
  | Ret sz => img_resize img sz
  end.

Context {S : Type} `{HasStdout S}.

(** Lines 11-26. *)
Definition encode_image_as_base64_data_uri (image_data : list byte)
    (max_short_side_length : Z) : PyM S pystr :=
  let* img := lift (pil_open image_data) in
  if (min_size (img_size img) <=? max_short_side_length) && format_is_jpeg (img_format img) then
    let* enc := lift (b64_str image_data) in
    ret (data_uri_prefix ++ enc)
  else
    let* img :=
      if (0 <? max_short_side_length) && (max_short_side_length <? min_size (img_size img)) then
        let ori_size := img_size img in
        let* img' := lift (resize_image img max_short_side_length) in
        let* _ := print (lit "Image resized from " ++ repr_pair ori_size ++ lit " to "
                         ++ repr_pair (img_size img') ++ lit ".") in
        ret img'
      else ret img in
    let* img := lift (img_convert_rgb img) in
    let* jpeg := lift (img_save_jpeg img) in
    let* enc := lift (b64_str jpeg) in
    ret (data_uri_prefix ++ enc).
End WithPil.

(** ** Pillow's [Image.open] with the formats of line 14

    [Image.open(fp, formats=...)] reads a 16-byte prefix and, in
    [_open_core], tries each format name of the list in order: it
    upper-cases the name, looks up [OPEN[name]] (the registered
    [(factory, accept)] pair; an unregistered name raises [KeyError], which
    no clause catches), skips the format when [accept(prefix)] is false,
    and otherwise calls the factory, moving on to the next name when it
    raises [SyntaxError], [IndexError], [TypeError] or [struct.error] and
    propagating anything else.  No match at all is [UnidentifiedImageError].
    Pillow is not part of this repository: this follows its
    [PIL/Image.py]; the registry is a parameter. *)

Record plugin (img : Type) := Plugin {
  plugin_accept : list byte -> bool;
  plugin_factory : list byte -> outcome img
}.
Arguments Plugin {img} _ _.
Arguments plugin_accept {img} _ _.
Arguments plugin_factory {img} _ _.

(** [str.upper()] on the ASCII letters, all the format names contain. *)
Definition ascii_upper (s : pystr) : pystr :=
  map (fun c => if (97 <=? c) && (c <=? 122) then c - 32 else c) s.

(** The exceptions on which [_open_core] tries the next format. *)
Definition open_skips (e : exn) : bool :=
  match e with SyntaxError | IndexError | TypeError | StructError => true | _ => false end.

Section PillowOpen.
Context {img : Type} (OPEN : pystr -> option (plugin img)).

Fixpoint open_core (formats : list pystr) (prefix data : list byte) : outcome (option img) :=
  match formats with
  | [] => Ret None
  | f :: rest =>
    match OPEN (ascii_upper f) with
    | None => Exc KeyError
    | Some p =>
      if plugin_accept p prefix then
        match plugin_factory p data with
        | Ret im => Ret (Some im)
        | Exc e => if open_skips e then open_core rest prefix data else Exc e
        end
      else open_core rest prefix data
    end
  end.

Definition image_open (formats : list pystr) (data : list byte) : outcome img :=
  match open_core formats (firstn 16 data) data with
  | Ret (Some im) => Ret im
  | Ret None => Exc UnidentifiedImageError
  | Exc e => Exc e
  end.

End PillowOpen.

(** [formats=["JPEG", "JPG", "PNG"]] (line 14). *)
Definition code_formats : list pystr := [lit "JPEG"; lit "JPG"; lit "PNG"].

(** ** A test instance of the PIL interface *)

(** An image is its format and size.  The registry has Pillow's two
    plugins the code names, under Pillow's names ["JPEG"] and ["PNG"]:
    each accepts a prefix starting with its marker byte ([0xFF], [0x89])
    and reads width and height as big-endian 16-bit numbers from the next
    four bytes, raising [SyntaxError] when they are missing.  [toy_open] is
    [Image.open] with the formats of line 14.  [toy_save] writes the JPEG
    header of the image. *)
Record toy_image := Toy { toy_fmt : option pystr; toy_size : Z * Z }.

Definition toy_plugin (marker : Z) (fmt : pystr) : plugin toy_image :=
  Plugin (fun pre => match pre with f :: _ => bval f =? marker | [] => false end)
         (fun d => match d with
                   | _ :: w1 :: w0 :: h1 :: h0 :: _ =>
                     Ret (Toy (Some fmt) (bval w1 * 256 + bval w0, bval h1 * 256 + bval h0))
                   | _ => Exc SyntaxError
                   end).

Definition toy_registry (name : pystr) : option (plugin toy_image) :=
  if pystr_eqb name (lit "JPEG") then Some (toy_plugin 255 (lit "JPEG"))
  else if pystr_eqb name (lit "PNG") then Some (toy_plugin 137 (lit "PNG"))
  else None.

Definition toy_open (d : list byte) : outcome toy_image := image_open toy_registry code_formats d.

Definition toy_header (sz : Z * Z) : list byte :=
  [byte_of_Z 255; byte_of_Z (fst sz / 256); byte_of_Z (fst sz);
   byte_of_Z (snd sz / 256); byte_of_Z (snd sz)].

#[export] Instance ToyPil : PilImage := {
  image := toy_image;
  pil_open := toy_open;
  img_format := toy_fmt;
  img_size := toy_size;
  img_resize i sz :=
    if (0 <? fst sz) && (0 <? snd sz) then Ret (Toy None sz) else Exc ValueError;
  img_convert_rgb i := Ret (Toy None (toy_size i));
  img_save_jpeg i := Ret (toy_header (toy_size i))
}.

(** A world that is only a standard output. *)
#[export] Instance StdoutOnly : HasStdout (list pystr) := {
  stdout s := s;
  with_stdout l _ := l;
  stdout_with l s := eq_refl;
  with_stdout_self s := eq_refl;
  with_stdout_twice l l' s := eq_refl
}.

(** The check behind [resize_square_exhaustive]. *)
Definition square_ok (w : Z) : bool :=
  match resize_dims 1080 w w with
  | Ret (a, b) => (a =? 1080) && (b =? if (w =? 2140) || (w =? 4280) then 1079 else 1080)
  | Exc _ => false
  end.

(** ** Lemmas *)

Lemma print_stdout {S} `{HasStdout S} (line : pystr) (s : S) :
  print line s = (Ret tt, with_stdout (stdout s ++ [line]) s).
Proof. reflexivity. Qed.

Lemma b64_str_ok (data : list byte) : b64_str data = Ret (map bval (b64encode data)).
Proof. apply b64encode_decode_utf8. Qed.

Lemma map_byte_of_Z_bval (l : list byte) : map byte_of_Z (map bval l) = l.
Proof. rewrite map_map. erewrite map_ext; [apply map_id|]. apply byte_of_Z_bval. Qed.

(** With no plugin registered as ["JPG"], [Image.open] with the formats of
    line 14 raises [KeyError] on every input the JPEG plugin does not
    accept: it never gets to ["PNG"]. *)
Lemma image_open_non_jpeg {img : Type} (OPEN : pystr -> option (plugin img)) (d : list byte) :
  OPEN (lit "JPG") = None ->
  (forall p, OPEN (lit "JPEG") = Some p -> plugin_accept p (firstn 16 d) = false) ->
  image_open OPEN code_formats d = Exc KeyError.
Proof.
  intros Hjpg Hjpeg. unfold image_open, code_formats. cbn [open_core].
  change (ascii_upper (lit "JPEG")) with (lit "JPEG"). change (ascii_upper (lit "JPG")) with (lit "JPG").
  destruct (OPEN (lit "JPEG")) as [p|] eqn:E; [|reflexivity].
  rewrite (Hjpeg p eq_refl), Hjpg. reflexivity.
Qed.

(** The payload of a data URI built from [b64encode bs] decodes to [bs]. *)
Lemma payload_decodes (bs : list byte) : b64decode (map byte_of_Z (map bval (b64encode bs))) = Some bs.
Proof. rewrite map_byte_of_Z_bval. apply b64decode_encode. Qed.

(** [C12] Over every square image with a side in (1080, 8192], the threshold
    used by [llm_caption]: [resize_image] targets 1080 x 1080 except for the
    sides 2140 and 4280, where it targets 1080 x 1079. *)
Lemma resize_square_exhaustive (w : Z) :
  1080 < w <= 8192 ->
  resize_dims 1080 w w = Ret (1080, if (w =? 2140) || (w =? 4280) then 1079 else 1080).
Proof.
  intros Hw.
  assert (Hc := forall_range_spec 7112 1081 square_ok ltac:(vm_compute; reflexivity) w ltac:(change (Z.of_nat 7112) with 7112; lia)).
  unfold square_ok in Hc. destruct (resize_dims 1080 w w) as [[a b]|e]; [|discriminate].
  apply andb_true_iff in Hc as [Ha Hb]. apply Z.eqb_eq in Ha, Hb. subst. reflexivity.
Qed.

Section EncodeLemmas.
Context `{PilImage} {S : Type} `{HasStdout S}.

(** [C5] A JPEG whose shorter side is at most the threshold is passed
    through: the result is the prefix and a base64 payload that decodes
    to the input bytes, byte for byte, and nothing is printed. *)
Theorem encode_passthrough_roundtrip (d : list byte) (m : Z) (s : S) (img : image) :
  pil_open d = Ret img -> min_size (img_size img) <= m ->
  format_is_jpeg (img_format img) = true ->
  exists payload,
    encode_image_as_base64_data_uri d m s = (Ret (data_uri_prefix ++ payload), s) /\
    b64decode (map byte_of_Z payload) = Some d.
Proof.
  intros Ho Hm Hf. exists (map bval (b64encode d)). split; [|apply payload_decodes].
  unfold encode_image_as_base64_data_uri, bind, lift, ret.
  rewrite Ho, Hf. apply Z.leb_le in Hm. rewrite Hm. simpl. rewrite b64_str_ok. reflexivity.
Qed.

Lemma encode_data_uri_shape (d : list byte) (m : Z) (s s' : S) (uri : pystr) :
  encode_image_as_base64_data_uri d m s = (Ret uri, s') ->
  exists bs, uri = data_uri_prefix ++ map bval (b64encode bs).
Proof.
  unfold encode_image_as_base64_data_uri, bind, lift, ret.
  destruct (pil_open d) as [img|e]; [|discriminate].
  destruct (_ && _).
  - rewrite b64_str_ok. intros [= <- _]. eexists. reflexivity.
  - destruct (_ && _).
    + destruct (resize_image img m) as [img'|e]; [|discriminate].
      rewrite print_stdout.
      destruct (img_convert_rgb img') as [i2|e]; [|discriminate].
      destruct (img_save_jpeg i2) as [j|e]; [|discriminate].
      rewrite b64_str_ok. intros [= <- _]. eexists. reflexivity.
    + destruct (img_convert_rgb img) as [i2|e]; [|discriminate].
      destruct (img_save_jpeg i2) as [j|e]; [|discriminate].
      rewrite b64_str_ok. intros [= <- _]. eexists. reflexivity.
Qed.

(** [encode_image_as_base64_data_uri] changes nothing but standard
    output. *)
Lemma encode_only_prints (d : list byte) (m : Z) (s : S) :
  exists l, snd (encode_image_as_base64_data_uri d m s) = with_stdout l s.
Proof.
  unfold encode_image_as_base64_data_uri, bind, lift, ret.
  destruct (pil_open d) as [img|e]; simpl; [|exists (stdout s); symmetry; apply with_stdout_self].
  repeat match goal with
         | |- context [if ?b then _ else _] => destruct b
         | |- context [match ?o with Ret _ => _ | Exc _ => _ end] => destruct o
         end; simpl;
    solve [ exists (stdout s); symmetry; apply with_stdout_self
          | eexists; rewrite ?with_stdout_twice; reflexivity ].
Qed.

(** The outcome of [encode_image_as_base64_data_uri] depends on its
    arguments only, not on the world it runs in. *)
Lemma encode_outcome_indep (d : list byte) (m : Z) (s s' : S) :
  fst (encode_image_as_base64_data_uri d m s) = fst (encode_image_as_base64_data_uri d m s').
Proof.
  unfold encode_image_as_base64_data_uri, bind, lift, ret.
  destruct (pil_open d) as [img|e]; simpl; [|reflexivity].
  repeat match goal with
         | |- context [if ?b then _ else _] => destruct b
         | |- context [match ?o with Ret _ => _ | Exc _ => _ end] => destruct o
         end; reflexivity.
Qed.

(** The whole effect of [encode_image_as_base64_data_uri]: its outcome and
    the lines it prints depend on its arguments only, and the world it runs
    in only gets those lines appended to its output. *)
Lemma encode_frame (d : list byte) (m : Z) (s : S) :
  exists out, forall s', encode_image_as_base64_data_uri d m s' =
    (fst (encode_image_as_base64_data_uri d m s), with_stdout (stdout s' ++ out) s').
Proof.
  unfold encode_image_as_base64_data_uri, bind, lift, ret, print.
  destruct (pil_open d) as [img|e]; simpl;
    [|exists []; intros s'; rewrite app_nil_r, with_stdout_self; reflexivity].
  repeat match goal with
         | |- context [if ?b then _ else _] => destruct b
         | |- context [match ?o with Ret _ => _ | Exc _ => _ end] => destruct o
         end; simpl;
    solve [ exists []; intros s'; rewrite app_nil_r, with_stdout_self; reflexivity
          | eexists; intros s'; rewrite ?with_stdout_twice; reflexivity ].
Qed.

Lemma encode_open_fails (d : list byte) (m : Z) (s : S) (e : exn) :
  pil_open d = Exc e -> encode_image_as_base64_data_uri d m s = (Exc e, s).
Proof. intros Ho. unfold encode_image_as_base64_data_uri, bind, lift. rewrite Ho. reflexivity. Qed.

(** [C15] Whenever it returns, the result is ["data:image/jpeg;base64,"]
    followed by the base64 encoding of some bytes (the input or the
    re-encoded JPEG). *)
Theorem encode_returns_data_uri (d : list byte) (m : Z) (s s' : S) (uri : pystr) :
  encode_image_as_base64_data_uri d m s = (Ret uri, s') ->
  exists bs, uri = data_uri_prefix ++ map bval (b64encode bs).
Proof. apply encode_data_uri_shape. Qed.

(** [C16] When PIL cannot open the bytes, the exception propagates and the
    world is untouched: nothing is printed. *)
Theorem encode_open_error (d : list byte) (m : Z) (s : S) (e : exn) :
  pil_open d = Exc e -> encode_image_as_base64_data_uri d m s = (Exc e, s).
Proof. apply encode_open_fails. Qed.
(** [C23] The resize path (lines 18-26): when the shorter side exceeds a
    positive threshold, the image is resized, exactly one line
    ["Image resized from (w, h) to (w', h')."] is printed with the sizes
    before and after, and the result is the data URI of the JPEG that PIL
    saves from the RGB conversion of the resized image. *)
Theorem encode_resize_path (d : list byte) (m : Z) (s : S) (img img' i2 : image) (jpeg : list byte) :
  pil_open d = Ret img -> 0 < m -> m < min_size (img_size img) ->
  resize_image img m = Ret img' -> img_convert_rgb img' = Ret i2 -> img_save_jpeg i2 = Ret jpeg ->
  encode_image_as_base64_data_uri d m s =
    (Ret (data_uri_prefix ++ map bval (b64encode jpeg)),
     with_stdout (stdout s ++ [lit "Image resized from " ++ repr_pair (img_size img) ++ lit " to "
                               ++ repr_pair (img_size img') ++ lit "."]) s).
Proof.
  intros Ho Hm Hlt Hr Hc Hj. unfold encode_image_as_base64_data_uri, bind, lift, ret.
  rewrite Ho. replace (min_size (img_size img) <=? m) with false by (symmetry; apply Z.leb_gt; lia).
  replace ((0 <? m) && (m <? min_size (img_size img))) with true
    by (symmetry; apply andb_true_iff; split; apply Z.ltb_lt; lia).
  simpl. rewrite Hr. unfold print. simpl. rewrite Hc, Hj, b64_str_ok. reflexivity.
Qed.

End EncodeLemmas.

(** ** Witnesses *)

Lemma resize_square_exhaustive_witness :
  resize_dims 1080 4280 4280 = Ret (1080, if (4280 =? 2140) || (4280 =? 4280) then 1079 else 1080).
Proof. apply resize_square_exhaustive. lia. Defined.

Lemma encode_passthrough_roundtrip_witness :
  exists payload,
    @encode_image_as_base64_data_uri ToyPil (list pystr) StdoutOnly (toy_header (100, 50)) 1080 []
      = (Ret (data_uri_prefix ++ payload), []) /\
    b64decode (map byte_of_Z payload) = Some (toy_header (100, 50)).
Proof.
  apply (@encode_passthrough_roundtrip ToyPil (list pystr) StdoutOnly _ _ _ (Toy (Some (lit "JPEG")) (100, 50))).
  - vm_compute. reflexivity.
  - vm_compute. discriminate.
  - vm_compute. reflexivity.
Defined.

Lemma encode_returns_data_uri_witness :
  exists bs,
    match fst (@encode_image_as_base64_data_uri ToyPil (list pystr) StdoutOnly (toy_header (2000, 1000)) 1080 []) with
    | Ret u => u | Exc _ => []
    end = data_uri_prefix ++ map bval (b64encode bs).
Proof.
  apply (@encode_returns_data_uri ToyPil (list pystr) StdoutOnly (toy_header (2000, 1000)) 1080 []
           (snd (@encode_image_as_base64_data_uri ToyPil (list pystr) StdoutOnly (toy_header (2000, 1000)) 1080 []))).
  vm_compute. reflexivity.
Defined.

Lemma encode_open_error_witness :
  @encode_image_as_base64_data_uri ToyPil (list pystr) StdoutOnly [Byte.x01] 1080 []
    = (Exc KeyError, []).
Proof. apply encode_open_error. reflexivity. Defined.

(** The 2140 x 2140 JPEG: the printed line reports the one-pixel loss. *)
Lemma encode_resize_path_witness :
  @encode_image_as_base64_data_uri ToyPil (list pystr) StdoutOnly (toy_header (2140, 2140)) 1080 [] =
    (Ret (data_uri_prefix ++ map bval (b64encode (toy_header (1080, 1079)))),
     [lit "Image resized from (2140, 2140) to (1080, 1079)."]).
Proof.
  rewrite (@encode_resize_path ToyPil (list pystr) StdoutOnly _ _ _ (Toy (Some (lit "JPEG")) (2140, 2140))
             (Toy None (1080, 1079)) (Toy None (1080, 1079)) (toy_header (1080, 1079))).
  - vm_compute. reflexivity.
  - vm_compute. reflexivity.
  - lia.
  - vm_compute. reflexivity.
  - vm_compute. reflexivity.
  - reflexivity.
  - reflexivity.
Defined.
