(* ===== verification/FloatBound.v ===== *)
(** * How far the float resize can be from the exact ratio

    [resize_dims] computes [int((s / w) * h)] in binary64 (lines 38 and 41
    of [_llm_caption.py]).  This file bounds the error once and for all,
    from the definition of rounding in [SpecFloat] (which is what Rocq's
    primitive [float]s, and CPython's, compute): every operation rounds to
    a neighbour of the exact value, so the computed height is [s*h/w]
    (integer division) or one less, and exactly [s*h/w] unless [w] divides
    [s*h].  The bounds [s*h < 2^49] keep the accumulated error below [1/w];
    PIL sizes and the threshold 1080 are far inside them.

    - [Zdigits2], the number of binary digits, is [Z.log2 + 1];
    - [shr] divides the mantissa by a power of two;
    - [round_aux_faithful]: [binary_round_aux] returns a 53-digit mantissa
      equal to the truncation of its input or one more;
    - [float_of_int_spec]: integers below [2^53] convert exactly;
    - [div_faithful], [mul_faithful]: a quotient and a product of such
      floats are within one unit in the last place of the exact value. *)

From Stdlib Require Import Floats Reals Lra.
From S2P Require Import Prelude PyRuntime PyFloat Image.

Local Open Scope Z_scope.

(** The reference the float computation approximates: the scaled side
    [s * b / a] in exact arithmetic, rounded down. *)
Definition exact_side (s a b : Z) : Z := (s * b) / a.

(** ** Digits *)

Lemma digits2_pos_size (p : positive) : digits2_pos p = Pos.size p.
Proof. induction p as [p IH|p IH|]; simpl; rewrite ?IH; reflexivity. Qed.

Lemma Zdigits2_log2 (n : Z) : 0 < n -> Zdigits2 n = Z.log2 n + 1.
Proof.
  destruct n as [|p|p]; try lia. intros _. simpl. rewrite digits2_pos_size.
  destruct p; simpl; lia.
Qed.

(** The digits of [n] are [d] exactly when [n] lies in [[2^(d-1), 2^d)]. *)
Lemma Zdigits2_unique (n d : Z) : 1 <= d -> 2 ^ (d - 1) <= n < 2 ^ d -> Zdigits2 n = d.
Proof.
  intros Hd Hn. assert (0 < n) by (pose proof (Z.pow_pos_nonneg 2 (d - 1)); lia).
  rewrite Zdigits2_log2 by lia. rewrite (Z.log2_unique n (d - 1)); [lia|lia|].
  replace (Z.succ (d - 1)) with d by lia. lia.
Qed.

Lemma Zdigits2_bounds (n : Z) : 0 < n -> 2 ^ (Zdigits2 n - 1) <= n < 2 ^ Zdigits2 n.
Proof.
  intros Hn. rewrite Zdigits2_log2 by exact Hn. replace (Z.log2 n + 1 - 1) with (Z.log2 n) by lia.
  rewrite Z.add_1_r. apply Z.log2_spec. exact Hn.
Qed.

(** ** Right shifts *)

Lemma shr_1_m (mrs : shr_record) : 0 <= shr_m mrs -> shr_m (shr_1 mrs) = shr_m mrs / 2.
Proof.
  destruct mrs as [m r s]. simpl. intros Hm.
  destruct m as [|[p|p|]|p]; simpl; try reflexivity; try lia.
  - change (Zpos p~1) with (2 * Zpos p + 1). zlia.
  - change (Zpos p~0) with (2 * Zpos p). zlia.
Qed.

Lemma pow2_pos (n : Z) : 0 <= n -> 0 < 2 ^ n.
Proof. intros Hn. apply Z.pow_pos_nonneg; lia. Qed.

Lemma div_pow2_nonneg (m n : Z) : 0 <= m -> 0 <= n -> 0 <= m / 2 ^ n.
Proof. intros Hm Hn. apply Z.div_pos; [exact Hm|apply pow2_pos, Hn]. Qed.

Lemma iter_shr_m (p : positive) (mrs : shr_record) :
  0 <= shr_m mrs -> shr_m (SpecFloat.iter_pos shr_1 p mrs) = shr_m mrs / 2 ^ Zpos p.
Proof.
  revert mrs. induction p as [p IH|p IH|]; intros mrs Hm; cbn [SpecFloat.iter_pos].
  - assert (H1 : 0 <= shr_m (shr_1 mrs)) by (rewrite shr_1_m by exact Hm; zlia).
    assert (H2 : 0 <= shr_m (SpecFloat.iter_pos shr_1 p (shr_1 mrs)))
      by (rewrite IH by exact H1; apply div_pow2_nonneg; lia).
    rewrite IH, IH, shr_1_m by assumption.
    rewrite (Pos2Z.inj_xI p), !Z.div_div by (first [lia | apply pow2_pos | apply Z.pow_nonzero | apply Z.neq_mul_0; split; apply Z.pow_nonzero]; lia).
    f_equal. replace (2 * Zpos p + 1) with (Zpos p + Zpos p + 1) by lia.
    rewrite !Z.pow_add_r by lia. ring.
  - assert (H2 : 0 <= shr_m (SpecFloat.iter_pos shr_1 p mrs))
      by (rewrite IH by exact Hm; apply div_pow2_nonneg; lia).
    rewrite IH, IH by assumption.
    rewrite (Pos2Z.inj_xO p), Z.div_div by (first [apply pow2_pos | apply Z.pow_nonzero]; lia).
    f_equal. replace (2 * Zpos p) with (Zpos p + Zpos p) by lia.
    rewrite !Z.pow_add_r by lia. ring.
  - apply shr_1_m. exact Hm.
Qed.

Lemma shr_m_of_loc (m : Z) (l : location) : shr_m (shr_record_of_loc m l) = m.
Proof. destruct l as [|[]]; reflexivity. Qed.

Lemma shr_spec (mrs : shr_record) (e n : Z) :
  0 <= shr_m mrs -> 0 <= n ->
  shr_m (fst (shr mrs e n)) = shr_m mrs / 2 ^ n /\ snd (shr mrs e n) = e + n.
Proof.
  intros Hm Hn. destruct n as [|p|p]; simpl; [rewrite Z.div_1_r; lia| |lia].
  split; [apply iter_shr_m, Hm|reflexivity].
Qed.

(** ** Rounding of a mantissa with at least 53 digits *)

Lemma fexp_normal (e : Z) : -1074 <= e - 53 -> fexp prec emax e = e - 53.
Proof. intros He. unfold fexp, emin, prec, emax. lia. Qed.

(** Truncating a [D]-digit number to 53 digits leaves a 53-digit number. *)
Lemma trunc53_bounds (m : Z) : 0 < m -> 53 <= Zdigits2 m ->
  2 ^ 52 <= m / 2 ^ (Zdigits2 m - 53) < 2 ^ 53.
Proof.
  intros Hm Hd. pose proof (Zdigits2_bounds m Hm) as [Hlo Hhi].
  assert (Hk : 0 < 2 ^ (Zdigits2 m - 53)) by (apply pow2_pos; lia).
  split.
  - apply Z.div_le_lower_bound; [exact Hk|]. rewrite <- Z.pow_add_r by lia.
    replace (Zdigits2 m - 53 + 52) with (Zdigits2 m - 1) by lia. exact Hlo.
  - apply Z.div_lt_upper_bound; [exact Hk|]. rewrite <- Z.pow_add_r by lia.
    replace (Zdigits2 m - 53 + 53) with (Zdigits2 m) by lia. exact Hhi.
Qed.

Lemma shr_fexp_spec (m e : Z) (l : location) :
  0 < m -> 53 <= Zdigits2 m -> -1074 <= Zdigits2 m + e - 53 ->
  shr_m (fst (shr_fexp prec emax m e l)) = m / 2 ^ (Zdigits2 m - 53) /\
  snd (shr_fexp prec emax m e l) = e + (Zdigits2 m - 53).
Proof.
  intros Hm Hd He. unfold shr_fexp. rewrite fexp_normal by lia.
  replace (Zdigits2 m + e - 53 - e) with (Zdigits2 m - 53) by lia.
  pose proof (shr_spec (shr_record_of_loc m l) e (Zdigits2 m - 53)) as H.
  rewrite shr_m_of_loc in H. apply H; lia.
Qed.

Lemma round_nearest_even_cases (m : Z) (l : location) :
  round_nearest_even m l = m \/ round_nearest_even m l = m + 1.
Proof. destruct l as [|[]]; simpl; auto. destruct (Z.even m); auto. Qed.

(** [binary_round_aux] on a positive mantissa of at least 53 digits, in
    the normal range: the result has a 53-digit mantissa [mf] and is [c]
    units of [2^(e+k)] (written [2 * mf] when rounding carried into a new
    digit), where [c] is the truncation [m / 2^k] or one more. *)
Lemma round_aux_faithful (m e : Z) (l : location) :
  0 < m -> 53 <= Zdigits2 m -> -1074 <= Zdigits2 m + e - 53 -> Zdigits2 m + e - 53 < 971 ->
  exists (mf : positive) (ef c : Z),
    binary_round_aux prec emax false m e l = S754_finite false mf ef /\
    2 ^ 52 <= Zpos mf < 2 ^ 53 /\
    (c = m / 2 ^ (Zdigits2 m - 53) \/ c = m / 2 ^ (Zdigits2 m - 53) + 1) /\
    ((ef = e + (Zdigits2 m - 53) /\ Zpos mf = c) \/
     (ef = e + (Zdigits2 m - 53) + 1 /\ 2 * Zpos mf = c)).
Proof.
  intros Hm Hd Hlo Hhi. unfold binary_round_aux.
  pose proof (shr_fexp_spec m e l Hm Hd Hlo) as [E1 E2].
  destruct (shr_fexp prec emax m e l) as [mrs e'] eqn:Hs1. simpl in E1, E2. subst e'.
  pose proof (trunc53_bounds m Hm Hd) as Ht. rewrite <- E1 in Ht.
  set (r := round_nearest_even (shr_m mrs) (loc_of_shr_record mrs)).
  assert (Hr : r = shr_m mrs \/ r = shr_m mrs + 1) by apply round_nearest_even_cases.
  destruct (Z.eq_dec r (2 ^ 53)) as [Hc|Hc].
  - (* the rounding carried: one more shift *)
    assert (Hdr : Zdigits2 r = 54) by (rewrite Hc; reflexivity).
    pose proof (shr_fexp_spec r (e + (Zdigits2 m - 53)) loc_Exact ltac:(lia) ltac:(lia) ltac:(lia)) as [F1 F2].
    destruct (shr_fexp prec emax r _ loc_Exact) as [mrs2 e2] eqn:Hs2. simpl in F1, F2.
    rewrite Hdr, Hc in F1. change (2 ^ 53 / 2 ^ (54 - 53)) with (2 ^ 52) in F1.
    rewrite F1. exists (Z.to_pos (2 ^ 52)), e2, r. rewrite Hdr in F2.
    replace (Z.leb e2 (emax - prec)) with true by (symmetry; apply Z.leb_le; unfold emax, prec; lia).
    split; [reflexivity|]. rewrite Z2Pos.id by (apply pow2_pos; lia).
    split; [split; [lia|apply Z.pow_lt_mono_r; lia]|].
    split; [rewrite <- E1; lia|]. right. split; [lia|]. rewrite Hc. reflexivity.
  - assert (Hr53 : 2 ^ 52 <= r < 2 ^ 53) by lia.
    assert (Hdr : Zdigits2 r = 53) by (apply Zdigits2_unique; [lia|exact Hr53]).
    pose proof (shr_fexp_spec r (e + (Zdigits2 m - 53)) loc_Exact ltac:(lia) ltac:(lia) ltac:(lia)) as [F1 F2].
    destruct (shr_fexp prec emax r _ loc_Exact) as [mrs2 e2] eqn:Hs2. simpl in F1, F2.
    rewrite Hdr, Z.sub_diag, Z.pow_0_r, Z.div_1_r in F1. rewrite Hdr in F2.
    rewrite F1. destruct r as [|p|p] eqn:Er; try lia.
    exists p, e2, (Zpos p).
    replace (Z.leb e2 (emax - prec)) with true by (symmetry; apply Z.leb_le; unfold emax, prec; lia).
    split; [reflexivity|]. split; [lia|]. split; [rewrite <- E1; lia|]. left. split; lia.
Qed.

(** A 53-digit mantissa with no pending location is returned as it is. *)
Lemma round_aux_exact (m e : Z) :
  2 ^ 52 <= m < 2 ^ 53 -> -1074 <= e -> e < 971 ->
  binary_round_aux prec emax false m e loc_Exact = S754_finite false (Z.to_pos m) e.
Proof.
  intros Hm Hlo Hhi. assert (Hd : Zdigits2 m = 53) by (apply Zdigits2_unique; lia).
  unfold binary_round_aux, shr_fexp. rewrite Hd, fexp_normal by lia.
  replace (53 + e - 53 - e) with 0 by lia. simpl. rewrite Hd, fexp_normal by lia.
  replace (53 + e - 53 - e) with 0 by lia. simpl.
  destruct m as [|p|p]; try lia. simpl.
  destruct (Z.leb_spec e 971); [reflexivity|lia].
Qed.

Lemma pos_iter_xO (p d : positive) : Zpos (Pos.iter xO p d) = Zpos p * 2 ^ Zpos d.
Proof.
  induction d as [|d IH] using Pos.peano_ind; [simpl; lia|].
  rewrite Pos.iter_succ, Pos2Z.inj_succ, Z.pow_succ_r by lia.
  change (Zpos (xO (Pos.iter xO p d))) with (2 * Zpos (Pos.iter xO p d)). rewrite IH. ring.
Qed.

(** [float(n)] for [0 < n < 2^53]: the 53-digit mantissa [n * 2^(53-D)]
    and the exponent [D - 53], where [D] is the number of digits of [n]. *)
Lemma binary_normalize_int (n : Z) :
  0 < n < 2 ^ 53 ->
  binary_normalize prec emax n 0 false =
    S754_finite false (Z.to_pos (n * 2 ^ (53 - Zdigits2 n))) (Zdigits2 n - 53).
Proof.
  intros Hn. pose proof (Zdigits2_bounds n ltac:(lia)) as [Hlo Hhi].
  assert (HD : 1 <= Zdigits2 n <= 53).
  { split; [rewrite Zdigits2_log2 by lia; pose proof (Z.log2_nonneg n); lia|].
    destruct (Z.le_gt_cases (Zdigits2 n) 53) as [|Hgt]; [lia|].
    pose proof (Z.pow_le_mono_r 2 53 (Zdigits2 n - 1) ltac:(lia) ltac:(lia)). lia. }
  assert (Hm : 2 ^ 52 <= n * 2 ^ (53 - Zdigits2 n) < 2 ^ 53).
  { replace (2 ^ 52) with (2 ^ (Zdigits2 n - 1) * 2 ^ (53 - Zdigits2 n))
      by (rewrite <- Z.pow_add_r by lia; f_equal; lia).
    replace (2 ^ 53) with (2 ^ Zdigits2 n * 2 ^ (53 - Zdigits2 n))
      by (rewrite <- Z.pow_add_r by lia; f_equal; lia).
    pose proof (pow2_pos (53 - Zdigits2 n) ltac:(lia)). nia. }
  destruct n as [|p|p]; try lia. unfold binary_normalize, binary_round, shl_align.
  change (Zpos (digits2_pos p)) with (Zdigits2 (Zpos p)). rewrite Z.add_0_r, fexp_normal by lia.
  destruct (Z.eq_dec (Zdigits2 (Zpos p)) 53) as [E|E].
  - rewrite E in Hm |- *. rewrite Z.sub_diag, Z.pow_0_r, Z.mul_1_r in Hm |- *. simpl.
    rewrite round_aux_exact by lia. reflexivity.
  - destruct (Zdigits2 (Zpos p) - 53 - 0) as [|d|d] eqn:Ed; try lia.
    rewrite round_aux_exact; [|rewrite pos_iter_xO; replace (Zpos d) with (53 - Zdigits2 (Zpos p)) by lia; lia|lia|lia].
    replace (Zpos (Pos.iter xO p d)) with (Zpos p * 2 ^ (53 - Zdigits2 (Zpos p))); [reflexivity|].
    rewrite pos_iter_xO. f_equal. f_equal. lia.
Qed.

Lemma valid_finite (m : positive) (e : Z) :
  2 ^ 52 <= Zpos m < 2 ^ 53 -> -1074 <= e -> e <= 971 ->
  valid_binary (S754_finite false m e) = true.
Proof.
  intros Hm Hlo Hhi. unfold valid_binary, SpecFloat.valid_binary, SpecFloat.bounded, SpecFloat.canonical_mantissa.
  change (Zpos (digits2_pos m)) with (Zdigits2 (Zpos m)).
  rewrite (Zdigits2_unique (Zpos m) 53) by lia. rewrite fexp_normal by lia.
  apply andb_true_iff. split; [apply Z.eqb_eq; lia|apply Z.leb_le; unfold emax, prec; lia].
Qed.

Lemma float_of_int_spec (n : Z) :
  0 < n < 2 ^ 53 ->
  exists m : positive, Prim2SF (float_of_int n) = S754_finite false m (Zdigits2 n - 53) /\
    Zpos m = n * 2 ^ (53 - Zdigits2 n) /\ 2 ^ 52 <= Zpos m < 2 ^ 53.
Proof.
  intros Hn. pose proof (Zdigits2_bounds n ltac:(lia)) as [Hlo Hhi].
  assert (HD : 1 <= Zdigits2 n <= 53).
  { split; [rewrite Zdigits2_log2 by lia; pose proof (Z.log2_nonneg n); lia|].
    destruct (Z.le_gt_cases (Zdigits2 n) 53) as [|Hgt]; [lia|].
    pose proof (Z.pow_le_mono_r 2 53 (Zdigits2 n - 1) ltac:(lia) ltac:(lia)). lia. }
  assert (Hm : 2 ^ 52 <= n * 2 ^ (53 - Zdigits2 n) < 2 ^ 53).
  { replace (2 ^ 52) with (2 ^ (Zdigits2 n - 1) * 2 ^ (53 - Zdigits2 n))
      by (rewrite <- Z.pow_add_r by lia; f_equal; lia).
    replace (2 ^ 53) with (2 ^ Zdigits2 n * 2 ^ (53 - Zdigits2 n))
      by (rewrite <- Z.pow_add_r by lia; f_equal; lia).
    pose proof (pow2_pos (53 - Zdigits2 n) ltac:(lia)). nia. }
  exists (Z.to_pos (n * 2 ^ (53 - Zdigits2 n))).
  unfold float_of_int. rewrite binary_normalize_int by exact Hn.
  rewrite Prim2SF_SF2Prim; [|apply valid_finite; rewrite ?Z2Pos.id; lia].
  rewrite Z2Pos.id by lia. auto.
Qed.

(** ** Values *)

(** The real value of a positive finite float. *)
Definition fval (m : positive) (e : Z) : R := (IZR (Zpos m) * powerRZ 2 e)%R.

Lemma pow2R_pos (e : Z) : (0 < powerRZ 2 e)%R.
Proof. apply powerRZ_lt. lra. Qed.

Lemma pow2R_add (a b : Z) : powerRZ 2 (a + b) = (powerRZ 2 a * powerRZ 2 b)%R.
Proof. apply powerRZ_add. lra. Qed.

Lemma IZR_pow2 (k : Z) : 0 <= k -> IZR (2 ^ k) = powerRZ 2 k.
Proof.
  intros Hk. rewrite <- (Z2Nat.id k) by exact Hk. rewrite <- pow_IZR, pow_powerRZ. reflexivity.
Qed.

(** A faithful rounding in values: the result is within one unit [u] of
    the exact value [m * 2^e], and [u] is at most [2^-52] times it. *)
Lemma faithful_value (m e : Z) (mf : positive) (ef c : Z) :
  0 < m -> 53 <= Zdigits2 m ->
  (c = m / 2 ^ (Zdigits2 m - 53) \/ c = m / 2 ^ (Zdigits2 m - 53) + 1) ->
  ((ef = e + (Zdigits2 m - 53) /\ Zpos mf = c) \/
   (ef = e + (Zdigits2 m - 53) + 1 /\ 2 * Zpos mf = c)) ->
  (IZR m * powerRZ 2 e - powerRZ 2 (e + (Zdigits2 m - 53)) <= fval mf ef <=
   IZR m * powerRZ 2 e + powerRZ 2 (e + (Zdigits2 m - 53)))%R /\
  (powerRZ 2 (e + (Zdigits2 m - 53)) * IZR (2 ^ 52) <= IZR m * powerRZ 2 e)%R.
Proof.
  intros Hm Hd Hc Hf. set (k := Zdigits2 m - 53) in *. set (t := m / 2 ^ k) in *.
  assert (Hk : 0 < 2 ^ k) by (apply pow2_pos; lia).
  assert (Ht1 : 2 ^ k * t <= m) by (apply Z.mul_div_le; lia).
  assert (Ht2 : m < 2 ^ k * (t + 1)) by (pose proof (Z.mul_succ_div_gt m (2 ^ k) Hk); unfold t; lia).
  assert (Ht52 : 2 ^ 52 <= t) by (apply (trunc53_bounds m Hm Hd)).
  assert (Hval : fval mf ef = (IZR c * powerRZ 2 k * powerRZ 2 e)%R).
  { unfold fval. destruct Hf as [[-> <-]|[-> <-]].
    - rewrite pow2R_add. ring.
    - rewrite !pow2R_add, mult_IZR. replace (powerRZ 2 1) with 2%R by (simpl; ring). ring. }
  assert (Hc1 : (IZR m - powerRZ 2 k <= IZR c * powerRZ 2 k <= IZR m + powerRZ 2 k)%R).
  { rewrite <- IZR_pow2 by lia. rewrite <- mult_IZR, <- minus_IZR, <- plus_IZR.
    split; apply IZR_le; destruct Hc as [->| ->]; nia. }
  assert (H52 : (IZR (2 ^ 52) * powerRZ 2 k <= IZR m)%R).
  { rewrite <- IZR_pow2 by lia. rewrite <- mult_IZR. apply IZR_le. nia. }
  pose proof (pow2R_pos e) as He. rewrite Hval, pow2R_add.
  split; [split|]; nra.
Qed.

(** ** Products and quotients of 53-digit floats *)

Lemma digits_53 (m : positive) : 2 ^ 52 <= Zpos m < 2 ^ 53 -> Zdigits2 (Zpos m) = 53.
Proof. intros Hm. apply Zdigits2_unique; lia. Qed.

Lemma mul_value (mx my : positive) (ex ey : Z) :
  2 ^ 52 <= Zpos mx < 2 ^ 53 -> 2 ^ 52 <= Zpos my < 2 ^ 53 -> -900 <= ex + ey <= 800 ->
  exists (mf : positive) (ef : Z) (u : R),
    SFmul prec emax (S754_finite false mx ex) (S754_finite false my ey) = S754_finite false mf ef /\
    2 ^ 52 <= Zpos mf < 2 ^ 53 /\ ex + ey + 52 <= ef <= ex + ey + 54 /\
    (fval mx ex * fval my ey - u <= fval mf ef <= fval mx ex * fval my ey + u)%R /\
    (u * IZR (2 ^ 52) <= fval mx ex * fval my ey)%R.
Proof.
  intros Hx Hy He. set (m := Zpos mx * Zpos my).
  assert (Hm : 2 ^ 104 <= m < 2 ^ 106).
  { unfold m. replace (2 ^ 104) with (2 ^ 52 * 2 ^ 52) by reflexivity.
    replace (2 ^ 106) with (2 ^ 53 * 2 ^ 53) by reflexivity. nia. }
  assert (Hd : 105 <= Zdigits2 m <= 106).
  { rewrite Zdigits2_log2 by lia. split.
    - pose proof (Z.log2_le_mono (2 ^ 104) m ltac:(lia)) as H. rewrite Z.log2_pow2 in H by lia. lia.
    - pose proof (Z.log2_lt_pow2 m 106 ltac:(lia)) as [H _]. specialize (H ltac:(lia)). lia. }
  destruct (round_aux_faithful m (ex + ey) loc_Exact ltac:(lia) ltac:(lia) ltac:(lia) ltac:(lia))
    as (mf & ef & c & Hr & Hmf & Hc & Hf).
  destruct (faithful_value m (ex + ey) mf ef c ltac:(lia) ltac:(lia) Hc Hf) as [Hv Hu].
  exists mf, ef, (powerRZ 2 (ex + ey + (Zdigits2 m - 53))).
  assert (Hxy : (fval mx ex * fval my ey)%R = (IZR m * powerRZ 2 (ex + ey))%R).
  { unfold fval, m. rewrite mult_IZR, pow2R_add. ring. }
  rewrite Hxy. split; [exact Hr|]. split; [exact Hmf|]. split; [lia|]. split; assumption.
Qed.

Lemma div_core (mx my : positive) (ex ey : Z) :
  2 ^ 52 <= Zpos mx < 2 ^ 53 -> 2 ^ 52 <= Zpos my < 2 ^ 53 -> -900 <= ex - ey <= 900 ->
  exists l, SFdiv_core_binary prec emax (Zpos mx) ex (Zpos my) ey =
              (Zpos mx * 2 ^ 53 / Zpos my, ex - ey - 53, l).
Proof.
  intros Hx Hy He. unfold SFdiv_core_binary. rewrite !digits_53 by assumption.
  rewrite fexp_normal by lia.
  replace (Z.min (53 + ex - (53 + ey) - 53) (ex - ey)) with (ex - ey - 53) by lia.
  replace (ex - ey - (ex - ey - 53)) with 53 by lia.
  rewrite (Z.shiftl_mul_pow2 (Zpos mx) 53) by lia.
  unfold Z.div. destruct (Z.div_eucl (Zpos mx * 2 ^ 53) (Zpos my)). eexists. reflexivity.
Qed.

Lemma div_value (mx my : positive) (ex ey : Z) :
  2 ^ 52 <= Zpos mx < 2 ^ 53 -> 2 ^ 52 <= Zpos my < 2 ^ 53 -> -900 <= ex - ey <= 900 ->
  exists (mf : positive) (ef : Z) (u : R),
    SFdiv prec emax (S754_finite false mx ex) (S754_finite false my ey) = S754_finite false mf ef /\
    2 ^ 52 <= Zpos mf < 2 ^ 53 /\ ex - ey - 53 <= ef <= ex - ey - 51 /\
    (fval mx ex / fval my ey - u <= fval mf ef <= fval mx ex / fval my ey + u)%R /\
    (u * IZR (2 ^ 51) <= fval mx ex / fval my ey)%R.
Proof.
  intros Hx Hy He. destruct (div_core mx my ex ey Hx Hy He) as [l Hcore].
  set (q := Zpos mx * 2 ^ 53 / Zpos my) in *.
  assert (Hq : 2 ^ 52 <= q < 2 ^ 54).
  { unfold q. split.
    - apply Z.div_le_lower_bound; [lia|].
      replace (2 ^ 52 * 2 ^ 53) with (2 ^ 105) in * by reflexivity. nia.
    - apply Z.div_lt_upper_bound; [lia|]. nia. }
  assert (Hd : 53 <= Zdigits2 q <= 54).
  { rewrite Zdigits2_log2 by lia. split.
    - pose proof (Z.log2_le_mono (2 ^ 52) q ltac:(lia)) as H. rewrite Z.log2_pow2 in H by lia. lia.
    - pose proof (Z.log2_lt_pow2 q 54 ltac:(lia)) as [H _]. specialize (H ltac:(lia)). lia. }
  destruct (round_aux_faithful q (ex - ey - 53) l ltac:(lia) ltac:(lia) ltac:(lia) ltac:(lia))
    as (mf & ef & c & Hr & Hmf & Hc & Hf).
  destruct (faithful_value q (ex - ey - 53) mf ef c ltac:(lia) ltac:(lia) Hc Hf) as [Hv Hu].
  set (u := powerRZ 2 (ex - ey - 53 + (Zdigits2 q - 53))) in *.
  exists mf, ef, (2 * u)%R.
  split; [unfold SFdiv; rewrite Hcore; exact Hr|]. split; [exact Hmf|]. split; [lia|].
  (* the exact quotient lies between [q] and [q + 1] units of [2^(ex-ey-53)] *)
  assert (Hq1 : Zpos my * q <= Zpos mx * 2 ^ 53 < Zpos my * (q + 1)).
  { unfold q. split; [apply Z.mul_div_le; lia|].
    pose proof (Z.mul_succ_div_gt (Zpos mx * 2 ^ 53) (Zpos my) ltac:(lia)). lia. }
  assert (Hexact : (fval mx ex / fval my ey)%R =
                   (IZR (Zpos mx * 2 ^ 53) / IZR (Zpos my) * powerRZ 2 (ex - ey - 53))%R).
  { unfold fval. rewrite mult_IZR, IZR_pow2 by lia.
    replace ex with (ex - ey - 53 + 53 + ey) at 1 by lia. rewrite !pow2R_add.
    field. repeat split; (apply not_0_IZR; lia) || (apply Rgt_not_eq, pow2R_pos). }
  assert (Hmy : (0 < IZR (Zpos my))%R) by (apply IZR_lt; lia).
  assert (Hlo : (IZR q <= IZR (Zpos mx * 2 ^ 53) / IZR (Zpos my))%R).
  { apply Rmult_le_reg_r with (IZR (Zpos my)); [exact Hmy|].
    unfold Rdiv. rewrite Rmult_assoc, Rinv_l, Rmult_1_r by lra.
    rewrite <- mult_IZR. apply IZR_le. lia. }
  assert (Hhi : (IZR (Zpos mx * 2 ^ 53) / IZR (Zpos my) < IZR q + 1)%R).
  { apply Rmult_lt_reg_r with (IZR (Zpos my)); [exact Hmy|].
    unfold Rdiv. rewrite Rmult_assoc, Rinv_l, Rmult_1_r by lra.
    rewrite <- (plus_IZR q 1), <- mult_IZR. apply IZR_lt. lia. }
  assert (Hu1 : (powerRZ 2 (ex - ey - 53) <= u)%R).
  { unfold u. rewrite pow2R_add. pose proof (pow2R_pos (ex - ey - 53)).
    assert (1 <= powerRZ 2 (Zdigits2 q - 53))%R.
    { rewrite <- IZR_pow2 by lia. apply IZR_le. pose proof (pow2_pos (Zdigits2 q - 53)). lia. }
    nra. }
  pose proof (pow2R_pos (ex - ey - 53)) as Hp. rewrite Hexact.
  set (X := (IZR (Zpos mx * 2 ^ 53) / IZR (Zpos my))%R) in *.
  set (P := powerRZ 2 (ex - ey - 53)) in *.
  assert (H1 : (IZR q * P <= X * P)%R) by (apply Rmult_le_compat_r; lra).
  assert (H2 : (X * P <= IZR q * P + P)%R) by nra.
  replace (IZR (2 ^ 51)) with (IZR (2 ^ 52) / 2)%R by (rewrite !IZR_pow2 by lia; simpl; field).
  replace (2 * u * (IZR (2 ^ 52) / 2))%R with (u * IZR (2 ^ 52))%R by field.
  split; [split|]; lra.
Qed.

(** ** [int()] and the error budget *)

(** [int(x)] of a positive finite float is the integer part of its value. *)
Lemma py_int_floor (x : float) (mf : positive) (ef : Z) :
  Prim2SF x = S754_finite false mf ef ->
  exists r, py_int x = Ret r /\ (IZR r <= fval mf ef < IZR r + 1)%R.
Proof.
  intros Hx. unfold py_int. rewrite Hx. eexists. split; [reflexivity|].
  rewrite trunc_finite_pos. unfold fval. destruct (Z.leb_spec 0 ef) as [He|He].
  - rewrite mult_IZR, IZR_pow2 by exact He. lra.
  - set (K := - ef). assert (HK : 0 < 2 ^ K) by (apply pow2_pos; lia).
    assert (H1 : 2 ^ K * (Zpos mf / 2 ^ K) <= Zpos mf) by (apply Z.mul_div_le; lia).
    assert (H2 : Zpos mf < 2 ^ K * (Zpos mf / 2 ^ K + 1))
      by (pose proof (Z.mul_succ_div_gt (Zpos mf) (2 ^ K) HK); lia).
    apply IZR_le in H1. apply IZR_lt in H2. rewrite mult_IZR, IZR_pow2 in H1 by lia.
    rewrite mult_IZR, plus_IZR, IZR_pow2 in H2 by lia.
    assert (HP : (powerRZ 2 K * powerRZ 2 ef = 1)%R)
      by (rewrite <- pow2R_add; unfold K; rewrite Z.add_opp_diag_l; reflexivity).
    pose proof (pow2R_pos ef) as Hef. split.
    + replace (IZR (Zpos mf / 2 ^ K)) with (powerRZ 2 K * IZR (Zpos mf / 2 ^ K) * powerRZ 2 ef)%R
        by (rewrite Rmult_comm, <- Rmult_assoc, (Rmult_comm (powerRZ 2 ef)), HP; ring).
      apply Rmult_le_compat_r; lra.
    + replace (IZR (Zpos mf / 2 ^ K) + 1)%R
        with (powerRZ 2 K * (IZR (Zpos mf / 2 ^ K) + 1) * powerRZ 2 ef)%R
        by (rewrite Rmult_comm, <- Rmult_assoc, (Rmult_comm (powerRZ 2 ef)), HP; ring).
      apply Rmult_lt_compat_r; lra.
Qed.

(** Two faithful roundings, of [x = s / a] and then of [x * b], stay
    within [x * b / 2^50] of [x * b]. *)
Lemma error_budget (x Q P b u1 u2 : R) :
  (0 < x)%R -> (0 < b)%R ->
  (x - u1 <= Q <= x + u1)%R -> (u1 * IZR (2 ^ 51) <= x)%R ->
  (Q * b - u2 <= P <= Q * b + u2)%R -> (u2 * IZR (2 ^ 52) <= Q * b)%R ->
  (x * b - x * b / IZR (2 ^ 50) <= P <= x * b + x * b / IZR (2 ^ 50))%R.
Proof.
  intros Hx Hb HQ Hu1 HP Hu2.
  change (IZR (2 ^ 51)) with 2251799813685248%R in Hu1.
  change (IZR (2 ^ 52)) with 4503599627370496%R in Hu2.
  change (IZR (2 ^ 50)) with 1125899906842624%R.
  assert (Hu1' : (0 <= u1)%R) by lra.
  assert (Hbu : (b * u1 <= b * x / 2251799813685248)%R) by (apply Rmult_le_compat_l with (r := b) in Hu1; nra).
  assert (HQb : (Q * b <= x * b + b * u1)%R) by nra.
  split; nra.
Qed.

(** An integer [r] with [r * a <= N <= (r + 1) * a] is [N / a] or one
    less, and [N / a] when [a] does not divide [N]. *)
Lemma floor_from_bounds (N a r : Z) :
  0 < a -> r * a <= N -> N <= (r + 1) * a ->
  N / a - 1 <= r <= N / a /\ (N mod a <> 0 -> r = N / a).
Proof.
  intros Ha H1 H2. pose proof (Z.div_mod N a ltac:(lia)) as Hd. pose proof (Z.mod_pos_bound N a Ha) as Hm.
  set (q := N / a) in *. set (m := N mod a) in *. split; [split|]; [nia|nia|intros Hm0; nia].
Qed.

(** The value of [float(n)]. *)
Lemma fval_int (n : Z) (m : positive) :
  Zpos m = n * 2 ^ (53 - Zdigits2 n) -> Zdigits2 n <= 53 -> fval m (Zdigits2 n - 53) = IZR n.
Proof.
  intros Hm Hd. unfold fval. rewrite Hm, mult_IZR, IZR_pow2 by lia.
  rewrite Rmult_assoc, <- pow2R_add. replace (53 - Zdigits2 n + (Zdigits2 n - 53)) with 0 by lia.
  simpl. ring.
Qed.

Lemma digits_le_53 (n : Z) : 0 < n < 2 ^ 53 -> Zdigits2 n <= 53.
Proof.
  intros Hn. pose proof (Zdigits2_bounds n ltac:(lia)) as [Hlo _].
  destruct (Z.le_gt_cases (Zdigits2 n) 53) as [|Hgt]; [lia|].
  pose proof (Z.pow_le_mono_r 2 53 (Zdigits2 n - 1) ltac:(lia) ltac:(lia)). lia.
Qed.

Lemma digits_ge_1 (n : Z) : 0 < n -> 1 <= Zdigits2 n.
Proof. intros Hn. rewrite Zdigits2_log2 by exact Hn. pose proof (Z.log2_nonneg n). lia. Qed.

(** [int((s / a) * b)] for positive [int]s with [a <= b] and [s * b <= 2^49]. *)
Lemma scaled_floor (s a b : Z) :
  0 < s -> 0 < a <= b -> s * b <= 2 ^ 49 ->
  exists r, match py_truediv s a with Exc e => Exc e | Ret q => py_int (py_mul_int q b) end = Ret r /\
    (s * b) / a - 1 <= r <= (s * b) / a /\ ((s * b) mod a <> 0 -> r = (s * b) / a).
Proof.
  intros Hs Hab HN.
  assert (Hb53 : b < 2 ^ 53) by (assert (2 ^ 49 < 2 ^ 53) by reflexivity; nia).
  assert (Hs53 : s < 2 ^ 53) by (assert (2 ^ 49 < 2 ^ 53) by reflexivity; nia).
  destruct (float_of_int_spec s ltac:(lia)) as (ms & Hfs & Hms & Hmsb).
  destruct (float_of_int_spec a ltac:(lia)) as (ma & Hfa & Hma & Hmab).
  destruct (float_of_int_spec b ltac:(lia)) as (mb & Hfb & Hmb & Hmbb).
  pose proof (digits_le_53 s ltac:(lia)). pose proof (digits_le_53 a ltac:(lia)).
  pose proof (digits_le_53 b ltac:(lia)). pose proof (digits_ge_1 s ltac:(lia)).
  pose proof (digits_ge_1 a ltac:(lia)). pose proof (digits_ge_1 b ltac:(lia)).
  unfold py_truediv. destruct (Z.eqb_spec a 0) as [|_]; [lia|].
  set (Qf := PrimFloat.div (float_of_int s) (float_of_int a)).
  destruct (div_value ms ma (Zdigits2 s - 53) (Zdigits2 a - 53) Hmsb Hmab ltac:(lia))
    as (mq & eq & u1 & Hdiv & Hmq & Heq & Hv1 & Hu1).
  assert (HQ : Prim2SF Qf = S754_finite false mq eq) by (unfold Qf; rewrite div_spec, Hfs, Hfa; exact Hdiv).
  destruct (mul_value mq mb eq (Zdigits2 b - 53) Hmq Hmbb ltac:(lia))
    as (mp & ep & u2 & Hmul & _ & _ & Hv2 & Hu2).
  assert (HP : Prim2SF (py_mul_int Qf b) = S754_finite false mp ep)
    by (unfold py_mul_int; rewrite mul_spec, HQ, Hfb; exact Hmul).
  destruct (py_int_floor _ mp ep HP) as (r & Hr & Hfl).
  exists r. split; [exact Hr|].
  rewrite (fval_int s ms Hms) in Hv1, Hu1 by assumption.
  rewrite (fval_int a ma Hma) in Hv1, Hu1 by assumption.
  rewrite (fval_int b mb Hmb) in Hv2, Hu2 by assumption.
  assert (Ha0 : (0 < IZR a)%R) by (apply IZR_lt; lia).
  assert (Hb0 : (0 < IZR b)%R) by (apply IZR_lt; lia).
  assert (Hx : (0 < IZR s / IZR a)%R) by (apply Rdiv_lt_0_compat; [apply IZR_lt; lia|exact Ha0]).
  pose proof (error_budget _ _ _ _ _ _ Hx Hb0 Hv1 Hu1 Hv2 Hu2) as Hbud.
  set (P := fval mp ep) in *.
  assert (HxbN : (IZR s / IZR a * IZR b * IZR a = IZR (s * b))%R) by (rewrite mult_IZR; field; lra).
  assert (HN49 : (IZR (s * b) <= IZR (2 ^ 49))%R) by (apply IZR_le; exact HN).
  change (IZR (2 ^ 49)) with 562949953421312%R in HN49. change (IZR (2 ^ 50)) with 1125899906842624%R in Hbud.
  assert (HPa : (IZR (s * b) - 1 < P * IZR a < IZR (s * b) + 1)%R).
  { destruct Hbud as [Hlo Hhi]. apply Rmult_le_compat_r with (r := IZR a) in Hlo, Hhi; [|lra|lra].
    rewrite Rmult_plus_distr_r in Hhi. rewrite Rmult_minus_distr_r in Hlo.
    unfold Rdiv in Hlo, Hhi. rewrite !(Rmult_assoc (IZR s / IZR a * IZR b)) in Hlo, Hhi.
    rewrite (Rmult_comm (/ 1125899906842624)%R (IZR a)) in Hlo, Hhi.
    rewrite <- !(Rmult_assoc (IZR s / IZR a * IZR b)) in Hlo, Hhi. rewrite HxbN in Hlo, Hhi.
    pose proof (IZR_lt 0 (s * b) ltac:(nia)). lra. }
  apply floor_from_bounds; [lia| |].
  - destruct Hfl as [Hfl _]. apply Rmult_le_compat_r with (r := IZR a) in Hfl; [|lra].
    assert (Hint : (IZR r * IZR a < IZR (s * b) + 1)%R) by lra.
    rewrite <- mult_IZR, <- plus_IZR in Hint. apply lt_IZR in Hint. lia.
  - destruct Hfl as [_ Hfl]. apply Rmult_lt_compat_r with (r := IZR a) in Hfl; [|lra].
    assert (Hint : (IZR (s * b) - 1 < (IZR r + 1) * IZR a)%R) by lra.
    rewrite <- plus_IZR, <- mult_IZR, <- minus_IZR in Hint. apply lt_IZR in Hint. lia.
Qed.

(** ** The new size *)

(** [C24] Error bound of [resize_image]'s float arithmetic: for positive
    sizes with [s * max(w, h) <= 2^49], the side the code scales
    ([int((s / w) * h)] when [w <= h], [int((s / h) * w)] otherwise) is the
    exact integer quotient [s * h / w] (resp. [s * w / h]) or one less, and
    it is exactly the quotient unless the division is exact.  So the
    one-pixel loss at 2140 x 2140 happens only when [w] divides [s * h], and the
    other side is always [s]. *)
Theorem resize_dims_bound (s w h : Z) :
  0 < s -> 0 < w -> 0 < h -> s * Z.max w h <= 2 ^ 49 ->
  (w <= h -> exists nh, resize_dims s w h = Ret (s, nh) /\
     exact_side s w h - 1 <= nh <= exact_side s w h /\ ((s * h) mod w <> 0 -> nh = exact_side s w h)) /\
  (h < w -> exists nw, resize_dims s w h = Ret (nw, s) /\
     exact_side s h w - 1 <= nw <= exact_side s h w /\ ((s * w) mod h <> 0 -> nw = exact_side s h w)).
Proof.
  unfold exact_side. intros Hs Hw Hh HN. split; intros Hc; unfold resize_dims.
  - replace (w <=? h) with true by (symmetry; apply Z.leb_le; exact Hc).
    destruct (scaled_floor s w h Hs ltac:(lia) ltac:(rewrite Z.max_r in HN; lia)) as (r & Hr & Hb).
    exists r. split; [|exact Hb]. destruct (py_truediv s w); [rewrite Hr; reflexivity|discriminate].
  - replace (w <=? h) with false by (symmetry; apply Z.leb_gt; exact Hc).
    destruct (scaled_floor s h w Hs ltac:(lia) ltac:(rewrite Z.max_l in HN; lia)) as (r & Hr & Hb).
    exists r. split; [|exact Hb]. destruct (py_truediv s h); [rewrite Hr; reflexivity|discriminate].
Qed.

(** A 1000 x 1333 image: [1080 * 1333 / 1000] is not an integer, so the
    height is exactly its integer part, 1439. *)
Lemma resize_dims_bound_witness :
  exists nh, resize_dims 1080 1000 1333 = Ret (1080, nh) /\
    (1080 * 1333) / 1000 - 1 <= nh <= (1080 * 1333) / 1000 /\
    ((1080 * 1333) mod 1000 <> 0 -> nh = (1080 * 1333) / 1000).
Proof.
  apply (proj1 (resize_dims_bound 1080 1000 1333 ltac:(lia) ltac:(lia) ltac:(lia) ltac:(vm_compute; discriminate))).
  lia.
Defined.
