(* ===== verification/Stream.v ===== *)
(** * The binary stream passed to [llm_caption]

    [llm_caption] receives [file_stream: BinaryIO] and calls
    [file_stream.tell()] (line 59), [file_stream.read()] (line 61) and
    [file_stream.seek(cur_pos)] (line 69, in [finally]).  The stream is the
    caller's object: its position after the call is observable, so it is
    part of the world.  A [stream] is its bytes, its position, whether it
    supports [tell]/[seek] (a pipe does not: [io.UnsupportedOperation], an
    [OSError]) and the exception its [read] raises, if any (an I/O error,
    or a [KeyboardInterrupt] delivered while blocked in it).

    As for [io.BytesIO] and regular files, [read()] returns the bytes from
    the position to the end and leaves the position at the end (a position
    already past the end stays where it is); [seek(p)] sets the position. *)

From S2P Require Import Prelude PyRuntime.

Record stream := Stream {
  st_data : list byte;
  st_pos : nat;
  st_seekable : bool;
  st_read_exc : option exn
}.

Definition set_pos (p : nat) (st : stream) : stream :=
  Stream (st_data st) p (st_seekable st) (st_read_exc st).

(** [file_stream.tell()]. *)
Definition tell : PyM stream nat :=
  fun st => if st_seekable st then (Ret (st_pos st), st) else (Exc OSError, st).

(** [file_stream.read()]. *)
Definition read : PyM stream (list byte) :=
  fun st =>
    match st_read_exc st with
    | Some e => (Exc e, st)
    | None => (Ret (skipn (st_pos st) (st_data st)),
               set_pos (Nat.max (st_pos st) (List.length (st_data st))) st)
    end.

(** [file_stream.seek(p)]. *)
Definition seek (p : nat) : PyM stream unit :=
  fun st => if st_seekable st then (Ret tt, set_pos p st) else (Exc OSError, st).

(** ** Lemmas *)

Lemma set_pos_same (st : stream) : set_pos (st_pos st) st = st.
Proof. destruct st; reflexivity. Qed.

(** Whatever [read] did, seeking back to the position [tell] gave restores
    the stream exactly. *)
Lemma seek_back (st st' : stream) (p : nat) :
  tell st = (Ret p, st) -> st_data st' = st_data st -> st_seekable st' = st_seekable st ->
  st_read_exc st' = st_read_exc st -> seek p st' = (Ret tt, st).
Proof.
  unfold tell, seek, set_pos. destruct st as [d q sk re], st' as [d' q' sk' re']; simpl.
  intros Ht -> -> ->. destruct sk; [|discriminate]. injection Ht as <-. reflexivity.
Qed.

Lemma read_keeps (st : stream) :
  st_data (snd (read st)) = st_data st /\ st_seekable (snd (read st)) = st_seekable st /\
  st_read_exc (snd (read st)) = st_read_exc st.
Proof. unfold read. destruct (st_read_exc st) eqn:E; simpl; rewrite ?E; auto. Qed.
