(* ===== verification/Client.v ===== *)
(** * The chat client the caller passes to [llm_caption]

    [client] is the caller's object; the code only calls
    [client.chat.completions.create(model=model, messages=messages,
    temperature=0.6)] (line 91) and reads
    [response.choices[0].message.content] (line 92).  The client is an
    interface, [ChatClient]: given the calls made so far (each request with
    what it produced) and a new request, it returns a response or raises.
    Letting the answer depend on the history covers a remote model that
    answers the same request differently on different calls.

    The request is the nested dict of lines 75-88: one [user] message whose
    content is a text part with the prompt and an [image_url] part with the
    data URI. *)

From Stdlib Require Import Floats.
From S2P Require Import Prelude PyRuntime PyStr.

(** [{"type": "text", "text": ..}] and [{"type": "image_url", "image_url": {"url": ..}}]. *)
Inductive content_part : Type :=
| TextPart (text : pystr)
| ImageUrlPart (url : pystr).

(** [{"role": .., "content": [..]}]. *)
Record message := Message { role : pystr; content : list content_part }.

(** The keyword arguments of [create]. *)
Record request := Request {
  req_model : pystr;
  req_messages : list message;
  req_temperature : float
}.

(** One element of [response.choices]; [message.content] may be [None]
    (the API returns no text, for instance for a refusal or a tool call). *)
Record choice := Choice { message_content : option pystr }.

(** [response.choices]. *)
Definition response : Type := list choice.

(** The calls made so far, oldest first. *)
Definition call_log : Type := list (request * outcome response).

Class ChatClient := {
  chat_completions_create : call_log -> request -> outcome response
}.

(** Lines 75-91: the request [llm_caption] sends. *)
Definition caption_request (model prompt data_uri : pystr) : request :=
  Request model [Message (lit "user") [TextPart prompt; ImageUrlPart data_uri]] 0.6%float.

(** [response.choices[0].message.content] (line 92); an empty [choices]
    raises [IndexError]. *)
Definition first_content (r : response) : outcome (option pystr) :=
  match r with
  | ch :: _ => Ret (message_content ch)
  | [] => Exc IndexError
  end.
