(* ===== verification/World.v ===== *)
(** * The world [llm_caption] runs in

    What a call of [llm_caption] reads and changes, as one record: the
    caller's stream, the module-level dict [MEMCACHE] (line 8 of
    [_llm_caption.py]) as a [gmap] from hexdigest strings to [None] or a
    caption, standard output (where [encode_image_as_base64_data_uri]
    prints), and the log of the calls made to the client.  The file also
    holds the two inputs the code reads from outside the module: the
    [StreamInfo] record and [mimetypes.guess_type], and the countable
    instance for bytes that lets a [gmap] be keyed by byte strings. *)

From stdpp Require Import gmap.
From Stdlib Require Import Floats.
From S2P Require Import Prelude PyRuntime PyStr Base64 Md5 PyFloat Image Stream Client.

Local Open Scope Z_scope.
Local Open Scope py_scope.

Record world := World {
  w_stream : stream;
  w_cache : gmap pystr (option pystr);  (* MEMCACHE: hexdigest to message.content *)
  w_stdout : list pystr;
  w_calls : call_log
}.

Definition with_stream (st : stream) (w : world) : world :=
  World st (w_cache w) (w_stdout w) (w_calls w).
Definition with_cache (c : gmap pystr (option pystr)) (w : world) : world :=
  World (w_stream w) c (w_stdout w) (w_calls w).
Definition with_calls (l : call_log) (w : world) : world :=
  World (w_stream w) (w_cache w) (w_stdout w) l.

#[export] Instance WorldStdout : HasStdout world := {
  stdout := w_stdout;
  with_stdout l w := World (w_stream w) (w_cache w) l (w_calls w);
  stdout_with l w := eq_refl;
  with_stdout_self w := match w with World _ _ _ _ => eq_refl end;
  with_stdout_twice l l' w := eq_refl
}.

(** [stream_info] (from [_stream_info.py]): only the two fields the code reads. *)
Record stream_info := StreamInfo { si_mimetype : option pystr; si_extension : option pystr }.

(** [mimetypes.guess_type(url)[0]]. *)
Class MimeTypes := { guess_type : pystr -> option pystr }.

(** [file_stream.tell()], [.read()], [.seek(p)] on the world's stream. *)
Definition on_stream {A} (m : PyM stream A) : PyM world A := focus w_stream with_stream m.

(** The bytes [read()] returns, and the stream after it. *)
Definition data_at (st : stream) : list byte := skipn (st_pos st) (st_data st).
Definition after_read (st : stream) : stream :=
  set_pos (Nat.max (st_pos st) (List.length (st_data st))) st.

(** Bytes as keys of a [gmap]: the abstract, content-keyed view of the
    cache is a map from byte strings. *)
#[export] Instance byte_eq_decision : EqDecision byte := Byte.byte_eq_dec.
#[export] Instance byte_countable : Countable byte.
Proof. apply (inj_countable' Byte.to_N (fun n => match Byte.of_N n with Some b => b | None => Byte.x00 end)).
  intros b. rewrite Byte.of_to_N. reflexivity. Defined.

(** Computes the setters and projections of concrete worlds. *)
Ltac world_simpl := unfold with_cache, with_stream, with_calls in *; cbn [w_stream w_cache w_stdout w_calls] in *.

(** ** Lemmas *)

Lemma with_cache_same (w : world) : with_cache (w_cache w) w = w.
Proof. destruct w; reflexivity. Qed.

Lemma with_stream_same (w : world) : with_stream (w_stream w) w = w.
Proof. destruct w; reflexivity. Qed.

Section Encode.
Context `{PilImage}.

(** In the world, [encode_image_as_base64_data_uri] leaves the stream,
    the cache and the call log alone. *)
Lemma encode_world (d : list byte) (m : Z) (w : world) :
  let w' := snd (encode_image_as_base64_data_uri d m w) in
  w_stream w' = w_stream w /\ w_cache w' = w_cache w /\ w_calls w' = w_calls w.
Proof. destruct (encode_only_prints d m w) as [l ->]. repeat split. Qed.

(** An image that was encoded was opened by PIL. *)
Lemma encode_ok_opens (d : list byte) (m : Z) (w w' : world) (uri : pystr) :
  encode_image_as_base64_data_uri d m w = (Ret uri, w') -> exists img, pil_open d = Ret img.
Proof.
  destruct (pil_open d) as [img|e] eqn:Ho; [eauto|].
  rewrite (encode_open_fails d m w e Ho). discriminate.
Qed.

End Encode.
