(* ===== verification/LlmCaption.v ===== *)
(** * [llm_caption] (lines 47-95 of [_llm_caption.py])

    [llm_caption] runs in the [world] of [World.v] and is written in
    [PyM world] with the [try/except Exception/finally] of lines 60-69; the
    try block is [read_and_lookup] (lines 61-65), the code after the [try]
    is [after_try] (lines 71-95).  [mimetypes.guess_type] is an interface,
    [MimeTypes]; the content type it feeds (lines 52-56) is computed as the
    code computes it and, as in the code, never used.  The theorems give
    the behaviour of one call on every path: cache hit, cache miss, the
    errors that are swallowed and those that propagate, the request sent,
    and what the call leaves in the world. *)

From stdpp Require Import gmap.
From Stdlib Require Import Floats.
From S2P Require Import Prelude PyRuntime PyStr Base64 Md5 PyFloat Image Stream Client World.

Local Open Scope Z_scope.
Local Open Scope py_scope.

(** Python truthiness of an optional [str]: [None] and [""] are false. *)
Definition truthy (o : option pystr) : bool :=
  match o with Some (_ :: _) => true | _ => false end.

Definition default_prompt : pystr :=
  lit "Write a detailed caption for this image. Use the main language identified in the picture.".

(** Lines 48-49. *)
Definition choose_prompt (prompt : option pystr) : pystr :=
  match prompt with
  | None => default_prompt
  | Some p => if pystr_eqb (strip p) [] then default_prompt else p
  end.

(** Lines 52-56. *)
Definition content_type_of `{MimeTypes} (si : stream_info) : pystr :=
  let ct := si_mimetype si in
  let ct := if truthy ct then ct
            else guess_type (lit "_dummy" ++ match si_extension si with
                                              | Some e => e | None => [] end) in
  if truthy ct then match ct with Some c => c | None => [] end
  else lit "application/octet-stream".

Section WithEnv.
Context `{PilImage} `{ChatClient} `{MimeTypes}.

(** [client.chat.completions.create(...)] (line 91): the call is logged
    with what it produced. *)
Definition call_client (req : request) : PyM world response :=
  fun w => let r := chat_completions_create (w_calls w) req in
           (r, with_calls (w_calls w ++ [(req, r)]) w).

(** Lines 61-65, the try block: [inl v] is an early [return v], [inr]
    carries the cache key and the data URI to the code after the
    [try]. *)
Definition read_and_lookup : PyM world (option pystr + (pystr * pystr)) :=
  let* file_data := on_stream read in
  let cache_key := md5_hexdigest file_data in
  let* w := get in
  match w_cache w !! cache_key with
  | Some cached => ret (inl cached)
  | None =>
    let* data_uri := encode_image_as_base64_data_uri file_data 1080 in
    ret (inr (cache_key, data_uri))
  end.

(** Lines 47-95. *)
Definition llm_caption (si : stream_info) (model : pystr) (prompt : option pystr)
    : PyM world (option pystr) :=
  let prompt := choose_prompt prompt in
  let _content_type := content_type_of si in
  let* cur_pos := on_stream tell in
  let* r := try_except_finally read_and_lookup (fun _ => ret (inl None))
              (on_stream (seek cur_pos)) in
  match r with
  | inl v => ret v
  | inr (cache_key, data_uri) =>
    let* resp := call_client (caption_request model prompt data_uri) in
    let* caption := lift (first_content resp) in
    let* _ := modify (fun w => with_cache (<[cache_key := caption]> (w_cache w)) w) in
    ret caption
  end.
(** Lines 51-69, the part of [llm_caption] before the client call: the
    content type, [tell()], and the [try/except/finally]; its outcome is
    what [after_try] continues with.  [llm_caption_phases] proves
    [llm_caption] is this followed by [after_try]. *)
Definition before_client (si : stream_info) : PyM world (option pystr + (pystr * pystr)) :=
  let _content_type := content_type_of si in
  let* cur_pos := on_stream tell in
  try_except_finally read_and_lookup (fun _ => ret (inl None)) (on_stream (seek cur_pos)).

(** What [encode_image_as_base64_data_uri] contributes to the try block:
    its outcome, caught as the [except] clause does. *)
Definition caught {A} (o : outcome A) (k : A -> option pystr + (pystr * pystr))
    : outcome (option pystr + (pystr * pystr)) :=
  match o with
  | Ret a => Ret (k a)
  | Exc e => if is_Exception e then Ret (inl None) else Exc e
  end.

(** Lines 71-95, after the [try]: one call to the client, then the
    caption is cached and returned. *)
Definition after_try (model prompt : pystr) (r : outcome (option pystr + (pystr * pystr)))
    (w1 : world) : outcome (option pystr) * world :=
  match r with
  | Ret (inl v) => (Ret v, w1)
  | Exc e => (Exc e, w1)
  | Ret (inr (k, uri)) =>
    let req := caption_request model prompt uri in
    let resp := chat_completions_create (w_calls w1) req in
    let w2 := with_calls (w_calls w1 ++ [(req, resp)]) w1 in
    match resp with
    | Exc e => (Exc e, w2)
    | Ret choices =>
      match first_content choices with
      | Exc e => (Exc e, w2)
      | Ret cap => (Ret cap, with_cache (<[k := cap]> (w_cache w2)) w2)
      end
    end
  end.

End WithEnv.

(** ** Test instances *)

(** A client that answers every request with one choice, the caption
    ["a cat"]. *)
#[export] Instance CatClient : ChatClient := {
  chat_completions_create _ _ := Ret [Choice (Some (lit "a cat"))]
}.

#[export] Instance NoMime : MimeTypes := { guess_type _ := None }.

(** A JPEG (in [ToyPil]'s format) of the given size, with one byte of
    pixel data. *)
Definition toy_jpeg (w h : Z) : list byte := toy_header (w, h) ++ [Byte.x07].

Definition fresh_world (data : list byte) : world :=
  World (Stream data 0 true None) ∅ [] [].

(** A client whose first choice has no text. *)
#[export] Instance NoTextClient : ChatClient := {
  chat_completions_create _ _ := Ret [Choice None]
}.

(** A client that raises. *)
#[export] Instance FailingClient : ChatClient := {
  chat_completions_create _ _ := Exc ClientError
}.

Definition no_info : stream_info := StreamInfo None None.

(** The data URI [ToyPil] passes a 100 x 50 JPEG through as. *)
Definition toy_uri : pystr := data_uri_prefix ++ map bval (b64encode (toy_jpeg 100 50)).

(** A world whose cache already captions the 100 x 50 test JPEG its
    stream holds. *)
Definition hit_world : world :=
  World (Stream (toy_jpeg 100 50) 0 true None)
        {[ md5_hexdigest (toy_jpeg 100 50) := Some (lit "a cat") ]} [] [].

(** A first call on a fresh world, with [CatClient]. *)
Definition cat_run : outcome (option pystr) * world :=
  @llm_caption ToyPil CatClient NoMime no_info (lit "gpt-4o") None (fresh_world (toy_jpeg 100 50)).

(** A stream whose [read()] is interrupted. *)
Definition interrupted_world : world :=
  World (Stream (toy_jpeg 100 50) 0 true (Some KeyboardInterrupt)) ∅ [] [].

(** A world whose cache holds a caption for [collision_a] and whose stream
    holds [collision_b]. *)
Definition collision_world : world :=
  World (Stream collision_b 0 true None) {[ md5_hexdigest collision_a := Some (lit "a cat") ]} [] [].

(** ** The try block, branch by branch *)

Section Behaviour.
Context `{PilImage} `{ChatClient} `{MimeTypes}.

(** Lines 59-69 on a seekable stream: the outcome of the
    [try/except/finally] and the world after it.  In every branch the
    stream is the one the call started with. *)
Lemma try_block (w : world) :
  st_seekable (w_stream w) = true ->
  try_except_finally read_and_lookup (fun _ => ret (inl None))
    (on_stream (seek (st_pos (w_stream w)))) w =
  match st_read_exc (w_stream w) with
  | Some e => (caught (Exc e) inr, w)
  | None =>
    match w_cache w !! md5_hexdigest (data_at (w_stream w)) with
    | Some v => (Ret (inl v), w)
    | None =>
      let '(o, w') := encode_image_as_base64_data_uri (data_at (w_stream w)) 1080
                        (with_stream (after_read (w_stream w)) w) in
      (caught o (fun uri => inr (md5_hexdigest (data_at (w_stream w)), uri)),
       with_stream (w_stream w) w')
    end
  end.
Proof.
  destruct w as [[d q sk re] c out calls]; simpl. intros ->.
  unfold try_except_finally, read_and_lookup, bind, on_stream, focus, get, ret, read, seek, data_at, after_read; simpl.
  destruct re as [e|]; simpl.
  - destruct (is_Exception e); reflexivity.
  - destruct (c !! md5_hexdigest (skipn q d)) as [v|]; [reflexivity|].
    destruct (encode_only_prints (skipn q d) 1080
                (with_stream (set_pos (Nat.max q (List.length d)) (Stream d q true None))
                   {| w_stream := Stream d q true None; w_cache := c; w_stdout := out; w_calls := calls |}))
      as [l Hl].
    destruct (encode_image_as_base64_data_uri _ _ _) as [o w'] eqn:E. simpl in Hl. subst w'.
    destruct o as [uri|e]; simpl; [reflexivity|]. destruct (is_Exception e); reflexivity.
Qed.

Lemma llm_caption_run (si : stream_info) (model : pystr) (prompt : option pystr) (w : world) :
  llm_caption si model prompt w =
  if st_seekable (w_stream w) then
    let '(r, w1) := try_except_finally read_and_lookup (fun _ => ret (inl None))
                      (on_stream (seek (st_pos (w_stream w)))) w in
    after_try model (choose_prompt prompt) r w1
  else (Exc OSError, w).
Proof.
  destruct w as [st c out calls]. unfold llm_caption, bind at 1, on_stream at 1, focus at 1, tell.
  destruct (st_seekable st) eqn:Hs; cbn [w_stream]; rewrite Hs; [|reflexivity].
  replace (with_stream st _) with (World st c out calls) by reflexivity.
  unfold bind at 1.
  destruct (try_except_finally _ _ _ _) as [[[v|[k uri]]|e] w1]; reflexivity.
Qed.

Lemma before_client_run (si : stream_info) (w : world) :
  before_client si w =
  if st_seekable (w_stream w) then
    try_except_finally read_and_lookup (fun _ => ret (inl None))
      (on_stream (seek (st_pos (w_stream w)))) w
  else (Exc OSError, w).
Proof.
  destruct w as [st c out calls]. unfold before_client, bind at 1, on_stream at 1, focus at 1, tell.
  destruct (st_seekable st) eqn:Hs; cbn [w_stream]; rewrite Hs; reflexivity.
Qed.

(** [llm_caption] is [before_client] and then [after_try]. *)
Lemma llm_caption_phases (si : stream_info) (model : pystr) (prompt : option pystr) (w : world) :
  llm_caption si model prompt w =
  let '(r, w1) := before_client si w in after_try model (choose_prompt prompt) r w1.
Proof.
  rewrite llm_caption_run, before_client_run. destruct (st_seekable (w_stream w)); [|reflexivity].
  destruct (try_except_finally _ _ _ w); reflexivity.
Qed.

(** The part before the client call changes only standard output, and
    when it asks for a client call it names the hexdigest of the bytes
    read, absent from the cache, of bytes PIL opened, with a data URI. *)
Lemma before_client_spec (si : stream_info) (w : world) :
  let '(r, w1) := before_client si w in
  w_stream w1 = w_stream w /\ w_cache w1 = w_cache w /\ w_calls w1 = w_calls w /\
  (forall k uri, r = Ret (inr (k, uri)) ->
     k = md5_hexdigest (data_at (w_stream w)) /\ w_cache w !! k = None /\
     (exists img, pil_open (data_at (w_stream w)) = Ret img) /\
     exists bs, uri = data_uri_prefix ++ map bval (b64encode bs)).
Proof.
  rewrite before_client_run. destruct (st_seekable (w_stream w)) eqn:Hs.
  2: { repeat split; intros; discriminate. }
  rewrite try_block by exact Hs.
  destruct (st_read_exc (w_stream w)) as [e|].
  { repeat split; intros; unfold caught in *; destruct (is_Exception e); discriminate. }
  destruct (w_cache w !! _) as [v|] eqn:Hc.
  { repeat split; intros; discriminate. }
  destruct (encode_world (data_at (w_stream w)) 1080 (with_stream (after_read (w_stream w)) w))
    as (_ & Hwc & Hwl).
  destruct (encode_image_as_base64_data_uri _ _ _) as [o w'] eqn:E.
  simpl in *. do 3 (split; [auto|]).
  intros k uri. destruct o as [uri'|e]; simpl.
  - intros [= <- <-]. split; [reflexivity|]. split; [exact Hc|].
    split; [eapply encode_ok_opens|eapply encode_data_uri_shape]; exact E.
  - destruct (is_Exception e); discriminate.
Qed.

Lemma before_client_hit (si : stream_info) (w : world) (v : option pystr) :
  st_seekable (w_stream w) = true -> st_read_exc (w_stream w) = None ->
  w_cache w !! md5_hexdigest (data_at (w_stream w)) = Some v ->
  before_client si w = (Ret (inl v), w).
Proof. intros Hs Hr Hc. rewrite before_client_run, Hs, try_block, Hr, Hc by exact Hs. reflexivity. Qed.

Lemma before_client_miss (si : stream_info) (w : world) (uri : pystr) :
  st_seekable (w_stream w) = true -> st_read_exc (w_stream w) = None ->
  w_cache w !! md5_hexdigest (data_at (w_stream w)) = None ->
  fst (encode_image_as_base64_data_uri (data_at (w_stream w)) 1080 w) = Ret uri ->
  exists w1, before_client si w = (Ret (inr (md5_hexdigest (data_at (w_stream w)), uri)), w1) /\
    w_stream w1 = w_stream w /\ w_cache w1 = w_cache w /\ w_calls w1 = w_calls w.
Proof.
  intros Hs Hr Hc He. rewrite before_client_run, Hs, try_block, Hr, Hc by exact Hs.
  rewrite (encode_outcome_indep _ _ w (with_stream (after_read (w_stream w)) w)) in He.
  destruct (encode_world (data_at (w_stream w)) 1080 (with_stream (after_read (w_stream w)) w))
    as (_ & Hwc & Hwl).
  destruct (encode_image_as_base64_data_uri _ _ _) as [o w']. simpl in He, Hwc, Hwl. subst o.
  eexists. split; [reflexivity|]. simpl. auto.
Qed.

(** The stream after [after_try] is the one it was given. *)
Lemma after_try_stream model prompt r w1 : w_stream (snd (after_try model prompt r w1)) = w_stream w1.
Proof.
  unfold after_try. destruct r as [[v|[k uri]]|e]; try reflexivity.
  destruct (chat_completions_create _ _) as [ch|e]; [|reflexivity].
  destruct (first_content ch); reflexivity.
Qed.

Lemma llm_caption_hit (si : stream_info) (model : pystr) (prompt : option pystr)
    (w : world) (v : option pystr) :
  st_seekable (w_stream w) = true -> st_read_exc (w_stream w) = None ->
  w_cache w !! md5_hexdigest (data_at (w_stream w)) = Some v ->
  llm_caption si model prompt w = (Ret v, w).
Proof.
  intros Hs Hr Hc. rewrite llm_caption_phases, (before_client_hit si w v Hs Hr Hc). reflexivity.
Qed.

(** [C1] Cache hit: when [MEMCACHE] already holds the hexdigest of the
    bytes from the stream's position to its end, [llm_caption] returns
    the cached value and changes nothing: no client call, no new cache
    entry, no output, and the stream is back where it was. *)
Theorem llm_caption_cache_hit (si : stream_info) (model : pystr) (prompt : option pystr)
    (w : world) (v : option pystr) :
  st_seekable (w_stream w) = true -> st_read_exc (w_stream w) = None ->
  w_cache w !! md5_hexdigest (data_at (w_stream w)) = Some v ->
  llm_caption si model prompt w = (Ret v, w).
Proof. apply llm_caption_hit. Qed.

(** [C3] The [finally] clause does its job on every path: whatever
    happens (a cache hit, a failure to read or to encode that is
    swallowed, an exception from the client or an interrupt that
    propagates, a stream that cannot [tell]), the caller's stream ends
    exactly as it started, position included. *)
Theorem llm_caption_restores_stream (si : stream_info) (model : pystr) (prompt : option pystr)
    (w : world) :
  w_stream (snd (llm_caption si model prompt w)) = w_stream w.
Proof.
  rewrite llm_caption_run. destruct (st_seekable (w_stream w)) eqn:Hs; [|reflexivity].
  rewrite try_block by exact Hs.
  destruct (st_read_exc (w_stream w)) as [e|]; [apply after_try_stream|].
  destruct (w_cache w !! _); [apply after_try_stream|].
  destruct (encode_image_as_base64_data_uri _ _ _) as [o w']. rewrite after_try_stream. reflexivity.
Qed.

(** [C2] A call that returned makes the next call on the same stream free
    and equal: the second call returns the same value, calls the client
    no more and adds nothing to the cache.  This holds even when the
    second call passes another model or another prompt, because the
    cache key is the hash of the bytes alone. *)
Theorem llm_caption_repeat (si si' : stream_info) (model model' : pystr)
    (prompt prompt' : option pystr) (w w1 : world) (v : option pystr) :
  llm_caption si model prompt w = (Ret v, w1) ->
  fst (llm_caption si' model' prompt' w1) = Ret v /\
  w_calls (snd (llm_caption si' model' prompt' w1)) = w_calls w1 /\
  w_cache (snd (llm_caption si' model' prompt' w1)) = w_cache w1.
Proof.
  rewrite llm_caption_run. destruct (st_seekable (w_stream w)) eqn:Hs; [|discriminate].
  rewrite try_block by exact Hs.
  destruct (st_read_exc (w_stream w)) as [e|] eqn:Hr.
  - (* read raised *)
    simpl. destruct (is_Exception e) eqn:He; [|discriminate]. intros [= <- <-].
    rewrite llm_caption_run, Hs, try_block, Hr by exact Hs. simpl. rewrite He. auto.
  - destruct (w_cache w !! _) as [v0|] eqn:Hc.
    + intros [= <- <-]. rewrite llm_caption_hit with (v := v0) by assumption. auto.
    + destruct (encode_world (data_at (w_stream w)) 1080 (with_stream (after_read (w_stream w)) w))
        as (_ & Hwc & Hwl).
      destruct (encode_image_as_base64_data_uri _ _ _) as [o w'] eqn:E. simpl in Hwc, Hwl.
      destruct o as [uri|e]; simpl.
      * (* the client was called *)
        destruct (chat_completions_create _ _) as [ch|e]; [|discriminate].
        destruct (first_content ch) as [cap|e]; [|discriminate]. intros [= <- <-].
        rewrite llm_caption_hit with (v := cap); simpl; auto.
        rewrite lookup_insert_eq. reflexivity.
      * (* encoding failed *)
        destruct (is_Exception e) eqn:He; [|discriminate]. intros [= <- <-].
        remember (with_stream (w_stream w) w') as w1 eqn:Ew1.
        assert (Hst : w_stream w1 = w_stream w) by (subst; reflexivity).
        assert (Hc1 : w_cache w1 = w_cache w) by (subst; exact Hwc).
        rewrite llm_caption_run, Hst, Hs, <- Hst, try_block by (rewrite Hst; exact Hs).
        rewrite Hst, Hr, Hc1, Hc.
        pose proof (encode_outcome_indep (data_at (w_stream w)) 1080
                      (with_stream (after_read (w_stream w)) w)
                      (with_stream (after_read (w_stream w)) w1)) as Hi.
        rewrite E in Hi.
        destruct (encode_world (data_at (w_stream w)) 1080 (with_stream (after_read (w_stream w)) w1))
          as (_ & Hc2 & Hl2).
        destruct (encode_image_as_base64_data_uri _ _ (with_stream _ w1)) as [o2 w2].
        simpl in Hi, Hc2, Hl2. subst o2. simpl. rewrite He. simpl. rewrite Hc2, Hl2, Hc1. auto.
Qed.

(** Every run is [after_try] on a world that differs from the start only
    in its standard output, with an outcome of the try block that, when
    it asks for a client call, names a key absent from the cache. *)
Lemma llm_caption_decomp (si : stream_info) (model : pystr) (prompt : option pystr) (w : world) :
  exists r w1, llm_caption si model prompt w = after_try model (choose_prompt prompt) r w1 /\
    w_stream w1 = w_stream w /\ w_cache w1 = w_cache w /\ w_calls w1 = w_calls w /\
    (forall k uri, r = Ret (inr (k, uri)) ->
       k = md5_hexdigest (data_at (w_stream w)) /\ w_cache w !! k = None /\
       (exists img, pil_open (data_at (w_stream w)) = Ret img) /\
       exists bs, uri = data_uri_prefix ++ map bval (b64encode bs)).
Proof.
  pose proof (before_client_spec si w) as Hsp. rewrite llm_caption_phases.
  destruct (before_client si w) as [r w1]. exists r, w1. split; [reflexivity|exact Hsp].
Qed.

Lemma after_try_calls model prompt r w1 :
  w_calls (snd (after_try model prompt r w1)) = w_calls w1 \/
  exists x, w_calls (snd (after_try model prompt r w1)) = w_calls w1 ++ [x].
Proof.
  unfold after_try. destruct r as [[v|[k uri]]|e]; auto.
  right. destruct (chat_completions_create _ _) as [ch|e]; [|eauto].
  destruct (first_content ch); eauto.
Qed.

Lemma after_try_cache model prompt r w1 (k : pystr) (v : option pystr) :
  (forall k' uri, r = Ret (inr (k', uri)) -> w_cache w1 !! k' = None) ->
  w_cache w1 !! k = Some v -> w_cache (snd (after_try model prompt r w1)) !! k = Some v.
Proof.
  intros Hr Hk. unfold after_try. destruct r as [[v'|[k' uri]]|e]; auto.
  specialize (Hr k' uri eq_refl).
  destruct (chat_completions_create _ _) as [ch|e]; [|exact Hk].
  destruct (first_content ch); [|exact Hk]. simpl.
  rewrite lookup_insert_ne; [exact Hk|congruence].
Qed.

(** [C6] One call of [llm_caption] calls the client at most once: the
    log after it is the log before it, or that log and one more call. *)
Theorem llm_caption_at_most_one_call (si : stream_info) (model : pystr) (prompt : option pystr)
    (w : world) :
  w_calls (snd (llm_caption si model prompt w)) = w_calls w \/
  exists x, w_calls (snd (llm_caption si model prompt w)) = w_calls w ++ [x].
Proof.
  destruct (llm_caption_decomp si model prompt w) as (r & w1 & -> & _ & _ & Hl & _).
  rewrite <- Hl. apply after_try_calls.
Qed.

(** [C7] [MEMCACHE] only grows: an entry present before a call is present,
    with the same value, after it, whatever the call did. *)
Theorem llm_caption_cache_monotone (si : stream_info) (model : pystr) (prompt : option pystr)
    (w : world) (k : pystr) (v : option pystr) :
  w_cache w !! k = Some v -> w_cache (snd (llm_caption si model prompt w)) !! k = Some v.
Proof.
  intros Hk. destruct (llm_caption_decomp si model prompt w) as (r & w1 & -> & _ & Hc & _ & Hr).
  apply after_try_cache; [|rewrite Hc; exact Hk].
  intros k' uri Heq. rewrite Hc. apply (proj1 (proj2 (Hr k' uri Heq))).
Qed.

(** The cache only matters through the lookup: two runs on worlds that
    differ only in their caches, both missing the key of the bytes read
    (when the code gets as far as the lookup), have the same outcome and
    end in worlds that differ only in their caches, each either unchanged
    or extended with the same entry. *)
Lemma llm_caption_frame (si : stream_info) (model : pystr) (prompt : option pystr) (w : world)
    (c : gmap pystr (option pystr)) :
  (st_seekable (w_stream w) = true -> st_read_exc (w_stream w) = None ->
   w_cache w !! md5_hexdigest (data_at (w_stream w)) = None) ->
  (st_seekable (w_stream w) = true -> st_read_exc (w_stream w) = None ->
   c !! md5_hexdigest (data_at (w_stream w)) = None) ->
  let w1 := snd (llm_caption si model prompt w) in
  let w2 := snd (llm_caption si model prompt (with_cache c w)) in
  fst (llm_caption si model prompt (with_cache c w)) = fst (llm_caption si model prompt w) /\
  w2 = with_cache (w_cache w2) w1 /\
  ((w_cache w1 = w_cache w /\ w_cache w2 = c) \/
   exists v, w_cache w1 = <[md5_hexdigest (data_at (w_stream w)) := v]> (w_cache w) /\
             w_cache w2 = <[md5_hexdigest (data_at (w_stream w)) := v]> c).
Proof.
  intros Hn Hc. cbv zeta. rewrite !llm_caption_run.
  change (st_seekable (w_stream (with_cache c w))) with (st_seekable (w_stream w)).
  destruct (st_seekable (w_stream w)) eqn:Hs; [|destruct w; world_simpl; auto].
  rewrite (try_block w), (try_block (with_cache c w)) by exact Hs.
  change (w_stream (with_cache c w)) with (w_stream w). change (w_cache (with_cache c w)) with c.
  destruct (st_read_exc (w_stream w)) as [e|] eqn:Hr;
    [simpl; destruct (is_Exception e); destruct w; world_simpl; auto|].
  rewrite (Hn eq_refl eq_refl), (Hc eq_refl eq_refl).
  destruct (encode_frame (data_at (w_stream w)) 1080 (with_stream (after_read (w_stream w)) w)) as [out Hf].
  rewrite (Hf (with_stream _ (with_cache c w))), (Hf (with_stream _ w)).
  destruct (fst (encode_image_as_base64_data_uri _ _ _)) as [uri|e];
    destruct w as [st c0 out0 calls]; world_simpl; simpl; [|destruct (is_Exception e); simpl; auto].
  destruct (chat_completions_create _ _) as [chs|e]; [destruct (first_content chs) as [v|e]|];
    simpl; world_simpl; eauto 6.
Qed.

(** The miss path up to the client: on a seekable, readable stream whose
    data is not cached and encodes to [uri], the run is [after_try] on
    the request for [uri], in a world that differs only in its output. *)
Lemma llm_caption_miss (si : stream_info) (model : pystr) (prompt : option pystr) (w : world)
    (uri : pystr) :
  st_seekable (w_stream w) = true -> st_read_exc (w_stream w) = None ->
  w_cache w !! md5_hexdigest (data_at (w_stream w)) = None ->
  fst (encode_image_as_base64_data_uri (data_at (w_stream w)) 1080 w) = Ret uri ->
  exists w1, llm_caption si model prompt w =
    after_try model (choose_prompt prompt) (Ret (inr (md5_hexdigest (data_at (w_stream w)), uri))) w1 /\
    w_stream w1 = w_stream w /\ w_cache w1 = w_cache w /\ w_calls w1 = w_calls w.
Proof.
  intros Hs Hr Hc He. destruct (before_client_miss si w uri Hs Hr Hc He) as (w1 & E & Hw).
  exists w1. rewrite llm_caption_phases, E. auto.
Qed.

(** When PIL cannot open the bytes read (with an [Exception]) and they are
    not cached, the call returns [None] and leaves the world as it was. *)
Lemma llm_caption_open_fails (si : stream_info) (model : pystr) (prompt : option pystr)
    (w : world) (e : exn) :
  st_seekable (w_stream w) = true -> st_read_exc (w_stream w) = None ->
  w_cache w !! md5_hexdigest (data_at (w_stream w)) = None ->
  pil_open (data_at (w_stream w)) = Exc e -> is_Exception e = true ->
  llm_caption si model prompt w = (Ret None, w).
Proof.
  intros Hs Hr Hc Ho He. rewrite llm_caption_run, Hs, try_block, Hr, Hc by exact Hs.
  rewrite (encode_open_fails _ _ _ e Ho). simpl. rewrite He.
  destruct w as [[] c out calls]; reflexivity.
Qed.

(** [C10] Errors while reading or preparing the image are swallowed, but
    only [Exception]s: when [read()] raises [e], [llm_caption] returns
    [None] if [e] is an [Exception] and re-raises it otherwise (a
    [KeyboardInterrupt]); in both cases the world is left as it was. *)
Theorem llm_caption_read_error (si : stream_info) (model : pystr) (prompt : option pystr)
    (w : world) (e : exn) :
  st_seekable (w_stream w) = true -> st_read_exc (w_stream w) = Some e ->
  llm_caption si model prompt w = (if is_Exception e then Ret None else Exc e, w).
Proof.
  intros Hs Hr. rewrite llm_caption_run, Hs, try_block, Hr by exact Hs.
  simpl. destruct (is_Exception e); reflexivity.
Qed.

(** [C11] When PIL cannot open the data (an [Exception]), [llm_caption]
    returns [None] and changes nothing: the failure is indistinguishable,
    for the caller, from an image the model has no caption for. *)
Theorem llm_caption_open_error (si : stream_info) (model : pystr) (prompt : option pystr)
    (w : world) (e : exn) :
  st_seekable (w_stream w) = true -> st_read_exc (w_stream w) = None ->
  w_cache w !! md5_hexdigest (data_at (w_stream w)) = None ->
  pil_open (data_at (w_stream w)) = Exc e -> is_Exception e = true ->
  llm_caption si model prompt w = (Ret None, w).
Proof. exact (llm_caption_open_fails si model prompt w e). Qed.

(** [C30] PNG images are never captioned.  With Pillow's [Image.open] and
    the formats of line 14, where no plugin is registered under ["JPG"],
    every input the JPEG plugin does not accept (a PNG, whose first byte
    is [0x89], among them) makes [Image.open] raise [KeyError] at the
    second format name, before ["PNG"] is tried; the [except Exception]
    turns it into [None].  So on a cache miss such an input gets [None],
    no client call, and no cache entry, whatever the PNG plugin would have
    done. *)
Theorem llm_caption_non_jpeg_none (OPEN : pystr -> option (plugin image))
    (si : stream_info) (model : pystr) (prompt : option pystr) (w : world) :
  (forall d, pil_open d = image_open OPEN code_formats d) ->
  OPEN (lit "JPG") = None ->
  (forall p, OPEN (lit "JPEG") = Some p -> plugin_accept p (firstn 16 (data_at (w_stream w))) = false) ->
  st_seekable (w_stream w) = true -> st_read_exc (w_stream w) = None ->
  w_cache w !! md5_hexdigest (data_at (w_stream w)) = None ->
  llm_caption si model prompt w = (Ret None, w).
Proof.
  intros Hpil Hjpg Hjpeg Hs Hr Hc. apply (llm_caption_open_fails si model prompt w KeyError Hs Hr Hc); [|reflexivity].
  rewrite Hpil. exact (image_open_non_jpeg OPEN _ Hjpg Hjpeg).
Qed.

(** [C9] An exception from the client is not caught: it propagates, the
    attempted call is in the log, nothing is cached, and the stream has
    already been restored by the [finally]. *)
Theorem llm_caption_client_error (si : stream_info) (model : pystr) (prompt : option pystr)
    (w : world) (uri : pystr) (e : exn) :
  st_seekable (w_stream w) = true -> st_read_exc (w_stream w) = None ->
  w_cache w !! md5_hexdigest (data_at (w_stream w)) = None ->
  fst (encode_image_as_base64_data_uri (data_at (w_stream w)) 1080 w) = Ret uri ->
  chat_completions_create (w_calls w) (caption_request model (choose_prompt prompt) uri) = Exc e ->
  let w' := snd (llm_caption si model prompt w) in
  fst (llm_caption si model prompt w) = Exc e /\ w_cache w' = w_cache w /\
  w_stream w' = w_stream w /\
  w_calls w' = w_calls w ++ [(caption_request model (choose_prompt prompt) uri, Exc e)].
Proof.
  intros Hs Hr Hc He Hcl w'. subst w'.
  destruct (llm_caption_miss si model prompt w uri Hs Hr Hc He) as (w1 & -> & Hst & Hwc & Hwl).
  unfold after_try. rewrite Hwl, Hcl. simpl. auto.
Qed.

(** [C8] A [None] content is cached like a caption: when the model's
    first choice has no text, [llm_caption] returns [None] and stores
    [None] under the data's key, so (by the repeat theorem, C2) every later
    call on the same bytes returns [None] without asking the model
    again. *)
Theorem llm_caption_caches_none (si : stream_info) (model : pystr) (prompt : option pystr)
    (w : world) (uri : pystr) (rest : list choice) :
  st_seekable (w_stream w) = true -> st_read_exc (w_stream w) = None ->
  w_cache w !! md5_hexdigest (data_at (w_stream w)) = None ->
  fst (encode_image_as_base64_data_uri (data_at (w_stream w)) 1080 w) = Ret uri ->
  chat_completions_create (w_calls w) (caption_request model (choose_prompt prompt) uri)
    = Ret (Choice None :: rest) ->
  fst (llm_caption si model prompt w) = Ret None /\
  w_cache (snd (llm_caption si model prompt w)) !! md5_hexdigest (data_at (w_stream w)) = Some None.
Proof.
  intros Hs Hr Hc He Hcl.
  destruct (llm_caption_miss si model prompt w uri Hs Hr Hc He) as (w1 & -> & Hst & Hwc & Hwl).
  unfold after_try. rewrite Hwl, Hcl. simpl. split; [reflexivity|]. apply lookup_insert_eq.
Qed.

(** [C4] MD5 collisions make the cache answer for the wrong image: the
    two 128-byte messages [collision_a] and [collision_b] differ, yet when
    [MEMCACHE] holds a caption for [collision_a], a call on a stream whose
    remaining bytes are [collision_b] returns that caption and changes
    nothing.  The cache maps a key to one caption per hash, not per
    distinct content. *)
Theorem llm_caption_md5_collision (si : stream_info) (model : pystr) (prompt : option pystr)
    (w : world) (c : option pystr) :
  collision_a <> collision_b /\
  (st_seekable (w_stream w) = true -> st_read_exc (w_stream w) = None ->
   data_at (w_stream w) = collision_b ->
   w_cache w !! md5_hexdigest collision_a = Some c ->
   llm_caption si model prompt w = (Ret c, w)).
Proof.
  destruct md5_collision as [Hne Heq]. split; [exact Hne|].
  intros Hs Hr Hd Hc. apply llm_caption_hit; [exact Hs|exact Hr|].
  rewrite Hd, <- Heq. exact Hc.
Qed.

(** [C13] Every request [llm_caption] sends is the one of lines 75-91: the
    chosen prompt as a text part, then a [data:image/jpeg;base64,] URI
    whose payload is the base64 encoding of some bytes, in one [user]
    message, with the caller's model and temperature 0.6. *)
Theorem llm_caption_request_shape (si : stream_info) (model : pystr) (prompt : option pystr)
    (w : world) (req : request) (r : outcome response) :
  w_calls (snd (llm_caption si model prompt w)) = w_calls w ++ [(req, r)] ->
  exists bs, req = caption_request model (choose_prompt prompt)
                     (data_uri_prefix ++ map bval (b64encode bs)).
Proof.
  destruct (llm_caption_decomp si model prompt w) as (r0 & w1 & -> & _ & _ & Hl & Hr).
  unfold after_try. destruct r0 as [[v|[k uri]]|e];
    try (simpl; rewrite Hl; intros Heq; apply (f_equal (@List.length _)) in Heq;
         rewrite length_app in Heq; simpl in Heq; lia).
  intros Heq. destruct (Hr k uri eq_refl) as (_ & _ & _ & bs & ->). exists bs. rewrite !Hl in Heq.
  destruct (chat_completions_create _ _) as [ch|e]; [destruct (first_content ch)|]; simpl in Heq;
    apply app_inj_tail in Heq as [_ Heq]; injection Heq as Hreq _; rewrite <- Hreq; reflexivity.
Qed.
(** [C17] The exceptions that escape [llm_caption]: an [OSError] from
    [tell()] on a stream that cannot seek (raised before the [try]), an
    exception that is not an [Exception] (such as [KeyboardInterrupt])
    from [read()] or from preparing the image, an exception raised by the
    client (which is then in the log), or the [IndexError] of
    [choices[0]] on an empty answer.  Every other failure is turned into
    [None]. *)
Theorem llm_caption_escaping_exceptions (si : stream_info) (model : pystr) (prompt : option pystr)
    (w : world) (e : exn) :
  fst (llm_caption si model prompt w) = Exc e ->
  (st_seekable (w_stream w) = false /\ e = OSError) \/
  is_Exception e = false \/
  (exists req, In (req, Exc e) (w_calls (snd (llm_caption si model prompt w)))) \/
  e = IndexError.
Proof.
  rewrite llm_caption_run. destruct (st_seekable (w_stream w)) eqn:Hs; [|intros [= <-]; auto].
  rewrite try_block by exact Hs.
  destruct (st_read_exc (w_stream w)) as [e'|].
  { simpl. destruct (is_Exception e') eqn:He; simpl; [discriminate|intros [= <-]; auto]. }
  destruct (w_cache w !! _); [discriminate|].
  destruct (encode_image_as_base64_data_uri _ _ _) as [[uri|e'] w'].
  - unfold after_try. simpl. destruct (chat_completions_create _ _) as [ch|e'] eqn:Hc.
    + destruct (first_content ch) as [v|e'] eqn:Hf; simpl; [discriminate|].
      intros [= <-]. right; right; right. destruct ch; [injection Hf as <-; reflexivity|discriminate].
    + simpl. intros [= <-]. right; right; left. eexists. apply in_or_app. right. left. reflexivity.
  - simpl. destruct (is_Exception e') eqn:He; simpl; [discriminate|intros [= <-]; auto].
Qed.

(** [C26] End to end, for an image that is passed through: when the
    stream can be read, its digest is not cached, and PIL opens its bytes
    as a JPEG whose shorter side is at most 1080, the one request the call
    sends carries a data URI whose payload decodes to exactly the bytes
    the stream had from its position on; the model sees the caller's
    image, byte for byte. *)
Theorem llm_caption_sends_stream_bytes (si : stream_info) (model : pystr) (prompt : option pystr)
    (w : world) (img : image) :
  st_seekable (w_stream w) = true -> st_read_exc (w_stream w) = None ->
  w_cache w !! md5_hexdigest (data_at (w_stream w)) = None ->
  pil_open (data_at (w_stream w)) = Ret img -> min_size (img_size img) <= 1080 ->
  format_is_jpeg (img_format img) = true ->
  exists payload r,
    w_calls (snd (llm_caption si model prompt w)) =
      w_calls w ++ [(caption_request model (choose_prompt prompt) (data_uri_prefix ++ payload), r)] /\
    b64decode (map byte_of_Z payload) = Some (data_at (w_stream w)).
Proof.
  intros Hs Hr Hc Ho Hm Hf.
  assert (He : fst (encode_image_as_base64_data_uri (data_at (w_stream w)) 1080 w) =
               Ret (data_uri_prefix ++ map bval (b64encode (data_at (w_stream w))))).
  { unfold encode_image_as_base64_data_uri, bind, lift, ret. rewrite Ho, Hf.
    apply Z.leb_le in Hm. rewrite Hm. simpl. rewrite b64_str_ok. reflexivity. }
  destruct (llm_caption_miss si model prompt w _ Hs Hr Hc He) as (w1 & -> & _ & _ & Hl).
  set (uri := data_uri_prefix ++ _) in *.
  exists (map bval (b64encode (data_at (w_stream w)))),
    (chat_completions_create (w_calls w1) (caption_request model (choose_prompt prompt) uri)).
  split; [|apply payload_decodes]. unfold after_try.
  destruct (chat_completions_create _ _) as [ch|e]; [destruct (first_content ch)|];
    simpl; world_simpl; rewrite Hl; reflexivity.
Qed.

End Behaviour.

(** [C14] The prompt the code sends is the caller's prompt, unstripped,
    unless it is [None] or consists only of whitespace ([str.isspace]
    code points, Unicode ones included), in which case it is the default
    prompt. *)
Theorem choose_prompt_spec (prompt : option pystr) :
  choose_prompt prompt =
  match prompt with
  | Some p => if forallb py_isspace p then default_prompt else p
  | None => default_prompt
  end.
Proof.
  destruct prompt as [p|]; [|reflexivity]. simpl. unfold pystr_eqb.
  destruct (list_eq_dec Z.eq_dec (strip p) []) as [Hs|Hs];
    destruct (forallb py_isspace p) eqn:E; try reflexivity; exfalso.
  - apply strip_nil_iff, forallb_isspace_iff in Hs. congruence.
  - apply Hs, strip_nil_iff, forallb_isspace_iff. exact E.
Qed.

(** The stream's metadata does not matter: the content type computed
    from it (lines 52-56) is never used, so two calls that differ only in
    [stream_info] behave identically. *)
Theorem llm_caption_ignores_stream_info `{PilImage} `{ChatClient} `{MimeTypes}
    (si si' : stream_info) (model : pystr) (prompt : option pystr) (w : world) :
  llm_caption si model prompt w = llm_caption si' model prompt w.
Proof. reflexivity. Qed.

(** ** Witnesses *)

Lemma llm_caption_cache_hit_witness :
  @llm_caption ToyPil FailingClient NoMime no_info (lit "gpt-4o") None hit_world
    = (Ret (Some (lit "a cat")), hit_world).
Proof. apply llm_caption_cache_hit; vm_compute; reflexivity. Defined.

Lemma llm_caption_repeat_witness :
  fst (@llm_caption ToyPil CatClient NoMime no_info (lit "other-model") (Some (lit "Describe it.")) (snd cat_run))
    = Ret (Some (lit "a cat")) /\
  w_calls (snd (@llm_caption ToyPil CatClient NoMime no_info (lit "other-model") (Some (lit "Describe it.")) (snd cat_run)))
    = w_calls (snd cat_run) /\
  w_cache (snd (@llm_caption ToyPil CatClient NoMime no_info (lit "other-model") (Some (lit "Describe it.")) (snd cat_run)))
    = w_cache (snd cat_run).
Proof.
  apply (@llm_caption_repeat ToyPil CatClient NoMime no_info no_info (lit "gpt-4o") (lit "other-model")
           None (Some (lit "Describe it.")) (fresh_world (toy_jpeg 100 50))).
  vm_compute. reflexivity.
Defined.

Lemma llm_caption_cache_monotone_witness :
  w_cache (snd (@llm_caption ToyPil CatClient NoMime no_info (lit "gpt-4o") None
                 (with_stream (Stream (toy_jpeg 300 200) 0 true None) hit_world)))
    !! md5_hexdigest (toy_jpeg 100 50) = Some (Some (lit "a cat")).
Proof. apply llm_caption_cache_monotone. vm_compute. reflexivity. Defined.

Lemma llm_caption_read_error_witness :
  @llm_caption ToyPil CatClient NoMime no_info (lit "gpt-4o") None interrupted_world
    = (if is_Exception KeyboardInterrupt then Ret None else Exc KeyboardInterrupt, interrupted_world).
Proof. apply llm_caption_read_error; reflexivity. Defined.

Lemma llm_caption_open_error_witness :
  @llm_caption ToyPil CatClient NoMime no_info (lit "gpt-4o") None (fresh_world [Byte.x01; Byte.x02])
    = (Ret None, fresh_world [Byte.x01; Byte.x02]).
Proof. apply (llm_caption_open_error _ _ _ _ KeyError); vm_compute; reflexivity. Defined.

Lemma llm_caption_client_error_witness :
  let w' := snd (@llm_caption ToyPil FailingClient NoMime no_info (lit "gpt-4o") None (fresh_world (toy_jpeg 100 50))) in
  fst (@llm_caption ToyPil FailingClient NoMime no_info (lit "gpt-4o") None (fresh_world (toy_jpeg 100 50)))
    = Exc ClientError /\
  w_cache w' = w_cache (fresh_world (toy_jpeg 100 50)) /\
  w_stream w' = w_stream (fresh_world (toy_jpeg 100 50)) /\
  w_calls w' = w_calls (fresh_world (toy_jpeg 100 50)) ++
               [(caption_request (lit "gpt-4o") (choose_prompt None) toy_uri, Exc ClientError)].
Proof. apply (llm_caption_client_error _ _ _ _ toy_uri); vm_compute; reflexivity. Defined.

Lemma llm_caption_caches_none_witness :
  fst (@llm_caption ToyPil NoTextClient NoMime no_info (lit "gpt-4o") None (fresh_world (toy_jpeg 100 50)))
    = Ret None /\
  w_cache (snd (@llm_caption ToyPil NoTextClient NoMime no_info (lit "gpt-4o") None (fresh_world (toy_jpeg 100 50))))
    !! md5_hexdigest (data_at (w_stream (fresh_world (toy_jpeg 100 50)))) = Some None.
Proof. apply (llm_caption_caches_none _ _ _ _ toy_uri []); vm_compute; reflexivity. Defined.

Lemma llm_caption_md5_collision_witness :
  @llm_caption ToyPil FailingClient NoMime no_info (lit "gpt-4o") None collision_world
    = (Ret (Some (lit "a cat")), collision_world).
Proof. apply (llm_caption_md5_collision no_info (lit "gpt-4o") None collision_world); vm_compute; reflexivity. Defined.

Lemma llm_caption_request_shape_witness :
  exists bs, caption_request (lit "gpt-4o") default_prompt toy_uri =
             caption_request (lit "gpt-4o") (choose_prompt None) (data_uri_prefix ++ map bval (b64encode bs)).
Proof.
  apply (@llm_caption_request_shape ToyPil CatClient NoMime no_info (lit "gpt-4o") None
           (fresh_world (toy_jpeg 100 50)) _ (Ret [Choice (Some (lit "a cat"))])).
  vm_compute. reflexivity.
Defined.

Lemma llm_caption_escaping_exceptions_witness :
  fst (@llm_caption ToyPil CatClient NoMime no_info (lit "gpt-4o") None interrupted_world) = Exc KeyboardInterrupt /\
  ((st_seekable (w_stream interrupted_world) = false /\ KeyboardInterrupt = OSError) \/
   is_Exception KeyboardInterrupt = false \/
   (exists req, In (req, Exc KeyboardInterrupt)
                  (w_calls (snd (@llm_caption ToyPil CatClient NoMime no_info (lit "gpt-4o") None interrupted_world)))) \/
   KeyboardInterrupt = IndexError).
Proof.
  assert (H : fst (@llm_caption ToyPil CatClient NoMime no_info (lit "gpt-4o") None interrupted_world)
              = Exc KeyboardInterrupt) by (vm_compute; reflexivity).
  split; [exact H|]. apply (llm_caption_escaping_exceptions no_info (lit "gpt-4o") None interrupted_world). exact H.
Defined.

(** The first call on the toy JPEG sends its bytes. *)
Lemma llm_caption_sends_stream_bytes_witness :
  exists payload r,
    w_calls (snd cat_run) =
      w_calls (fresh_world (toy_jpeg 100 50)) ++
        [(caption_request (lit "gpt-4o") (choose_prompt None) (data_uri_prefix ++ payload), r)] /\
    b64decode (map byte_of_Z payload) = Some (toy_jpeg 100 50).
Proof.
  apply (@llm_caption_sends_stream_bytes ToyPil CatClient NoMime no_info (lit "gpt-4o") None
           (fresh_world (toy_jpeg 100 50)) (Toy (Some (lit "JPEG")) (100, 50))); vm_compute; try reflexivity; discriminate.
Defined.

(** A PNG header (marker [0x89], 100 x 50) read by the Pillow-like
    [ToyPil]: the call answers [None] without calling the client. *)
Lemma llm_caption_non_jpeg_none_witness :
  let w := fresh_world [byte_of_Z 137; Byte.x00; byte_of_Z 100; Byte.x00; byte_of_Z 50; Byte.x07] in
  @llm_caption ToyPil CatClient NoMime no_info (lit "gpt-4o") None w = (Ret None, w).
Proof.
  apply (@llm_caption_non_jpeg_none ToyPil CatClient NoMime toy_registry);
    [intros d; reflexivity|reflexivity| |reflexivity|reflexivity|vm_compute; reflexivity].
  intros p Hp. vm_compute in Hp. injection Hp as <-. vm_compute. reflexivity.
Defined.
