(* ===== verification/Session.v ===== *)
(** * Sessions: many calls sharing [MEMCACHE]

    [MEMCACHE] lives as long as the process, so what matters about it is
    what a whole sequence of calls does.  A session is a sequence of
    steps on the [world]: a call of [llm_caption] on the world's stream
    (with any metadata, model and prompt), or the caller changing its
    stream between calls (another file, another position).  [step] is
    that relation, [reachable] the worlds a session reaches from a fresh
    process (empty cache, no call made yet), and the invariants are proved
    by induction on the session.

    The per-call fact everything rests on is [llm_caption_effect]: a call
    either leaves the cache and the log alone, or logs exactly one client
    call, and changes the cache only when that call's
    [choices[0].message.content] could be read, by inserting its value
    under the hexdigest of the bytes read, a key that was absent.  The
    progress theorem [session_eventually_cached] goes the other way: with
    a client that answers, a readable image gets cached. *)

From stdpp Require Import gmap.
From Stdlib Require Import Floats.
From S2P Require Import Prelude PyRuntime PyStr Base64 Md5 PyFloat Image Stream Client World LlmCaption.

Local Open Scope Z_scope.

(** A logged answer the code caches: the client returned and
    [response.choices[0].message.content] did not raise. *)
Definition cached_response (r : outcome response) : bool :=
  match r with
  | Ret chs => match first_content chs with Ret _ => true | Exc _ => false end
  | Exc _ => false
  end.

(** The number of answers of the log that the code cached. *)
Fixpoint successes (l : call_log) : nat :=
  match l with
  | [] => O
  | (_, r) :: t => ((if cached_response r then 1 else 0) + successes t)%nat
  end.

Section Session.
Context `{PilImage} `{ChatClient} `{MimeTypes}.

Inductive step : world -> world -> Prop :=
| step_call (si : stream_info) (model : pystr) (prompt : option pystr) (w : world) :
    step w (snd (llm_caption si model prompt w))
| step_stream (st : stream) (w : world) :
    step w (with_stream st w).

(** A fresh process: [MEMCACHE = {}] (line 8) and no call made. *)
Definition initial (w : world) : Prop := w_cache w = ∅ /\ w_calls w = [].

Definition reachable (w : world) : Prop := exists w0, initial w0 /\ rtc step w0 w.

(** Every cached value is the [message.content] of an answer in the log,
    under the hexdigest of some bytes. *)
Definition provenance (w : world) : Prop :=
  forall k v, w_cache w !! k = Some v ->
  exists bs req chs, k = md5_hexdigest bs /\ In (req, Ret chs) (w_calls w) /\
                     first_content chs = Ret v.

(** The cache has exactly one entry per cached answer of the log. *)
Definition counted (w : world) : Prop := size (w_cache w) = successes (w_calls w).

Definition session_inv (w : world) : Prop := provenance w /\ counted w.

(** Every key of the cache is the hexdigest of bytes PIL could open. *)
Definition decodable (w : world) : Prop :=
  forall k v, w_cache w !! k = Some v ->
  exists bs img, k = md5_hexdigest bs /\ pil_open bs = Ret img.

End Session.

(** ** Lemmas *)

Lemma successes_app (l : call_log) (x : request * outcome response) :
  successes (l ++ [x]) = (successes l + if cached_response (snd x) then 1 else 0)%nat.
Proof.
  induction l as [|[q r] t IH]; simpl; [destruct x as [q r]; simpl; lia|].
  rewrite IH. lia.
Qed.

Section Effect.
Context `{PilImage} `{ChatClient} `{MimeTypes}.

(** What the code after the [try] does to the cache and the log: nothing,
    or one logged client call, followed, when its answer could be read,
    by the store of that answer under the key the try block gave. *)
Lemma after_try_effect (model prompt : pystr) (r : outcome (option pystr + (pystr * pystr)))
    (w1 : world) :
  let w' := snd (after_try model prompt r w1) in
  (w_calls w' = w_calls w1 /\ w_cache w' = w_cache w1) \/
  exists k uri req resp, r = Ret (inr (k, uri)) /\ w_calls w' = w_calls w1 ++ [(req, resp)] /\
    ((cached_response resp = false /\ w_cache w' = w_cache w1) \/
     (exists chs v, resp = Ret chs /\ first_content chs = Ret v /\
                    w_cache w' = <[k := v]> (w_cache w1))).
Proof.
  unfold after_try. destruct r as [[v|[k uri]]|e]; [left; auto| |left; auto].
  right. exists k, uri. destruct (chat_completions_create _ _) as [chs|e].
  - destruct (first_content chs) as [v|e] eqn:F; simpl; eexists _, _;
      (split; [reflexivity|]); (split; [reflexivity|]).
    + right. eauto.
    + left. simpl. rewrite F. auto.
  - simpl. eexists _, _. split; [reflexivity|]. split; [reflexivity|]. left. auto.
Qed.

(** What one call does to the cache and the log. *)
Lemma llm_caption_effect (si : stream_info) (model : pystr) (prompt : option pystr) (w : world) :
  let w' := snd (llm_caption si model prompt w) in
  (w_calls w' = w_calls w /\ w_cache w' = w_cache w) \/
  exists req r, w_calls w' = w_calls w ++ [(req, r)] /\
    ((cached_response r = false /\ w_cache w' = w_cache w) \/
     (exists chs v, r = Ret chs /\ first_content chs = Ret v /\
        w_cache w !! md5_hexdigest (data_at (w_stream w)) = None /\
        (exists img, pil_open (data_at (w_stream w)) = Ret img) /\
        w_cache w' = <[md5_hexdigest (data_at (w_stream w)) := v]> (w_cache w))).
Proof.
  destruct (llm_caption_decomp si model prompt w) as (r & w1 & -> & _ & Hc & Hl & Hr). cbv zeta.
  destruct (after_try_effect model (choose_prompt prompt) r w1)
    as [[-> ->]|(k & uri & req & resp & -> & -> & Hcase)]; [left; auto|right].
  destruct (Hr k uri eq_refl) as (-> & Hk & Himg & _). exists req, resp. rewrite Hl. rewrite Hc in Hcase.
  split; [reflexivity|]. destruct Hcase as [[? ->]|(chs & v & ? & ? & ->)]; [left|right]; eauto 10.
Qed.

(** A call keeps every entry of the cache and every call of the log. *)
Lemma llm_caption_keeps (si : stream_info) (model : pystr) (prompt : option pystr) (w : world) :
  let w' := snd (llm_caption si model prompt w) in
  (forall k v, w_cache w !! k = Some v -> w_cache w' !! k = Some v) /\
  (forall x, In x (w_calls w) -> In x (w_calls w')).
Proof.
  cbv zeta. destruct (llm_caption_effect si model prompt w) as [[-> ->]|(req & r & -> & [[_ ->]|(chs & v & _ & _ & Hn & _ & ->)])];
    split; auto using in_or_app.
  intros k v' Hk. rewrite lookup_insert_ne; [exact Hk|congruence].
Qed.

Lemma step_keeps (w w' : world) :
  step w w' ->
  (forall k v, w_cache w !! k = Some v -> w_cache w' !! k = Some v) /\
  (forall x, In x (w_calls w) -> In x (w_calls w')).
Proof. destruct 1; [apply llm_caption_keeps|split; auto]. Qed.

(** The two ways a world's cache and log change, for [provenance] and
    [decodable]: the log grows with the cache unchanged, or one answer is
    logged and its content stored. *)
Lemma provenance_grow (w w' : world) :
  provenance w -> w_cache w' = w_cache w -> (forall x, In x (w_calls w) -> In x (w_calls w')) ->
  provenance w'.
Proof.
  intros Hp Hc Hin k v Hk. rewrite Hc in Hk.
  destruct (Hp k v Hk) as (bs & req & chs & ? & ? & ?). eauto 10.
Qed.

Lemma provenance_store (w w' : world) (bs : list byte) (req : request) (chs : response) (v : option pystr) :
  provenance w -> w_calls w' = w_calls w ++ [(req, Ret chs)] -> first_content chs = Ret v ->
  w_cache w' = <[md5_hexdigest bs := v]> (w_cache w) -> provenance w'.
Proof.
  intros Hp Hl Hf Hc k v' Hk. rewrite Hc in Hk. rewrite Hl.
  destruct (decide (k = md5_hexdigest bs)) as [->|Hne].
  - rewrite lookup_insert_eq in Hk. injection Hk as <-. exists bs, req, chs. auto using in_or_app, in_eq.
  - rewrite lookup_insert_ne in Hk by congruence.
    destruct (Hp k v' Hk) as (bs' & req' & chs' & ? & ? & ?). eauto 10 using in_or_app.
Qed.

Lemma decodable_store (w w' : world) (bs : list byte) (img : image) (v : option pystr) :
  decodable w -> pil_open bs = Ret img -> w_cache w' = <[md5_hexdigest bs := v]> (w_cache w) ->
  decodable w'.
Proof.
  intros Hd Himg Hc k v' Hk. rewrite Hc in Hk.
  destruct (decide (k = md5_hexdigest bs)) as [->|Hne]; [eauto|].
  rewrite lookup_insert_ne in Hk by congruence. exact (Hd k v' Hk).
Qed.

Lemma provenance_step (w w' : world) : step w w' -> provenance w -> provenance w'.
Proof.
  intros Hst Hp. destruct Hst as [si model prompt w|st w]; [|exact Hp].
  destruct (llm_caption_effect si model prompt w)
    as [[Hl Hc]|(req & r & Hl & [[_ Hc]|(chs & v & -> & Hf & _ & _ & Hc)])].
  - apply (provenance_grow w); [exact Hp|exact Hc|]. rewrite Hl. auto.
  - apply (provenance_grow w); [exact Hp|exact Hc|]. rewrite Hl. auto using in_or_app.
  - exact (provenance_store w _ _ req chs v Hp Hl Hf Hc).
Qed.

Lemma counted_step (w w' : world) : step w w' -> counted w -> counted w'.
Proof.
  unfold counted. destruct 1 as [si model prompt w|st w]; [|auto].
  destruct (llm_caption_effect si model prompt w)
    as [[-> ->]|(req & r & -> & [[Hr ->]|(chs & v & -> & Hf & Hn & _ & ->)])]; intros Hc;
    rewrite ?successes_app; simpl.
  - exact Hc.
  - rewrite Hr. lia.
  - rewrite map_size_insert_None by exact Hn. rewrite Hf. lia.
Qed.

Lemma decodable_step (w w' : world) : step w w' -> decodable w -> decodable w'.
Proof.
  intros Hst Hd. destruct Hst as [si model prompt w|st w]; [|exact Hd].
  destruct (llm_caption_effect si model prompt w)
    as [[_ Hc]|(req & r & _ & [[_ Hc]|(chs & v & _ & _ & _ & [img Himg] & Hc)])];
    [intros k v Hk; rewrite Hc in Hk; exact (Hd k v Hk)..|].
  exact (decodable_store w _ _ img v Hd Himg Hc).
Qed.

End Effect.

#[export] Hint Resolve provenance_step counted_step decodable_step : llmcap.

Section Invariants.
Context `{PilImage} `{ChatClient} `{MimeTypes}.

(** An invariant of [step] that holds initially holds in every reachable
    world. *)
Lemma reachable_inv (I : world -> Prop) :
  (forall w, initial w -> I w) -> (forall w w', step w w' -> I w -> I w') ->
  forall w, reachable w -> I w.
Proof.
  intros Hinit Hstep w (w0 & Hw0 & Hs). apply Hinit in Hw0.
  induction Hs as [|a b c Hab _ IH]; eauto.
Qed.

Lemma initial_provenance (w : world) : initial w -> provenance w.
Proof. intros [Hc _] k v. rewrite Hc, lookup_empty. discriminate. Qed.

Lemma initial_counted (w : world) : initial w -> counted w.
Proof. intros [Hc Hl]. unfold counted. rewrite Hc, Hl. reflexivity. Qed.

Lemma initial_decodable (w : world) : initial w -> decodable w.
Proof. intros [Hc _] k v. rewrite Hc, lookup_empty. discriminate. Qed.

(** Along a session, the cache keeps every entry it has. *)
Lemma rtc_step_keeps (w1 w2 : world) (k : pystr) (v : option pystr) :
  rtc step w1 w2 -> w_cache w1 !! k = Some v -> w_cache w2 !! k = Some v.
Proof. induction 1 as [|a b c Hab _ IH]; [auto|]. intros Hk. apply IH, (step_keeps a b Hab), Hk. Qed.

(** [C20] Every value in [MEMCACHE], in any world a session reaches from a
    fresh process, is the [message.content] of the first choice of an
    answer the client gave during the session, and it is stored under the
    MD5 hexdigest of some bytes: the cache holds nothing the model did not
    say. *)
Theorem session_provenance (w : world) : reachable w -> provenance w.
Proof. apply reachable_inv; [exact initial_provenance|exact provenance_step]. Qed.

(** [C21] In any world a session reaches from a fresh process, the number
    of entries of [MEMCACHE] is exactly the number of client answers the
    code cached: every cached answer created a new entry, so the client
    was never asked successfully twice about bytes with the same digest. *)
Theorem session_counted (w : world) : reachable w -> counted w.
Proof. apply reachable_inv; [exact initial_counted|exact counted_step]. Qed.

(** [C27] [MEMCACHE] only ever holds answers for images: in every world
    a session reaches from a fresh process, each key is the hexdigest of
    bytes that PIL opened.  A stream PIL cannot open (an empty or
    truncated file, an unsupported format) is answered [None] and never
    gets an entry, whatever the client would have said. *)
Theorem session_decodable (w : world) : reachable w -> decodable w.
Proof. apply reachable_inv; [exact initial_decodable|exact decodable_step]. Qed.

(** [C22] Once a session has cached a value under a digest, every later
    call, after any number of calls and stream changes, on a stream whose
    remaining bytes have that digest returns that value and changes
    nothing: no client call, no output, the same cache. *)
Theorem session_cached_forever (si : stream_info) (model : pystr) (prompt : option pystr)
    (w1 w2 : world) (v : option pystr) :
  rtc step w1 w2 ->
  w_cache w1 !! md5_hexdigest (data_at (w_stream w2)) = Some v ->
  st_seekable (w_stream w2) = true -> st_read_exc (w_stream w2) = None ->
  llm_caption si model prompt w2 = (Ret v, w2).
Proof.
  intros Hs Hk Hsk Hr. apply llm_caption_hit; [exact Hsk|exact Hr|].
  exact (rtc_step_keeps w1 w2 _ v Hs Hk).
Qed.

(** [C25] Progress: from any world whose stream can be read and whose
    bytes PIL can encode, when the client answers the next request with a
    readable [choices[0].message.content], the session reaches (in one
    call, or at once if it is already there) a world with the same stream
    in which [MEMCACHE] has an entry for the digest of the stream's
    bytes; from there on C22 applies. *)
Theorem session_eventually_cached (si : stream_info) (model : pystr) (prompt : option pystr)
    (w : world) :
  st_seekable (w_stream w) = true -> st_read_exc (w_stream w) = None ->
  (exists uri, fst (encode_image_as_base64_data_uri (data_at (w_stream w)) 1080 w) = Ret uri) ->
  (forall req, cached_response (chat_completions_create (w_calls w) req) = true) ->
  exists w', rtc step w w' /\ w_stream w' = w_stream w /\
             is_Some (w_cache w' !! md5_hexdigest (data_at (w_stream w))).
Proof.
  intros Hs Hr [uri He] Hcl.
  destruct (w_cache w !! md5_hexdigest (data_at (w_stream w))) as [v|] eqn:Hc.
  { exists w. split; [reflexivity|]. split; [reflexivity|]. rewrite Hc. eauto. }
  destruct (llm_caption_miss si model prompt w uri Hs Hr Hc He) as (w1 & Hrun & Hst & Hc1 & Hl1).
  exists (snd (llm_caption si model prompt w)). split; [apply rtc_once, step_call|].
  rewrite Hrun. split; [rewrite after_try_stream; exact Hst|]. unfold after_try. rewrite Hl1.
  specialize (Hcl (caption_request model (choose_prompt prompt) uri)). unfold cached_response in Hcl.
  destruct (chat_completions_create _ _) as [chs|e]; [|discriminate].
  destruct (first_content chs) as [cap|e]; [|discriminate].
  cbn [snd]. world_simpl. rewrite lookup_insert_eq. eauto.
Qed.

End Invariants.

(** ** Witnesses *)

Lemma cat_run_reachable : @reachable ToyPil CatClient NoMime (snd cat_run).
Proof.
  exists (fresh_world (toy_jpeg 100 50)). split; [split; reflexivity|].
  apply rtc_once. unfold cat_run. apply step_call.
Qed.

Lemma session_provenance_witness :
  @reachable ToyPil CatClient NoMime (snd cat_run) /\ provenance (snd cat_run).
Proof. split; [exact cat_run_reachable|apply (@session_provenance ToyPil CatClient NoMime (snd cat_run)); exact cat_run_reachable]. Defined.

Lemma session_counted_witness :
  @reachable ToyPil CatClient NoMime (snd cat_run) /\ counted (snd cat_run).
Proof. split; [exact cat_run_reachable|apply (@session_counted ToyPil CatClient NoMime (snd cat_run)); exact cat_run_reachable]. Defined.

(** After the first call, the caller opens another stream whose bytes from
    position 1 on are the same image: the second call is answered from the
    cache. *)
Lemma session_cached_forever_witness :
  let w2 := with_stream (Stream (Byte.x01 :: toy_jpeg 100 50) 1 true None) (snd cat_run) in
  @llm_caption ToyPil FailingClient NoMime no_info (lit "other-model") None w2 = (Ret (Some (lit "a cat")), w2).
Proof.
  apply (@session_cached_forever ToyPil FailingClient NoMime no_info (lit "other-model") None (snd cat_run)).
  - apply rtc_once. apply step_stream.
  - vm_compute. reflexivity.
  - reflexivity.
  - reflexivity.
Defined.

(** A fresh world holding the toy JPEG, with [CatClient]: one call caches
    the caption under the digest of its bytes. *)
Lemma session_eventually_cached_witness :
  exists w', @rtc _ (@step ToyPil CatClient NoMime) (fresh_world (toy_jpeg 100 50)) w' /\
    w_stream w' = w_stream (fresh_world (toy_jpeg 100 50)) /\
    is_Some (w_cache w' !! md5_hexdigest (data_at (w_stream (fresh_world (toy_jpeg 100 50))))).
Proof.
  apply (@session_eventually_cached ToyPil CatClient NoMime no_info (lit "gpt-4o") None).
  - reflexivity.
  - reflexivity.
  - eexists. vm_compute. reflexivity.
  - intros req. reflexivity.
Defined.

Lemma session_decodable_witness :
  @reachable ToyPil CatClient NoMime (snd cat_run) /\ @decodable ToyPil (snd cat_run).
Proof. split; [exact cat_run_reachable|apply (@session_decodable ToyPil CatClient NoMime (snd cat_run)); exact cat_run_reachable]. Defined.
