(* ===== verification/MemoSpec.v ===== *)
(** * What [MEMCACHE] promises, and when the code keeps the promise

    The specification of the cache (section 3 of the spec: "cache key
    uniquely maps to one caption per distinct byte content") is a memo
    table keyed by the bytes themselves.  [memo_spec] is that abstract
    machine: its state is a table ([gmap]) from byte strings to cached values
    together with the rest of the world, and one call either answers from
    the table (on a seekable stream whose [read()] succeeds) or runs the
    uncached function (the same code with an empty [MEMCACHE], as in a fresh
    process) and records what that run cached under the bytes it read.

    [cache_rel t c] relates a table to the concrete [MEMCACHE]: [c] is [t]
    with every key replaced by its MD5 hexdigest, and no two contents of
    [t] share a digest.  The refinement theorem [llm_caption_refines_memo]
    shows that one call of [llm_caption] is simulated by one step of
    [memo_spec] (same outcome, same world apart from the cache, and the
    caches related again) whenever the bytes read do not collide with a
    content already in the table; [memo_refinement_star] extends it to a
    whole session.  The collision theorem of [LlmCaption.v] shows that the
    hypothesis cannot be dropped. *)

From stdpp Require Import gmap.
From Stdlib Require Import Floats.
From S2P Require Import Prelude PyRuntime PyStr Base64 Md5 PyFloat Image Stream Client World LlmCaption.

Local Open Scope Z_scope.

(** The one value a run on an empty cache stored, if any. *)
Definition stored (c : gmap pystr (option pystr)) : option (option pystr) :=
  match map_to_list c with
  | [(_, v)] => Some v
  | _ => None
  end.

Section Spec.
Context `{PilImage} `{ChatClient} `{MimeTypes}.

(** The uncached function: [llm_caption] as a fresh process runs it. *)
Definition uncached (si : stream_info) (model : pystr) (prompt : option pystr)
    (w : world) : outcome (option pystr) * world :=
  llm_caption si model prompt (with_cache ∅ w).

(** One call of the specification on the table [t] and the world [w]
    (whose own cache the specification does not use). *)
Definition memo_spec (si : stream_info) (model : pystr) (prompt : option pystr)
    (t : gmap (list byte) (option pystr)) (w : world)
    : outcome (option pystr) * gmap (list byte) (option pystr) * world :=
  let st := w_stream w in
  match st_seekable st, st_read_exc st, t !! data_at st with
  | true, None, Some v => (Ret v, t, with_cache ∅ w)
  | _, _, _ =>
    let '(r, w') := uncached si model prompt w in
    (r, match stored (w_cache w') with Some v => <[data_at st := v]> t | None => t end,
     with_cache ∅ w')
  end.

(** The specification's session: calls, and the caller changing its
    stream. *)
Inductive astep : gmap (list byte) (option pystr) * world -> gmap (list byte) (option pystr) * world -> Prop :=
| astep_call (si : stream_info) (model : pystr) (prompt : option pystr)
    (t : gmap (list byte) (option pystr)) (w : world) :
    astep (t, w) (let '(_, t', w') := memo_spec si model prompt t w in (t', w'))
| astep_stream (st : stream) (t : gmap (list byte) (option pystr)) (w : world) :
    astep (t, w) (t, with_stream st w).

(** A session of the code whose calls read only contents satisfying [P]. *)
Inductive pstep (P : list byte -> Prop) : world -> world -> Prop :=
| pstep_call (si : stream_info) (model : pystr) (prompt : option pystr) (w : world) :
    P (data_at (w_stream w)) -> pstep P w (snd (llm_caption si model prompt w))
| pstep_stream (st : stream) (w : world) :
    pstep P w (with_stream st w).

End Spec.

(** The concrete cache is the table with its keys hashed, and the hash is
    injective on the table's contents. *)
Definition cache_rel (t : gmap (list byte) (option pystr)) (c : gmap pystr (option pystr)) : Prop :=
  (forall d v, t !! d = Some v -> c !! md5_hexdigest d = Some v) /\
  (forall k v, c !! k = Some v -> exists d, k = md5_hexdigest d /\ t !! d = Some v) /\
  (forall d1 d2 v1 v2, t !! d1 = Some v1 -> t !! d2 = Some v2 ->
     md5_hexdigest d1 = md5_hexdigest d2 -> d1 = d2).

(** The bytes [d] collide with no other content of the table. *)
Definition fresh_digest (t : gmap (list byte) (option pystr)) (d : list byte) : Prop :=
  forall d' v, t !! d' = Some v -> md5_hexdigest d' = md5_hexdigest d -> d' = d.

(** ** Lemmas *)

Lemma stored_empty : stored ∅ = None.
Proof. reflexivity. Qed.

Lemma stored_singleton (k : pystr) (v : option pystr) : stored {[k := v]} = Some v.
Proof. unfold stored. rewrite map_to_list_singleton. reflexivity. Qed.

Lemma cache_rel_empty : cache_rel ∅ ∅.
Proof.
  split; [|split]; intros *; rewrite ?lookup_empty; discriminate.
Qed.

(** A content absent from the table and colliding with none of its
    contents has its digest absent from the cache. *)
Lemma cache_rel_miss (t : gmap (list byte) (option pystr)) (c : gmap pystr (option pystr)) (d : list byte) :
  cache_rel t c -> fresh_digest t d -> t !! d = None -> c !! md5_hexdigest d = None.
Proof.
  intros (_ & Hc & _) Hf Ht. destruct (c !! md5_hexdigest d) as [v|] eqn:E; [|reflexivity].
  destruct (Hc _ _ E) as (d' & Hk & Hd'). rewrite (Hf d' v Hd' (eq_sym Hk)) in Hd'. congruence.
Qed.

Lemma cache_rel_insert (t : gmap (list byte) (option pystr)) (c : gmap pystr (option pystr)) (d : list byte) (v : option pystr) :
  cache_rel t c -> fresh_digest t d ->
  cache_rel (<[d := v]> t) (<[md5_hexdigest d := v]> c).
Proof.
  intros (H1 & H2 & H3) Hf. split; [|split].
  - intros d' v'. destruct (decide (d' = d)) as [->|Hne].
    + rewrite !lookup_insert_eq. auto.
    + rewrite lookup_insert_ne by congruence. intros Hd.
      rewrite lookup_insert_ne; [auto|]. intros Heq. apply Hne. exact (Hf d' v' Hd (eq_sym Heq)).
  - intros k v'. destruct (decide (k = md5_hexdigest d)) as [->|Hne].
    + rewrite lookup_insert_eq. intros [= <-]. exists d. rewrite lookup_insert_eq. auto.
    + rewrite lookup_insert_ne by congruence. intros Hk. destruct (H2 k v' Hk) as (d' & -> & Hd').
      exists d'. split; [reflexivity|]. rewrite lookup_insert_ne; [exact Hd'|congruence].
  - intros d1 d2 v1 v2.
    destruct (decide (d1 = d)) as [->|N1]; destruct (decide (d2 = d)) as [->|N2];
      rewrite ?lookup_insert_eq, ?lookup_insert_ne by congruence; intros Hd1 Hd2 Heq; auto.
    + symmetry. exact (Hf d2 v2 Hd2 (eq_sym Heq)).
    + exact (Hf d1 v1 Hd1 Heq).
    + exact (H3 d1 d2 v1 v2 Hd1 Hd2 Heq).
Qed.

Lemma with_cache_twice (c c' : gmap pystr (option pystr)) (w : world) :
  with_cache c (with_cache c' w) = with_cache c w.
Proof. reflexivity. Qed.

Section Refinement.
Context `{PilImage} `{ChatClient} `{MimeTypes}.

(** [C18] Refinement: when the concrete [MEMCACHE] is the content-keyed
    table [t] with its keys hashed, and the bytes the call reads collide
    with no content of [t], one call of [llm_caption] does what one step
    of the memo specification does: the same outcome, the same world
    apart from the cache, and a cache that is again the new table with its
    keys hashed. *)
Theorem llm_caption_refines_memo (si : stream_info) (model : pystr) (prompt : option pystr)
    (t : gmap (list byte) (option pystr)) (w : world) :
  cache_rel t (w_cache w) -> fresh_digest t (data_at (w_stream w)) ->
  let '(r, t', wa) := memo_spec si model prompt t w in
  fst (llm_caption si model prompt w) = r /\
  wa = with_cache ∅ (snd (llm_caption si model prompt w)) /\
  cache_rel t' (w_cache (snd (llm_caption si model prompt w))).
Proof.
  intros Hrel Hf. unfold memo_spec.
  destruct (st_seekable (w_stream w)) eqn:Hs, (st_read_exc (w_stream w)) as [e|] eqn:Hr,
    (t !! data_at (w_stream w)) as [v|] eqn:Ht.
  3: { rewrite (llm_caption_hit si model prompt w v Hs Hr (proj1 Hrel _ _ Ht)). auto. }
  all: assert (Hmiss : st_seekable (w_stream w) = true -> st_read_exc (w_stream w) = None ->
                       w_cache w !! md5_hexdigest (data_at (w_stream w)) = None)
         by (intros; try congruence; eapply cache_rel_miss; eauto).
  all: unfold uncached; destruct (llm_caption_frame si model prompt w ∅ Hmiss (fun _ _ => lookup_empty _))
         as (Hfst & Hw & Hc).
  all: destruct (llm_caption si model prompt (with_cache ∅ w)) as [r2 w2]; simpl in Hfst, Hw, Hc |- *.
  all: split; [auto|]; split; [rewrite Hw; reflexivity|].
  all: destruct Hc as [[-> ->]|(v' & -> & ->)]; [exact Hrel|].
  all: rewrite insert_empty, stored_singleton; apply cache_rel_insert; assumption.
Qed.

End Refinement.

Section Sessions.
Context `{PilImage} `{ChatClient} `{MimeTypes}.

(** The table after a step of the specification is the table before it,
    or that table with one entry for the bytes read. *)
Lemma memo_spec_table (si : stream_info) (model : pystr) (prompt : option pystr)
    (t : gmap (list byte) (option pystr)) (w : world) :
  let '(_, t', _) := memo_spec si model prompt t w in
  t' = t \/ exists v, t' = <[data_at (w_stream w) := v]> t.
Proof.
  unfold memo_spec.
  destruct (st_seekable (w_stream w)), (st_read_exc (w_stream w)), (t !! data_at (w_stream w)); auto;
    destruct (uncached si model prompt w) as [r w']; destruct (stored (w_cache w')); eauto.
Qed.

Variable P : list byte -> Prop.
Hypothesis P_no_collision : forall d1 d2, P d1 -> P d2 -> md5_hexdigest d1 = md5_hexdigest d2 -> d1 = d2.

Definition table_in_P (t : gmap (list byte) (option pystr)) : Prop := forall d v, t !! d = Some v -> P d.

(** One step of the code is matched by one step of the specification. *)
Lemma memo_simulation_step (w w' : world) (t : gmap (list byte) (option pystr)) :
  pstep P w w' -> cache_rel t (w_cache w) -> table_in_P t ->
  exists t', astep (t, with_cache ∅ w) (t', with_cache ∅ w') /\
             cache_rel t' (w_cache w') /\ table_in_P t'.
Proof.
  intros Hst Hrel Hin. destruct Hst as [si model prompt w Hp|st w].
  - assert (Hf : fresh_digest t (data_at (w_stream w))) by (intros d v Hd; apply P_no_collision; eauto).
    pose proof (llm_caption_refines_memo si model prompt t w Hrel Hf) as Href.
    pose proof (astep_call si model prompt t (with_cache ∅ w)) as Ha.
    pose proof (memo_spec_table si model prompt t w) as Htab.
    change (memo_spec si model prompt t (with_cache ∅ w)) with (memo_spec si model prompt t w) in Ha.
    destruct (memo_spec si model prompt t w) as [[r t'] wa]. destruct Href as (_ & -> & Hrel').
    exists t'. split; [exact Ha|]. split; [exact Hrel'|].
    destruct Htab as [->|[v ->]]; [exact Hin|]. intros d v'.
    destruct (decide (d = data_at (w_stream w))) as [->|Hne]; [auto|].
    rewrite lookup_insert_ne by congruence. apply Hin.
  - exists t. split; [|auto].
    change (with_cache ∅ (with_stream st w)) with (with_stream st (with_cache ∅ w)). apply astep_stream.
Qed.

(** [C19] Refinement of whole sessions: as long as the contents the caller
    passes have pairwise distinct MD5 digests, every session of the code
    that starts from a cache related to a table is matched by a session
    of the content-keyed specification, step for step, and the caches stay
    related all along. *)
Theorem memo_refinement_star (w w' : world) (t : gmap (list byte) (option pystr)) :
  rtc (pstep P) w w' -> cache_rel t (w_cache w) -> table_in_P t ->
  exists t', rtc astep (t, with_cache ∅ w) (t', with_cache ∅ w') /\ cache_rel t' (w_cache w').
Proof.
  intros Hs. revert t. induction Hs as [w|w1 w2 w3 H12 _ IH]; intros t Hrel Hin.
  - exists t. split; [reflexivity|exact Hrel].
  - destruct (memo_simulation_step w1 w2 t H12 Hrel Hin) as (t2 & Ha & Hrel2 & Hin2).
    destruct (IH t2 Hrel2 Hin2) as (t3 & Has & Hrel3).
    exists t3. split; [eapply rtc_l; eauto|exact Hrel3].
Qed.

End Sessions.

(** ** Witnesses *)

Lemma fresh_digest_empty (d : list byte) : fresh_digest ∅ d.
Proof. intros d' v Hd. rewrite lookup_empty in Hd. discriminate. Qed.

(** A first call on a fresh world: the client is asked, and the table
    gains the image's bytes. *)
Lemma llm_caption_refines_memo_witness :
  cache_rel ∅ (w_cache (fresh_world (toy_jpeg 100 50))) /\
  fresh_digest ∅ (data_at (w_stream (fresh_world (toy_jpeg 100 50)))) /\
  let '(r, t', wa) := @memo_spec ToyPil CatClient NoMime no_info (lit "gpt-4o") None ∅
                        (fresh_world (toy_jpeg 100 50)) in
  fst (@llm_caption ToyPil CatClient NoMime no_info (lit "gpt-4o") None (fresh_world (toy_jpeg 100 50))) = r /\
  wa = with_cache ∅ (snd (@llm_caption ToyPil CatClient NoMime no_info (lit "gpt-4o") None
                            (fresh_world (toy_jpeg 100 50)))) /\
  cache_rel t' (w_cache (snd (@llm_caption ToyPil CatClient NoMime no_info (lit "gpt-4o") None
                                (fresh_world (toy_jpeg 100 50))))).
Proof.
  split; [exact cache_rel_empty|]. split; [apply fresh_digest_empty|].
  apply llm_caption_refines_memo; [exact cache_rel_empty|apply fresh_digest_empty].
Defined.

(** A session that reads one image: the content predicate holds of one
    byte string only, so it has no collision. *)
Lemma memo_refinement_star_witness :
  exists t', rtc (@astep ToyPil CatClient NoMime)
               (∅, with_cache ∅ (fresh_world (toy_jpeg 100 50))) (t', with_cache ∅ (snd cat_run)) /\
             cache_rel t' (w_cache (snd cat_run)).
Proof.
  apply (@memo_refinement_star ToyPil CatClient NoMime (fun d => d = toy_jpeg 100 50)).
  - intros d1 d2 -> -> _. reflexivity.
  - apply rtc_once. unfold cat_run. apply pstep_call. reflexivity.
  - exact cache_rel_empty.
  - intros d v Hd. rewrite lookup_empty in Hd. discriminate.
Defined.
