(* ===== verification/Concurrency.v ===== *)
(** * Calls of [llm_caption] from several threads

    [MEMCACHE] is a module-level dict with no lock, so two Python threads
    may run [llm_caption] at the same time.  Each thread has its own
    stream; what they share is [MEMCACHE], standard output and the client.
    A thread's call is two blocks: [before_client] (lines 51-69: the
    content type, [tell], the [try] with the cache lookup and the
    encoding, the [finally]) and [after_try] (lines 71-95: the client
    call and the store).  A [thread] is waiting to run the first block,
    waiting to run the second with the outcome of the first, or finished;
    a configuration is the world and the list of threads, and [cstep]
    runs one block of one thread.  [run_schedule] runs the blocks named
    by a list of thread indices.

    The blocks are atomic in this model.  The only shared access inside
    [before_client] is the one dict lookup (line 63), so finer
    interleavings of it give the same results; inside [after_try] a
    switch between the client call and the store would only reorder the
    stores of two answers for the same key.

    The theorems: a thread whose two blocks run back to back computes
    exactly [llm_caption]; the cache only ever holds answers of the
    client, under digests of bytes PIL opened, whatever the interleaving;
    and the check-then-act of lines 63-94 is not atomic: two threads on
    the same image both miss and both call the client, so the exactly-once
    invariant of sessions ([counted]) does not survive interleaving. *)

From stdpp Require Import gmap.
From Stdlib Require Import Floats.
From S2P Require Import Prelude PyRuntime PyStr Base64 Md5 PyFloat Image Stream Client World LlmCaption Session.

Local Open Scope Z_scope.
Local Open Scope py_scope.

Section Threads.
Context `{PilImage} `{ChatClient} `{MimeTypes}.

Inductive thread :=
| Start (st : stream) (si : stream_info) (model : pystr) (prompt : option pystr)
| Waiting (st : stream) (model prompt : pystr) (r : outcome (option pystr + (pystr * pystr)))
| Finished (o : outcome (option pystr)).

(** One block of a thread, run in the shared world with the thread's own
    stream; [None] for a finished thread. *)
Definition run_thread (t : thread) (w : world) : option (thread * world) :=
  match t with
  | Start st si model prompt =>
    let '(r, w1) := before_client si (with_stream st w) in
    Some (Waiting (w_stream w1) model (choose_prompt prompt) r, w1)
  | Waiting st model prompt r =>
    let '(o, w2) := after_try model prompt r (with_stream st w) in
    Some (Finished o, w2)
  | Finished _ => None
  end.

Definition config : Type := world * list thread.

Inductive cstep : config -> config -> Prop :=
| cstep_run (w w' : world) (ts : list thread) (i : nat) (t t' : thread) :
    ts !! i = Some t -> run_thread t w = Some (t', w') ->
    cstep (w, ts) (w', <[i := t']> ts).

(** The blocks named by [sched], in order. *)
Fixpoint run_schedule (sched : list nat) (c : config) : option config :=
  match sched with
  | [] => Some c
  | i :: rest =>
    match c.2 !! i with
    | None => None
    | Some t =>
      match run_thread t c.1 with
      | None => None
      | Some (t', w') => run_schedule rest (w', <[i := t']> c.2)
      end
    end
  end.

(** A thread that has run its first block keeps, for its second, a key
    that is the digest of bytes PIL opened. *)
Definition pending_ok (t : thread) : Prop :=
  match t with
  | Waiting _ _ _ (Ret (inr (k, _))) => exists bs img, k = md5_hexdigest bs /\ pil_open bs = Ret img
  | _ => True
  end.

Definition conc_inv (c : config) : Prop :=
  provenance c.1 /\ decodable c.1 /\ Forall pending_ok c.2.

(** Threads that have not started, on a fresh process. *)
Definition conc_initial (c : config) : Prop :=
  w_cache c.1 = ∅ /\ Forall (fun t => exists st si model prompt, t = Start st si model prompt) c.2.

End Threads.

(** ** Test configurations *)

(** Two callers with the same toy JPEG, the second behind a one-byte
    prefix it has already read. *)
Definition toy_stream1 : stream := Stream (toy_jpeg 100 50) 0 true None.
Definition toy_stream2 : stream := Stream (Byte.x01 :: toy_jpeg 100 50) 1 true None.

Definition toy_threads : config :=
  (fresh_world (toy_jpeg 100 50),
   [Start toy_stream1 no_info (lit "gpt-4o") None; Start toy_stream2 no_info (lit "gpt-4o") None]).

(** Both first blocks, then both second blocks, with [CatClient]. *)
Definition toy_interleaved : config :=
  match @run_schedule ToyPil CatClient NoMime [0; 1; 0; 1]%nat toy_threads with
  | Some c => c
  | None => toy_threads
  end.

(** ** Lemmas *)

Section Lemmas.
Context `{PilImage} `{ChatClient} `{MimeTypes}.

Lemma run_schedule_step (i : nat) (rest : list nat) (w w' : world) (ts : list thread) (t t' : thread) :
  ts !! i = Some t -> run_thread t w = Some (t', w') ->
  run_schedule (i :: rest) (w, ts) = run_schedule rest (w', <[i := t']> ts).
Proof. intros Hi Hr. cbn [run_schedule fst snd]. rewrite Hi, Hr. reflexivity. Qed.

Lemma run_schedule_rtc (sched : list nat) : forall c c', run_schedule sched c = Some c' -> rtc cstep c c'.
Proof.
  induction sched as [|i rest IH]; intros [w ts] c'; cbn [run_schedule]; [intros [= <-]; reflexivity|].
  cbn [fst snd]. destruct (ts !! i) as [t|] eqn:Hi; [|discriminate].
  destruct (run_thread t w) as [[t' w']|] eqn:Hr; [|discriminate].
  intros Hs. eapply rtc_l; [econstructor; eauto|exact (IH _ _ Hs)].
Qed.

(** The first block changes neither the cache nor the log, and leaves a
    pending key that is the digest of bytes PIL opened. *)
Lemma run_start (st : stream) (si : stream_info) (model : pystr) (prompt : option pystr) (w : world) :
  exists t' w1, run_thread (Start st si model prompt) w = Some (t', w1) /\
    w_cache w1 = w_cache w /\ w_calls w1 = w_calls w /\ pending_ok t'.
Proof.
  unfold run_thread. pose proof (before_client_spec si (with_stream st w)) as Hsp.
  destruct (before_client si (with_stream st w)) as [r w1]. destruct Hsp as (_ & Hc & Hl & Hr).
  eexists _, _. split; [reflexivity|]. split; [exact Hc|]. split; [exact Hl|].
  destruct r as [[v|[k uri]]|e]; simpl; auto.
  destruct (Hr k uri eq_refl) as (-> & _ & [img Himg] & _). eauto.
Qed.

Lemma run_thread_miss (st : stream) (si : stream_info) (model : pystr) (prompt : option pystr)
    (w : world) (uri : pystr) :
  st_seekable st = true -> st_read_exc st = None ->
  w_cache w !! md5_hexdigest (data_at st) = None ->
  fst (encode_image_as_base64_data_uri (data_at st) 1080 w) = Ret uri ->
  exists w1, run_thread (Start st si model prompt) w =
    Some (Waiting st model (choose_prompt prompt) (Ret (inr (md5_hexdigest (data_at st), uri))), w1) /\
    w_cache w1 = w_cache w /\ w_calls w1 = w_calls w.
Proof.
  intros Hs Hr Hc He. rewrite (encode_outcome_indep _ _ w (with_stream st w)) in He.
  destruct (before_client_miss si (with_stream st w) uri Hs Hr Hc He) as (w1 & E & Hst & Hc1 & Hl1).
  exists w1. unfold run_thread. rewrite E, Hst. auto.
Qed.

Lemma run_thread_hit (st : stream) (si : stream_info) (model : pystr) (prompt : option pystr)
    (w : world) (v : option pystr) :
  st_seekable st = true -> st_read_exc st = None ->
  w_cache w !! md5_hexdigest (data_at st) = Some v ->
  run_thread (Start st si model prompt) w =
    Some (Waiting st model (choose_prompt prompt) (Ret (inl v)), with_stream st w).
Proof. intros Hs Hr Hc. unfold run_thread. rewrite (before_client_hit si (with_stream st w) v Hs Hr Hc). reflexivity. Qed.

Lemma run_thread_ret (st : stream) (model prompt : pystr) (v : option pystr) (w : world) :
  run_thread (Waiting st model prompt (Ret (inl v))) w = Some (Finished (Ret v), with_stream st w).
Proof. reflexivity. Qed.

(** The second block of a thread with a pending key, when the client
    answers: one logged call and the answer stored under the key. *)
Lemma run_thread_store (st : stream) (model prompt : pystr) (k uri : pystr) (w : world) :
  cached_response (chat_completions_create (w_calls w) (caption_request model prompt uri)) = true ->
  exists v resp w', run_thread (Waiting st model prompt (Ret (inr (k, uri)))) w = Some (Finished (Ret v), w') /\
    w_cache w' = <[k := v]> (w_cache w) /\
    w_calls w' = w_calls w ++ [(caption_request model prompt uri, resp)] /\ cached_response resp = true.
Proof.
  unfold run_thread, after_try. cbn [w_calls with_stream].
  destruct (chat_completions_create _ _) as [chs|e]; [|discriminate]. unfold cached_response.
  destruct (first_content chs) as [v|e] eqn:F; [|discriminate]. intros _.
  exists v, (Ret chs). eexists. split; [reflexivity|]. simpl. rewrite F. auto.
Qed.

(** One block of any thread keeps [conc_inv]. *)
Lemma conc_inv_step (c c' : config) : cstep c c' -> conc_inv c -> conc_inv c'.
Proof.
  intros [w w' ts i t t' Hi Hrun] (Hp & Hd & Hf). unfold conc_inv. cbn [fst snd] in *.
  pose proof (Forall_lookup_1 _ _ _ _ Hf Hi) as Ht.
  destruct t as [st si model prompt|st model prompt r|o]; [| |discriminate].
  - destruct (run_start st si model prompt w) as (t1 & w1 & Hr1 & Hc & Hl & Hok).
    rewrite Hr1 in Hrun. injection Hrun as <- <-.
    split; [apply (provenance_grow w); [exact Hp|exact Hc|rewrite Hl; auto]|].
    split; [intros k v Hk; rewrite Hc in Hk; exact (Hd k v Hk)|]. apply Forall_insert; assumption.
  - unfold run_thread in Hrun. pose proof (after_try_effect model prompt r (with_stream st w)) as He.
    destruct (after_try model prompt r (with_stream st w)) as [o w2]. injection Hrun as <- <-.
    cbn [snd] in He. split; [|split]; [..|apply Forall_insert; [exact Hf|exact I]].
    + destruct He as [[Hl Hc]|(k & uri & req & resp & -> & Hl & [[_ Hc]|(chs & v & -> & Hfc & Hc)])].
      * apply (provenance_grow w); [exact Hp|exact Hc|rewrite Hl; auto].
      * apply (provenance_grow w); [exact Hp|exact Hc|rewrite Hl; auto using in_or_app].
      * destruct Ht as (bs & img & -> & _). exact (provenance_store (with_stream st w) _ bs req chs v Hp Hl Hfc Hc).
    + destruct He as [[_ Hc]|(k & uri & req & resp & -> & _ & [[_ Hc]|(chs & v & _ & _ & Hc)])];
        [intros k' v' Hk; rewrite Hc in Hk; exact (Hd k' v' Hk)..|].
      destruct Ht as (bs & img & -> & Himg). exact (decodable_store (with_stream st w) _ bs img v Hd Himg Hc).
Qed.

Lemma conc_initial_inv (c : config) : conc_initial c -> conc_inv c.
Proof.
  intros [Hc Hf]. split; [|split].
  - intros k v. rewrite Hc, lookup_empty. discriminate.
  - intros k v. rewrite Hc, lookup_empty. discriminate.
  - eapply Forall_impl; [|exact Hf]. intros t (st & si & model & prompt & ->). exact I.
Qed.

End Lemmas.

(** Runs the next block of a schedule given the equation of that block. *)
Ltac sched_step R :=
  match goal with
  | |- context [run_schedule (?i :: ?rest) (?w, ?ts)] =>
    rewrite (run_schedule_step i rest w _ ts _ _ eq_refl R)
  end.

(** Two threads on streams with the same remaining bytes, an image PIL
    encodes, its digest not cached, and a client that answers. *)
Section SameImage.
Context `{PilImage} `{ChatClient} `{MimeTypes}.
Variables (si : stream_info) (model : pystr) (prompt : option pystr) (w : world)
  (st1 st2 : stream) (uri : pystr).
Hypotheses (Hs1 : st_seekable st1 = true) (Hs2 : st_seekable st2 = true)
  (Hr1 : st_read_exc st1 = None) (Hr2 : st_read_exc st2 = None)
  (Hd : data_at st2 = data_at st1)
  (Hc : w_cache w !! md5_hexdigest (data_at st1) = None)
  (He : fst (encode_image_as_base64_data_uri (data_at st1) 1080 w) = Ret uri)
  (Hcl : forall log req, cached_response (chat_completions_create log req) = true).

(** One after the other: the second call is a cache hit. *)
Lemma sequential_one_call :
  exists c, run_schedule [0; 0; 1; 1]%nat (w, [Start st1 si model prompt; Start st2 si model prompt]) = Some c /\
    List.length (w_calls c.1) = S (List.length (w_calls w)).
Proof.
  destruct (run_thread_miss st1 si model prompt w uri Hs1 Hr1 Hc He) as (w1 & R1 & Hc1 & Hl1).
  destruct (run_thread_store st1 model (choose_prompt prompt) (md5_hexdigest (data_at st1)) uri w1 (Hcl _ _))
    as (v & resp & w2 & R2 & Hc2 & Hl2 & _).
  assert (Hhit : w_cache w2 !! md5_hexdigest (data_at st2) = Some v)
    by (rewrite Hc2, Hd; apply lookup_insert_eq).
  eexists. split.
  - sched_step R1. sched_step R2. sched_step (run_thread_hit st2 si model prompt w2 v Hs2 Hr2 Hhit).
    sched_step (run_thread_ret st2 model (choose_prompt prompt) v (with_stream st2 w2)). reflexivity.
  - cbn [fst]. world_simpl. rewrite Hl2, Hl1, length_app. simpl. lia.
Qed.

(** Both first blocks before either second block: both miss, both call
    the client, and the second answer overwrites the first. *)
Lemma interleaved_two_calls :
  exists c, run_schedule [0; 1; 0; 1]%nat (w, [Start st1 si model prompt; Start st2 si model prompt]) = Some c /\
    List.length (w_calls c.1) = S (S (List.length (w_calls w))) /\
    size (w_cache c.1) = S (size (w_cache w)) /\
    successes (w_calls c.1) = (successes (w_calls w) + 2)%nat.
Proof.
  destruct (run_thread_miss st1 si model prompt w uri Hs1 Hr1 Hc He) as (w1 & R1 & Hc1 & Hl1).
  destruct (run_thread_miss st2 si model prompt w1 uri Hs2 Hr2) as (w2 & R2 & Hc2 & Hl2).
  { rewrite Hc1, Hd. exact Hc. }
  { rewrite Hd, (encode_outcome_indep _ _ w1 w). exact He. }
  destruct (run_thread_store st1 model (choose_prompt prompt) (md5_hexdigest (data_at st1)) uri w2 (Hcl _ _))
    as (v1 & resp1 & w3 & R3 & Hc3 & Hl3 & Hok1).
  destruct (run_thread_store st2 model (choose_prompt prompt) (md5_hexdigest (data_at st2)) uri w3 (Hcl _ _))
    as (v2 & resp2 & w4 & R4 & Hc4 & Hl4 & Hok2).
  eexists. split; [sched_step R1; sched_step R2; sched_step R3; sched_step R4; reflexivity|]. cbn [fst].
  rewrite Hl4, Hl3, Hl2, Hl1, !length_app, !successes_app. cbn [snd]. rewrite Hok1, Hok2.
  split; [simpl; lia|]. split; [|lia].
  rewrite Hc4, Hc3, Hd, insert_insert_eq, Hc2, Hc1. apply map_size_insert_None, Hc.
Qed.

End SameImage.

Section Properties.
Context `{PilImage} `{ChatClient} `{MimeTypes}.

(** A thread whose two blocks run back to back, with no other thread in
    between, computes exactly [llm_caption] on its stream: the split into
    blocks loses nothing, and a sequential program is the schedule [i; i]
    of each call in turn. *)
Lemma thread_runs_llm_caption (ts : list thread) (i : nat) (st : stream) (si : stream_info)
    (model : pystr) (prompt : option pystr) (w : world) :
  ts !! i = Some (Start st si model prompt) ->
  run_schedule [i; i] (w, ts) =
    Some (snd (llm_caption si model prompt (with_stream st w)),
          <[i := Finished (fst (llm_caption si model prompt (with_stream st w)))]> ts).
Proof.
  intros Hi. rewrite llm_caption_phases.
  destruct (before_client si (with_stream st w)) as [r w1] eqn:E. cbv beta iota.
  rewrite (run_schedule_step i [i] w w1 ts _ (Waiting (w_stream w1) model (choose_prompt prompt) r) Hi)
    by (unfold run_thread; rewrite E; reflexivity).
  destruct (after_try model (choose_prompt prompt) r w1) as [o w2] eqn:E2.
  rewrite (run_schedule_step i [] w1 w2 _ (Waiting (w_stream w1) model (choose_prompt prompt) r) (Finished o)).
  - cbn [run_schedule]. rewrite list_insert_insert_eq. reflexivity.
  - apply list_lookup_insert_eq. exact (lookup_lt_Some _ _ _ Hi).
  - unfold run_thread. rewrite with_stream_same, E2. reflexivity.
Qed.

(** [C28] Whatever the interleaving of the blocks of any number of
    threads started on a fresh process, every value in [MEMCACHE] is the
    content of an answer the client gave, and every key is the digest of
    bytes PIL opened: concurrency does not let a wrong entry in. *)
Theorem concurrent_cache_sound (c c' : config) :
  conc_initial c -> rtc cstep c c' -> provenance c'.1 /\ decodable c'.1.
Proof.
  intros Hi Hs. apply conc_initial_inv in Hi. revert Hi.
  induction Hs as [c|c1 c2 c3 H12 _ IH]; intros Hi; [|exact (IH (conc_inv_step c1 c2 H12 Hi))].
  destruct Hi as (? & ? & _). auto.
Qed.

End Properties.

(** [C29] The cache check and the cache store (lines 63 and 94) are not
    one atomic step: for two threads on streams with the same bytes, an
    image PIL encodes and a client that answers, running the calls one
    after the other makes one client call, but running both first blocks
    before either second block makes two, stores the second answer over
    the first and leaves one entry for two cached answers, so the
    exactly-once invariant [counted] of sequential sessions (C21) breaks. *)
Theorem interleaving_duplicates_call `{PilImage} `{ChatClient} `{MimeTypes}
    (si : stream_info) (model : pystr) (prompt : option pystr) (w : world) (st1 st2 : stream) (uri : pystr) :
  st_seekable st1 = true -> st_seekable st2 = true ->
  st_read_exc st1 = None -> st_read_exc st2 = None ->
  data_at st2 = data_at st1 -> w_cache w !! md5_hexdigest (data_at st1) = None ->
  fst (encode_image_as_base64_data_uri (data_at st1) 1080 w) = Ret uri ->
  (forall log req, cached_response (chat_completions_create log req) = true) ->
  (exists c, run_schedule [0; 0; 1; 1]%nat (w, [Start st1 si model prompt; Start st2 si model prompt]) = Some c /\
     List.length (w_calls c.1) = S (List.length (w_calls w))) /\
  (exists c, run_schedule [0; 1; 0; 1]%nat (w, [Start st1 si model prompt; Start st2 si model prompt]) = Some c /\
     List.length (w_calls c.1) = S (S (List.length (w_calls w))) /\
     size (w_cache c.1) = S (size (w_cache w)) /\ (counted w -> ~ counted c.1)).
Proof.
  intros Hs1 Hs2 Hr1 Hr2 Hd Hc He Hcl. split; [eapply sequential_one_call; eassumption|].
  destruct (interleaved_two_calls si model prompt w st1 st2 uri) as (c & Hrun & Hl & Hsz & Hsu);
    try assumption.
  exists c. do 3 (split; [assumption|]). unfold counted. rewrite Hsz, Hsu. lia.
Qed.

(** ** Witnesses *)

Lemma concurrent_cache_sound_witness :
  conc_initial toy_threads /\ rtc (@cstep ToyPil CatClient NoMime) toy_threads toy_interleaved /\
  provenance toy_interleaved.1 /\ @decodable ToyPil toy_interleaved.1.
Proof.
  assert (Hi : conc_initial toy_threads).
  { split; [reflexivity|]. repeat constructor; eauto 6. }
  assert (Hs : rtc (@cstep ToyPil CatClient NoMime) toy_threads toy_interleaved).
  { apply (run_schedule_rtc [0; 1; 0; 1]%nat). vm_compute. reflexivity. }
  split; [exact Hi|]. split; [exact Hs|]. apply (@concurrent_cache_sound ToyPil CatClient NoMime _ _ Hi Hs).
Defined.

Lemma interleaving_duplicates_call_witness :
  let cfg := (fresh_world (toy_jpeg 100 50),
              [Start toy_stream1 no_info (lit "gpt-4o") None; Start toy_stream2 no_info (lit "gpt-4o") None]) in
  (exists c, @run_schedule ToyPil CatClient NoMime [0; 0; 1; 1]%nat cfg = Some c /\
     List.length (w_calls c.1) = S (List.length (w_calls cfg.1))) /\
  (exists c, @run_schedule ToyPil CatClient NoMime [0; 1; 0; 1]%nat cfg = Some c /\
     List.length (w_calls c.1) = S (S (List.length (w_calls cfg.1))) /\
     size (w_cache c.1) = S (size (w_cache cfg.1)) /\ (counted cfg.1 -> ~ counted c.1)).
Proof.
  apply (@interleaving_duplicates_call ToyPil CatClient NoMime no_info (lit "gpt-4o") None
           (fresh_world (toy_jpeg 100 50)) toy_stream1 toy_stream2 toy_uri);
    try reflexivity; try (vm_compute; reflexivity); intros log req; reflexivity.
Defined.
